(** * SynthSeg: the two-phase training orchestrator and its command line

    A shallow embedding of [SynthSeg/training.py] ([training], [train_model])
    and of the two argparse command lines of
    [scripts/launch_scripts_from_terminal] ([training.py] and
    [supervised_training.py]), with the properties of the orchestration
    proved on it.

    The orchestrator is glue code: it calls the label registry, the file
    system, the generator, the network builder and keras in a fixed order.
    It is embedded as a program in a small monad (state of the outside world,
    Python exceptions, and the log of the calls made), run against a record
    of external collaborators. *)

From Stdlib Require Import ZArith QArith Bool List Ascii String DecimalString DecimalPos Lia.
From stdpp Require Import base gmap strings.
Import ListNotations.

Open Scope string_scope.
Open Scope Z_scope.

(** ** Python values, exceptions and string formatting *)

(** Values that travel through the orchestrator untouched (bounds, paths,
    switches).  A float is kept as the exact decimal it is written as. *)
Inductive pyval : Type :=
| PNone
| PBool (b : bool)
| PInt (z : Z)
| PFloat (q : Q)
| PStr (s : string).

(** Python's [==] on these values: numbers compare by value across int, float
    and bool. *)
Definition py_num (v : pyval) : option Q :=
  match v with
  | PBool b => Some (inject_Z (if b then 1 else 0))
  | PInt z => Some (inject_Z z)
  | PFloat q => Some q
  | _ => None
  end.

Definition py_eqb (a b : pyval) : bool :=
  match py_num a, py_num b with
  | Some x, Some y => Qeq_bool x y
  | _, _ =>
      match a, b with
      | PNone, PNone => true
      | PStr s, PStr t => String.eqb s t
      | _, _ => false
      end
  end.

(** An exception is its class and its message. *)
Record exn : Type := Raise { exn_class : string; exn_msg : string }.

Definition AssertionError (msg : string) : exn := Raise "AssertionError" msg.
Definition TypeError (msg : string) : exn := Raise "TypeError" msg.
Definition ValueError (msg : string) : exn := Raise "ValueError" msg.
Definition KeyError (msg : string) : exn := Raise "KeyError" msg.
Definition OSError (msg : string) : exn := Raise "OSError" msg.

(** [str(n)] for an int. *)
Definition str_of_int (n : Z) : string := NilZero.string_of_int (Z.to_int n).

Fixpoint zeros (n : nat) : string :=
  match n with
  | O => ""
  | S n' => String "0" (zeros n')
  end.

(** Left padding with zeros up to [width] characters. *)
Definition zfill (width : nat) (s : string) : string :=
  zeros (width - String.length s) +:+ s.

(** ['%03d' % n] and ['{:03d}'.format(n)]: at least three characters, the
    sign counted in the width. *)
Definition fmt_03d (n : Z) : string :=
  if n <? 0 then "-" +:+ zfill 2 (str_of_int (- n)) else zfill 3 (str_of_int n).

(** [os.path.join(a, b)] on a POSIX system. *)
Definition ends_with_sep (a : string) : bool :=
  match String.get (String.length a - 1) a with
  | Some c => Ascii.eqb c "/"
  | None => false
  end.

Definition path_join (a b : string) : string :=
  if String.prefix "/" b then b
  else if (String.eqb a "" || ends_with_sep a)%bool then a +:+ b
  else a +:+ "/" +:+ b.

(** [template.format(epoch=e)], as keras' ModelCheckpoint applies it to its
    file path.  Outside a replacement field, [{{] and [}}] are literal braces
    and a single [}] raises; a field runs from [{] to the next [}] and only
    the field [epoch:03d] is filled in ([field] holds the text of the field
    being read).  Fields that name other keys of the logs are outside this
    model: they give [None], like the fields that raise. *)
Fixpoint format_scan (field : option string) (t : string) (e : Z) : option string :=
  match t with
  | "" => match field with None => Some "" | Some _ => None end
  | String c t' =>
      match field with
      | Some f =>
          if Ascii.eqb c "}" then
            if String.eqb f "epoch:03d"
            then option_map (String.append (fmt_03d e)) (format_scan None t' e)
            else None
          else if Ascii.eqb c "{" then None
          else format_scan (Some (f +:+ String c "")) t' e
      | None =>
          if Ascii.eqb c "{" then
            match t' with
            | String d t'' =>
                if Ascii.eqb d "{"
                then option_map (String "{") (format_scan None t'' e)
                else format_scan (Some "") t' e
            | "" => None
            end
          else if Ascii.eqb c "}" then
            match t' with
            | String d t'' =>
                if Ascii.eqb d "}"
                then option_map (String "}") (format_scan None t'' e)
                else None
            | "" => None
            end
          else option_map (String c) (format_scan None t' e)
      end
  end.

Definition format_epoch (t : string) (e : Z) : option string :=
  format_scan None t e.

(** A path without braces: [format] leaves it as it is. *)
Fixpoint brace_free (s : string) : bool :=
  match s with
  | "" => true
  | String c s' =>
      (negb (Ascii.eqb c "{") && negb (Ascii.eqb c "}") && brace_free s')%bool
  end.

(** [2 ** n] for an int [n]: an int when [n] is not negative, a float
    otherwise. *)
Definition py_pow2 (n : Z) : pyval :=
  if 0 <=? n then PInt (2 ^ n) else PFloat (1 # Z.to_pos (2 ^ (- n))).

(** ** The parameters of [training] *)

(** The arguments of [training(labels_dir, model_dir, ...)].  The fields the
    function looks at are typed ([wl2_epochs], [dice_epochs], [n_levels],
    [model_dir], the paths tested against [None], and the numbers keras'
    epoch loop counts with); the ones it only hands on are [pyval]. *)
Record training_args : Type := {
  labels_dir : string;
  model_dir : string;
  path_generation_labels : option string;
  path_segmentation_labels : option string;
  save_generation_labels : option string;
  batchsize : pyval;
  n_channels : pyval;
  target_res : pyval;
  output_shape : pyval;
  path_generation_classes : pyval;
  prior_distributions : pyval;
  prior_means : pyval;
  prior_stds : pyval;
  use_specific_stats_for_channel : pyval;
  mix_prior_and_random : pyval;
  flipping : pyval;
  scaling_bounds : pyval;
  rotation_bounds : pyval;
  shearing_bounds : pyval;
  translation_bounds : pyval;
  nonlin_std : pyval;
  nonlin_shape_factor : pyval;
  randomise_res : pyval;
  buil_distance_maps : pyval;
  data_res : pyval;
  thickness : pyval;
  downsample : pyval;
  blur_range : pyval;
  bias_field_std : pyval;
  bias_shape_factor : pyval;
  n_levels : Z;
  nb_conv_per_level : pyval;
  conv_size : pyval;
  unet_feat_count : pyval;
  feat_multiplier : pyval;
  dropout : pyval;
  activation : pyval;
  lr : pyval;
  lr_decay : pyval;
  wl2_epochs : Z;
  dice_epochs : Z;
  steps_per_epoch : Z;
  load_model_file : option string;
  initial_epoch_wl2 : Z;
  initial_epoch_dice : Z
}.

(** The defaults of the signature of [training]. *)
Definition training_defaults (labels_dir model_dir : string) : training_args := {|
  labels_dir := labels_dir;
  model_dir := model_dir;
  path_generation_labels := None;
  path_segmentation_labels := None;
  save_generation_labels := None;
  batchsize := PInt 1;
  n_channels := PInt 1;
  target_res := PNone;
  output_shape := PNone;
  path_generation_classes := PNone;
  prior_distributions := PStr "uniform";
  prior_means := PNone;
  prior_stds := PNone;
  use_specific_stats_for_channel := PBool false;
  mix_prior_and_random := PBool false;
  flipping := PBool true;
  scaling_bounds := PFloat (15 # 100);
  rotation_bounds := PInt 15;
  shearing_bounds := PFloat (12 # 1000);
  translation_bounds := PBool false;
  nonlin_std := PFloat (4 # 1);
  nonlin_shape_factor := PFloat (4 # 100);
  randomise_res := PBool false;
  buil_distance_maps := PBool false;
  data_res := PNone;
  thickness := PNone;
  downsample := PBool false;
  blur_range := PFloat (115 # 100);
  bias_field_std := PFloat (5 # 10);
  bias_shape_factor := PFloat (25 # 1000);
  n_levels := 5;
  nb_conv_per_level := PInt 2;
  conv_size := PInt 3;
  unet_feat_count := PInt 24;
  feat_multiplier := PInt 2;
  dropout := PInt 0;
  activation := PStr "elu";
  lr := PFloat (1 # 10000);
  lr_decay := PInt 0;
  wl2_epochs := 5;
  dice_epochs := 100;
  steps_per_epoch := 1000;
  load_model_file := None;
  initial_epoch_wl2 := 0;
  initial_epoch_dice := 0
|}.

(** The keyword arguments of the call [BrainGenerator(...)] in [training]. *)
Module BrainGenerator.
Record args : Type := {
  labels_dir : string;
  generation_labels : list Z;
  output_labels : list Z;
  n_neutral_labels : Z;
  batchsize : pyval;
  n_channels : pyval;
  target_res : pyval;
  output_shape : pyval;
  output_div_by_n : pyval;
  generation_classes : pyval;
  prior_distributions : pyval;
  prior_means : pyval;
  prior_stds : pyval;
  use_specific_stats_for_channel : pyval;
  mix_prior_and_random : pyval;
  flipping : pyval;
  scaling_bounds : pyval;
  rotation_bounds : pyval;
  shearing_bounds : pyval;
  translation_bounds : pyval;
  nonlin_std : pyval;
  nonlin_shape_factor : pyval;
  randomise_res : pyval;
  buil_distance_maps : pyval;
  data_res : pyval;
  thickness : pyval;
  downsample : pyval;
  blur_range : pyval;
  bias_field_std : pyval;
  bias_shape_factor : pyval
}.
End BrainGenerator.

(** The keyword arguments of the call [nrn_models.unet(...)] in [training];
    [model] is the type of keras models. *)
Module unet.
Record args (model : Type) : Type := {
  nb_features : pyval;
  input_shape : list Z;
  nb_levels : Z;
  conv_size : pyval;
  nb_labels : Z;
  feat_mult : pyval;
  nb_conv_per_level : pyval;
  conv_dropout : pyval;
  batch_norm : Z;
  activation : pyval;
  input_model : model
}.
Arguments nb_features {model}.
Arguments input_shape {model}.
Arguments nb_levels {model}.
Arguments conv_size {model}.
Arguments nb_labels {model}.
Arguments feat_mult {model}.
Arguments nb_conv_per_level {model}.
Arguments conv_dropout {model}.
Arguments batch_norm {model}.
Arguments activation {model}.
Arguments input_model {model}.
End unet.

(** ** keras objects *)

(** A layer that carries weights: its name and the shapes of its weight
    tensors.  A model is seen through the list of its layers, and a saved
    weight file through the layers it stores. *)
Record layer : Type := Layer { layer_name : string; weight_shapes : list (list Z) }.

#[global] Instance layer_eq_dec : EqDecision layer.
Proof. solve_decision. Defined.

(** [Adam(lr=learning_rate, decay=lr_decay)]. *)
Inductive optimizer : Type :=
| Adam (lr decay : pyval).

(** The callbacks [train_model] builds, with the arguments it gives them. *)
Inductive callback : Type :=
| ModelCheckpoint (filepath : string) (save_weights_only : bool) (verbose : Z)
| TensorBoard (log_dir : string) (histogram_freq : Z) (write_graph write_images : bool).

(** ** The collaborators of the orchestrator

    Everything [training] calls and that lives outside [training.py]: the
    label registry and file helpers of [ext.lab2im.utils], the generator of
    [SynthSeg.brain_generator], the network of [ext.neuron.models], the loss
    heads of [SynthSeg.metrics_model] and the primitive operations of keras.
    [World] is all the state outside the orchestrator (file system, weights
    of the live models, random state).  An operation that can raise returns
    [exn + _]. *)
Record Externals : Type := {
  World : Type;
  Generator : Type;
  Examples : Type;
  Batches : Type;
  KModel : Type;
  Tensor : Type;
  (* ext.lab2im.utils *)
  get_list_labels :
    option string -> option string -> option string -> bool ->
    World -> (exn + (list Z * Z)) * World;
  mkdir : string -> World -> (exn + unit) * World;
  build_training_generator : Examples -> pyval -> exn + Batches;
  (* SynthSeg.brain_generator *)
  new_BrainGenerator : BrainGenerator.args -> World -> (exn + Generator) * World;
  labels_to_image_model : Generator -> KModel;
  model_output_shape : Generator -> list Z;
  model_inputs_generator : Generator -> Examples;
  (* ext.neuron.models *)
  nrn_unet : unet.args KModel -> exn + KModel;
  (* SynthSeg.metrics_model *)
  metrics_model : list Z -> KModel -> option string -> exn + KModel;
  (* keras *)
  Model_up_to : KModel -> string -> exn + KModel;
  layers : KModel -> list layer;
  h5_layers : string -> World -> option (list layer);
  set_weights : KModel -> string -> bool -> World -> World;
  set_optimizer : KModel -> optimizer -> World -> World;
  train_on_batch : KModel -> Batches -> World -> (exn + unit) * World;
  save_weights : KModel -> string -> World -> (exn + unit) * World;
  write_summaries : KModel -> string -> Z -> World -> (exn + unit) * World
}.

(** Modelled from the spec: [metrics_model.IdentityLoss().loss] is not under
    src/.  Section 4.4: the wrapped model already reduces to a scalar per
    example, and the outer loss passes that scalar through. *)
Definition IdentityLoss_loss {T : Type} (y_true y_predicted : T) : T := y_predicted.

(** ** The monad of the orchestrator: world, exceptions and the call log *)

(** What the orchestrator does that can be seen from outside: the calls it
    makes, in order, with their arguments, and the steps of keras' epoch
    loop. *)
Inductive event (X : Externals) : Type :=
| Call_get_list_labels (label_list labels_dir save_label_list : option string) (FS_sort : bool)
| Call_mkdir (path : string)
| Call_BrainGenerator (a : BrainGenerator.args)
| Call_unet (a : unet.args (KModel X))
| Call_build_training_generator (g : Examples X) (batchsize : pyval)
| Call_Model (m : KModel X) (output_layer : string)
| Call_metrics_model (label_list : list Z) (input_model : KModel X) (metrics : option string)
| Call_load_weights (m : KModel X) (filepath : string) (by_name : bool)
| Call_compile (m : KModel X) (opt : optimizer)
    (loss : Tensor X -> Tensor X -> Tensor X) (loss_weights : list Q)
| Call_fit_generator (m : KModel X) (g : Batches X) (epochs steps : Z)
    (callbacks : list callback) (initial_epoch : Z)
| Epoch_begin (m : KModel X) (epoch : Z)
| Train_step (m : KModel X) (epoch : Z) (step : nat)
| Checkpoint_written (m : KModel X) (filepath : string) (weights_only : bool)
| Summary_written (m : KModel X) (log_dir : string) (epoch : Z)
| Epoch_end (m : KModel X) (epoch : Z).

Arguments Call_get_list_labels {X}.
Arguments Call_mkdir {X}.
Arguments Call_BrainGenerator {X}.
Arguments Call_unet {X}.
Arguments Call_build_training_generator {X}.
Arguments Call_Model {X}.
Arguments Call_metrics_model {X}.
Arguments Call_load_weights {X}.
Arguments Call_compile {X}.
Arguments Call_fit_generator {X}.
Arguments Epoch_begin {X}.
Arguments Train_step {X}.
Arguments Checkpoint_written {X}.
Arguments Summary_written {X}.
Arguments Epoch_end {X}.

(** The outcome of a run: the log, the world it leaves, and the value or the
    exception that ended it. *)
Record outcome (X : Externals) (A : Type) : Type := Outcome {
  trace : list (event X);
  world : World X;
  result : exn + A
}.
Arguments Outcome {X A}.
Arguments trace {X A}.
Arguments world {X A}.
Arguments result {X A}.

Definition M (X : Externals) (A : Type) : Type := World X -> outcome X A.

Definition ret {X A} (a : A) : M X A := fun w => Outcome [] w (inr a).

Definition raise {X A} (e : exn) : M X A := fun w => Outcome [] w (inl e).

Definition bind {X A B} (m : M X A) (f : A -> M X B) : M X B :=
  fun w =>
    let o := m w in
    match result o with
    | inl e => Outcome (trace o) (world o) (inl e)
    | inr a =>
        let o' := f a (world o) in
        Outcome (trace o ++ trace o') (world o') (result o')
    end.

#[global] Instance M_ret (X : Externals) : MRet (M X) := fun A => ret.
#[global] Instance M_bind (X : Externals) : MBind (M X) := fun A B f m => bind m f.

(** A call that changes the world and can raise, logged as [ev] before it
    runs. *)
Definition call {X A} (ev : event X) (op : World X -> (exn + A) * World X) : M X A :=
  fun w => let '(r, w') := op w in Outcome [ev] w' r.

(** A call that builds an object and can raise, without touching the world. *)
Definition build {X A} (ev : event X) (r : exn + A) : M X A :=
  fun w => Outcome [ev] w r.

(** [assert cond, msg]. *)
Definition py_assert {X} (cond : bool) (msg : string) : M X unit :=
  if cond then ret tt else raise (AssertionError msg).

Section Orchestrator.

Variable X : Externals.

(** *** keras *)

(** Only the layers that carry weights are stored and matched. *)
Definition has_weights (l : layer) : bool :=
  match weight_shapes l with [] => false | _ => true end.

(** Modelled from the spec: keras' loading in order is library code outside
    src/.  Without [by_name] the layers of the file are matched with the
    layers of the model one by one: there must be as many, with the same
    weight shapes. *)
Fixpoint layers_match (saved model : list layer) : bool :=
  match saved, model with
  | [], [] => true
  | s :: saved', l :: model' =>
      bool_decide (weight_shapes s = weight_shapes l) && layers_match saved' model'
  | _, _ => false
  end.

(** Modelled from the spec: keras' loading by name is library code outside
    src/.  Section 6: loading by name tolerates extra and missing layers;
    a layer of the file and a layer of the model with the same name must
    have the same weight shapes. *)
Definition names_match (saved model : list layer) : bool :=
  forallb (fun s =>
    forallb (fun l =>
      implb (String.eqb (layer_name s) (layer_name l))
            (bool_decide (weight_shapes s = weight_shapes l))) model) saved.

(** Whether the layers [saved] in a file can be loaded into a model. *)
Definition weights_fit (by_name : bool) (saved model : list layer) : bool :=
  if by_name
  then names_match (List.filter has_weights saved) (List.filter has_weights model)
  else layers_match (List.filter has_weights saved) (List.filter has_weights model).

(** Modelled from the spec: keras' [Model.load_weights] is library code
    outside src/.  A file that cannot be read raises [OSError], a file that
    does not fit the model raises [ValueError] and leaves the model as it
    was; otherwise the weights of the model are set from the file. *)
Definition load_weights (m : KModel X) (filepath : string) (by_name : bool) : M X unit :=
  call (Call_load_weights m filepath by_name) (fun w =>
    match h5_layers X filepath w with
    | None => (inl (OSError filepath), w)
    | Some saved =>
        if weights_fit by_name saved (layers X m)
        then (inr tt, set_weights X m filepath by_name w)
        else (inl (ValueError filepath), w)
    end).

(** [model.compile(optimizer=..., loss=..., loss_weights=...)]. *)
Definition compile (m : KModel X) (opt : optimizer)
    (loss : Tensor X -> Tensor X -> Tensor X) (loss_weights : list Q) : M X unit :=
  call (Call_compile m opt loss loss_weights) (fun w => (inr tt, set_optimizer X m opt w)).

(** Modelled from the spec: keras' callbacks are library code outside
    src/.  Section 4.5: at the end of each epoch the weights are written to
    the checkpoint named by the zero-padded epoch number, counted from 1,
    without condition; the summary callback logs for monitoring.  A
    [ModelCheckpoint] fills its file path with [format(epoch=epoch + 1)]; a
    path that cannot be filled raises, and [KeyError] stands here for
    whichever exception [str.format] raises (a [ValueError] on a brace
    without its pair): no statement below depends on its class. *)
Definition on_epoch_end (m : KModel X) (epoch : Z) (c : callback) : M X unit :=
  match c with
  | ModelCheckpoint filepath save_weights_only _ =>
      match format_epoch filepath (epoch + 1) with
      | None => raise (KeyError filepath)
      | Some file => call (Checkpoint_written m file save_weights_only) (save_weights X m file)
      end
  | TensorBoard log_dir _ _ _ =>
      call (Summary_written m log_dir epoch) (write_summaries X m log_dir epoch)
  end.

(** The callbacks are run in the order of the list. *)
Fixpoint callbacks_on_epoch_end (m : KModel X) (epoch : Z) (cs : list callback) : M X unit :=
  match cs with
  | [] => mret tt
  | c :: cs' => on_epoch_end m epoch c ;; callbacks_on_epoch_end m epoch cs'
  end.

(** The [steps] batches of one epoch: each is pulled from the generator and
    trained on before the next one is asked for. *)
Fixpoint run_steps (m : KModel X) (g : Batches X) (epoch : Z) (done todo : nat) : M X unit :=
  match todo with
  | O => mret tt
  | S todo' =>
      call (Train_step m epoch done) (train_on_batch X m g) ;;
      run_steps m g epoch (S done) todo'
  end.

(** Modelled from the spec: keras' [Model.fit_generator] is library code
    outside src/.  Section 4.5: the epoch loop begins at [initial_epoch]
    and runs the epochs up to [epochs]; each epoch runs [steps_per_epoch]
    generator-pull steps and then the callbacks.  [n] is the number of
    epochs left and [epoch] the index of the next one. *)
Fixpoint epoch_loop (m : KModel X) (g : Batches X) (steps : Z) (cs : list callback)
    (n : nat) (epoch : Z) : M X unit :=
  match n with
  | O => mret tt
  | S n' =>
      build (Epoch_begin m epoch) (inr tt) ;;
      run_steps m g epoch 0 (Z.to_nat steps) ;;
      callbacks_on_epoch_end m epoch cs ;;
      build (Epoch_end m epoch) (inr tt) ;;
      epoch_loop m g steps cs n' (epoch + 1)
  end.

Definition fit_generator (m : KModel X) (g : Batches X) (epochs steps_per_epoch : Z)
    (callbacks : list callback) (initial_epoch : Z) : M X unit :=
  build (Call_fit_generator m g epochs steps_per_epoch callbacks initial_epoch) (inr tt) ;;
  epoch_loop m g steps_per_epoch callbacks (Z.to_nat (epochs - initial_epoch)) initial_epoch.

(** *** [train_model] (training.py, lines 286-315) *)

Definition save_file_name (model_dir metric_type : string) : string :=
  path_join model_dir (metric_type +:+ "_{epoch:03d}.h5").

Definition train_callbacks (model_dir log_dir metric_type : string) : list callback :=
  let callbacks := [ModelCheckpoint (save_file_name model_dir metric_type) true 1] in
  if String.eqb metric_type "dice"
  then callbacks ++ [TensorBoard log_dir 0 true false]
  else callbacks.

Definition train_model (model : KModel X) (generator : Batches X)
    (learning_rate lr_decay : pyval) (n_epochs n_steps : Z)
    (model_dir log_dir metric_type : string) (initial_epoch : Z) : M X unit :=
  let callbacks := train_callbacks model_dir log_dir metric_type in
  compile model (Adam learning_rate lr_decay) IdentityLoss_loss [1%Q] ;;
  fit_generator model generator n_epochs n_steps callbacks initial_epoch.

(** *** [training] (training.py, lines 17-283) *)

(** The message of the assertion on the epoch counts. *)
Definition epochs_message (wl2_epochs dice_epochs : Z) : string :=
  "either wl2_epochs or dice_epochs must be positive, had "
    +:+ str_of_int wl2_epochs +:+ " and " +:+ str_of_int dice_epochs.

Definition generator_args (a : training_args)
    (generation_labels segmentation_labels : list Z) (n_neutral_labels : Z)
    : BrainGenerator.args := {|
  BrainGenerator.labels_dir := labels_dir a;
  BrainGenerator.generation_labels := generation_labels;
  BrainGenerator.output_labels := segmentation_labels;
  BrainGenerator.n_neutral_labels := n_neutral_labels;
  BrainGenerator.batchsize := batchsize a;
  BrainGenerator.n_channels := n_channels a;
  BrainGenerator.target_res := target_res a;
  BrainGenerator.output_shape := output_shape a;
  BrainGenerator.output_div_by_n := py_pow2 (n_levels a);
  BrainGenerator.generation_classes := path_generation_classes a;
  BrainGenerator.prior_distributions := prior_distributions a;
  BrainGenerator.prior_means := prior_means a;
  BrainGenerator.prior_stds := prior_stds a;
  BrainGenerator.use_specific_stats_for_channel := use_specific_stats_for_channel a;
  BrainGenerator.mix_prior_and_random := mix_prior_and_random a;
  BrainGenerator.flipping := flipping a;
  BrainGenerator.scaling_bounds := scaling_bounds a;
  BrainGenerator.rotation_bounds := rotation_bounds a;
  BrainGenerator.shearing_bounds := shearing_bounds a;
  BrainGenerator.translation_bounds := translation_bounds a;
  BrainGenerator.nonlin_std := nonlin_std a;
  BrainGenerator.nonlin_shape_factor := nonlin_shape_factor a;
  BrainGenerator.randomise_res := randomise_res a;
  BrainGenerator.buil_distance_maps := buil_distance_maps a;
  BrainGenerator.data_res := data_res a;
  BrainGenerator.thickness := thickness a;
  BrainGenerator.downsample := downsample a;
  BrainGenerator.blur_range := blur_range a;
  BrainGenerator.bias_field_std := bias_field_std a;
  BrainGenerator.bias_shape_factor := bias_shape_factor a
|}.

Definition unet_args (a : training_args) (unet_input_shape : list Z)
    (n_segmentation_labels : Z) (labels_to_image_model : KModel X)
    : unet.args (KModel X) := {|
  unet.nb_features := unet_feat_count a;
  unet.input_shape := unet_input_shape;
  unet.nb_levels := n_levels a;
  unet.conv_size := conv_size a;
  unet.nb_labels := n_segmentation_labels;
  unet.feat_mult := feat_multiplier a;
  unet.nb_conv_per_level := nb_conv_per_level a;
  unet.conv_dropout := dropout a;
  unet.batch_norm := -1;
  unet.activation := activation a;
  unet.input_model := labels_to_image_model
|}.

(** Lines 194-203: the label lists. *)
Definition get_label_lists (a : training_args) : M X (list Z * Z * list Z) :=
  '(generation_labels, n_neutral_labels) ←
    call (Call_get_list_labels (path_generation_labels a) (Some (labels_dir a))
            (save_generation_labels a) true)
         (get_list_labels X (path_generation_labels a) (Some (labels_dir a))
            (save_generation_labels a) true) ;
  segmentation_labels ←
    match path_segmentation_labels a with
    | Some p =>
        '(segmentation_labels, _) ←
          call (Call_get_list_labels (Some p) None None true)
               (get_list_labels X (Some p) None None true) ;
        mret segmentation_labels
    | None => mret generation_labels
    end ;
  mret (generation_labels, n_neutral_labels, segmentation_labels).

(** Lines 265-272: pre-training with the weighted L2 loss. *)
Definition wl2_phase (a : training_args) (segmentation_labels : list Z)
    (unet_model : KModel X) (training_generator : Batches X) (log_dir : string) : M X unit :=
  if 0 <? wl2_epochs a then
    wl2_model ← build (Call_Model unet_model "unet_likelihood")
                      (Model_up_to X unet_model "unet_likelihood") ;
    wl2_model ← build (Call_metrics_model segmentation_labels wl2_model (Some "wl2"))
                      (metrics_model X segmentation_labels wl2_model (Some "wl2")) ;
    match load_model_file a with
    | Some f => load_weights wl2_model f false
    | None => mret tt
    end ;;
    train_model wl2_model training_generator (lr a) (lr_decay a) (wl2_epochs a)
      (steps_per_epoch a) (model_dir a) log_dir "wl2" (initial_epoch_wl2 a)
  else mret tt.

(** Lines 274-283: fine-tuning with the dice metric. *)
Definition dice_phase (a : training_args) (segmentation_labels : list Z)
    (unet_model : KModel X) (training_generator : Batches X) (log_dir : string) : M X unit :=
  if 0 <? dice_epochs a then
    dice_model ← build (Call_metrics_model segmentation_labels unet_model None)
                       (metrics_model X segmentation_labels unet_model None) ;
    (if 0 <? wl2_epochs a then
       let last_wl2_model_name :=
         path_join (model_dir a) ("wl2_" +:+ fmt_03d (wl2_epochs a) +:+ ".h5") in
       load_weights dice_model last_wl2_model_name true
     else
       match load_model_file a with
       | Some f => load_weights dice_model f false
       | None => mret tt
       end) ;;
    train_model dice_model training_generator (lr a) (lr_decay a) (dice_epochs a)
      (steps_per_epoch a) (model_dir a) log_dir "dice" (initial_epoch_dice a)
  else mret tt.

(** Lines 194-263: the label lists, the folders, the generator, the
    segmentation network and the input generator.  Returns what the two
    phases use. *)
Definition prepare (a : training_args) : M X (list Z * KModel X * Batches X * string) :=
  (* get label lists *)
  '(generation_labels, n_neutral_labels, segmentation_labels) ← get_label_lists a ;
  let n_segmentation_labels := Z.of_nat (length segmentation_labels) in
  (* prepare model folder *)
  call (Call_mkdir (model_dir a)) (mkdir X (model_dir a)) ;;
  (* prepare log folder *)
  let log_dir := path_join (model_dir a) "logs" in
  call (Call_mkdir log_dir) (mkdir X log_dir) ;;
  (* instantiate BrainGenerator object *)
  let gen_args := generator_args a generation_labels segmentation_labels n_neutral_labels in
  brain_generator ← call (Call_BrainGenerator gen_args) (new_BrainGenerator X gen_args) ;
  (* transformation model *)
  let labels_to_image_model := labels_to_image_model X brain_generator in
  let unet_input_shape := model_output_shape X brain_generator in
  (* prepare the segmentation model *)
  let net_args := unet_args a unet_input_shape n_segmentation_labels labels_to_image_model in
  unet_model ← build (Call_unet net_args) (nrn_unet X net_args) ;
  (* input generator *)
  let train_example_gen := model_inputs_generator X brain_generator in
  training_generator ←
    build (Call_build_training_generator train_example_gen (batchsize a))
          (build_training_generator X train_example_gen (batchsize a)) ;
  mret (segmentation_labels, unet_model, training_generator, log_dir).

Definition training (a : training_args) : M X unit :=
  (* check epochs *)
  py_assert ((0 <? wl2_epochs a) || (0 <? dice_epochs a))
            (epochs_message (wl2_epochs a) (dice_epochs a)) ;;
  '(segmentation_labels, unet_model, training_generator, log_dir) ← prepare a ;
  (* pre-training with weighted L2 *)
  wl2_phase a segmentation_labels unet_model training_generator log_dir ;;
  (* fine-tuning with dice metric *)
  dice_phase a segmentation_labels unet_model training_generator log_dir.

End Orchestrator.

(** ** The command line (scripts/launch_scripts_from_terminal/training.py) *)

(** The signature of [training]: each parameter with its default, [None] for
    a parameter without one. *)
Definition signature : Type := list (string * option pyval).

Definition training_signature : signature := [
  ("labels_dir", None);
  ("model_dir", None);
  ("path_generation_labels", Some PNone);
  ("path_segmentation_labels", Some PNone);
  ("save_generation_labels", Some PNone);
  ("batchsize", Some (PInt 1));
  ("n_channels", Some (PInt 1));
  ("target_res", Some PNone);
  ("output_shape", Some PNone);
  ("path_generation_classes", Some PNone);
  ("prior_distributions", Some (PStr "uniform"));
  ("prior_means", Some PNone);
  ("prior_stds", Some PNone);
  ("use_specific_stats_for_channel", Some (PBool false));
  ("mix_prior_and_random", Some (PBool false));
  ("flipping", Some (PBool true));
  ("scaling_bounds", Some (PFloat (15 # 100)));
  ("rotation_bounds", Some (PInt 15));
  ("shearing_bounds", Some (PFloat (12 # 1000)));
  ("translation_bounds", Some (PBool false));
  ("nonlin_std", Some (PFloat (4 # 1)));
  ("nonlin_shape_factor", Some (PFloat (4 # 100)));
  ("randomise_res", Some (PBool false));
  ("buil_distance_maps", Some (PBool false));
  ("data_res", Some PNone);
  ("thickness", Some PNone);
  ("downsample", Some (PBool false));
  ("blur_range", Some (PFloat (115 # 100)));
  ("bias_field_std", Some (PFloat (5 # 10)));
  ("bias_shape_factor", Some (PFloat (25 # 1000)));
  ("n_levels", Some (PInt 5));
  ("nb_conv_per_level", Some (PInt 2));
  ("conv_size", Some (PInt 3));
  ("unet_feat_count", Some (PInt 24));
  ("feat_multiplier", Some (PInt 2));
  ("dropout", Some (PInt 0));
  ("activation", Some (PStr "elu"));
  ("lr", Some (PFloat (1 # 10000)));
  ("lr_decay", Some (PInt 0));
  ("wl2_epochs", Some (PInt 5));
  ("dice_epochs", Some (PInt 100));
  ("steps_per_epoch", Some (PInt 1000));
  ("load_model_file", Some PNone);
  ("initial_epoch_wl2", Some (PInt 0));
  ("initial_epoch_dice", Some (PInt 0))
].

(** The [type=] of an argument. *)
Inductive arg_type : Type := type_str | type_int | type_float | type_infer.

(** What [add_argument] declares: a positional argument, an option that
    stores a converted value, or a switch. *)
Inductive arg_action : Type :=
| positional (ty : arg_type)
| store (ty : arg_type) (default : pyval)
| store_true
| store_false.

Record argument : Type := Arg { arg_name : string; arg_dest : string; arg_action_of : arg_action }.

(** The default argparse puts in the namespace before it reads the command
    line. *)
Definition arg_default (a : argument) : pyval :=
  match arg_action_of a with
  | positional _ => PNone
  | store _ d => d
  | store_true => PBool false
  | store_false => PBool true
  end.

Definition parser : list argument := [
  Arg "labels_dir" "labels_dir" (positional type_str);
  Arg "model_dir" "model_dir" (positional type_str);
  Arg "--generation_labels" "path_generation_labels" (store type_str PNone);
  Arg "--segmentation_labels" "path_segmentation_labels" (store type_str PNone);
  Arg "--save_generation_labels" "save_generation_labels" (store type_str PNone);
  Arg "--batch_size" "batchsize" (store type_int (PInt 1));
  Arg "--channels" "n_channels" (store type_int (PInt 1));
  Arg "--target_res" "target_res" (store type_float PNone);
  Arg "--output_shape" "output_shape" (store type_int PNone);
  Arg "--generation_classes" "path_generation_classes" (store type_str PNone);
  Arg "--prior_type" "prior_distributions" (store type_str (PStr "uniform"));
  Arg "--prior_means" "prior_means" (store type_str PNone);
  Arg "--prior_stds" "prior_stds" (store type_str PNone);
  Arg "--specific_stats" "use_specific_stats_for_channel" store_true;
  Arg "--mix_prior_and_random" "mix_prior_and_random" store_true;
  Arg "--no_flipping" "flipping" store_false;
  Arg "--scaling" "scaling_bounds" (store type_infer (PFloat (15 # 100)));
  Arg "--rotation" "rotation_bounds" (store type_infer (PInt 15));
  Arg "--shearing" "shearing_bounds" (store type_infer (PFloat (12 # 1000)));
  Arg "--translation" "translation_bounds" (store type_infer (PBool false));
  Arg "--nonlin_std" "nonlin_std" (store type_float (PFloat (3 # 1)));
  Arg "--nonlin_shape_factor" "nonlin_shape_factor" (store type_float (PFloat (4 # 100)));
  Arg "--randomise_res" "randomise_res" store_true;
  Arg "--distance_maps" "build_distance_maps" store_true;
  Arg "--data_res" "data_res" (store type_infer PNone);
  Arg "--thickness" "thickness" (store type_infer PNone);
  Arg "--downsample" "downsample" store_true;
  Arg "--blur_range" "blur_range" (store type_float (PFloat (103 # 100)));
  Arg "--bias_std" "bias_field_std" (store type_float (PFloat (5 # 10)));
  Arg "--bias_shape_factor" "bias_shape_factor" (store type_float (PFloat (25 # 1000)));
  Arg "--n_levels" "n_levels" (store type_int (PInt 5));
  Arg "--conv_per_level" "nb_conv_per_level" (store type_int (PInt 2));
  Arg "--conv_size" "conv_size" (store type_int (PInt 3));
  Arg "--unet_feat" "unet_feat_count" (store type_int (PInt 24));
  Arg "--feat_mult" "feat_multiplier" (store type_int (PInt 2));
  Arg "--dropout" "dropout" (store type_float (PFloat (0 # 1)));
  Arg "--activation" "activation" (store type_str (PStr "elu"));
  Arg "--lr" "lr" (store type_float (PFloat (1 # 10000)));
  Arg "--lr_decay" "lr_decay" (store type_float (PInt 0));
  Arg "--wl2_epochs" "wl2_epochs" (store type_int (PInt 5));
  Arg "--dice_epochs" "dice_epochs" (store type_int (PInt 100));
  Arg "--steps_per_epoch" "steps_per_epoch" (store type_int (PInt 1000));
  Arg "--checkpoint" "checkpoint" (store type_str PNone)
].

(** A namespace, and the keyword arguments [vars(args)] makes of it: the
    attributes in the order they were first set. *)
Definition namespace : Type := list (string * pyval).

Fixpoint has_attr (ns : namespace) (k : string) : bool :=
  match ns with
  | [] => false
  | (k', _) :: ns' => String.eqb k' k || has_attr ns' k
  end.

Fixpoint set_attr (ns : namespace) (k : string) (v : pyval) : namespace :=
  match ns with
  | [] => [(k, v)]
  | (k', v') :: ns' =>
      if String.eqb k' k then (k', v) :: ns' else (k', v') :: set_attr ns' k v
  end.

Fixpoint get_attr (ns : namespace) (k : string) : option pyval :=
  match ns with
  | [] => None
  | (k', v) :: ns' => if String.eqb k' k then Some v else get_attr ns' k
  end.

(** Every destination gets its default, unless it has one already. *)
Definition initial_namespace (p : list argument) : namespace :=
  fold_left
    (fun ns a => if has_attr ns (arg_dest a) then ns else set_attr ns (arg_dest a) (arg_default a))
    p [].

Definition is_positional (a : argument) : bool :=
  match arg_action_of a with positional _ => true | _ => false end.

Definition find_option (p : list argument) (tok : string) : option argument :=
  find (fun a => negb (is_positional a) && String.eqb (arg_name a) tok) p.

Section CommandLine.

(** The callables given as [type=]: [str], [int], [float] and
    [ext.lab2im.utils.infer]; [None] when the callable raises. *)
Variable convert : arg_type -> string -> option pyval.

(** [parser.parse_args()] on a list of tokens, [None] when argparse exits
    with a usage error.  A token that starts with two dashes must be the
    name of an option and, for a storing option, is followed by its value;
    the other tokens fill the positional arguments in order, and all of
    them must be filled.  (Abbreviated option names, [--name=value], the
    help option and the tokens that start with one dash, which argparse
    takes for options, are not modelled.) *)
Fixpoint parse_tokens (p : list argument) (argv : list string)
    (pending : list argument) (ns : namespace) : option namespace :=
  match argv with
  | [] => match pending with [] => Some ns | _ :: _ => None end
  | tok :: rest =>
      if String.prefix "--" tok then
        match find_option p tok with
        | None => None
        | Some a =>
            match arg_action_of a with
            | store ty _ =>
                match rest with
                | [] => None
                | v :: rest' =>
                    match convert ty v with
                    | None => None
                    | Some x => parse_tokens p rest' pending (set_attr ns (arg_dest a) x)
                    end
                end
            | store_true => parse_tokens p rest pending (set_attr ns (arg_dest a) (PBool true))
            | store_false => parse_tokens p rest pending (set_attr ns (arg_dest a) (PBool false))
            | positional _ => None
            end
        end
      else
        match pending with
        | [] => None
        | a :: pending' =>
            match arg_action_of a with
            | positional ty =>
                match convert ty tok with
                | None => None
                | Some x => parse_tokens p rest pending' (set_attr ns (arg_dest a) x)
                end
            | _ => None
            end
        end
  end.

Definition parse_args (p : list argument) (argv : list string) : option namespace :=
  parse_tokens p argv (List.filter is_positional p) (initial_namespace p).

End CommandLine.

(** Whether [k] is the name of a parameter. *)
Definition is_parameter (sig : signature) (k : string) : bool :=
  existsb (fun p => String.eqb (fst p) k) sig.

(** The two errors of a call, with the messages of CPython. *)
Definition unexpected_keyword (fname k : string) : exn :=
  TypeError (fname +:+ "() got an unexpected keyword argument '" +:+ k +:+ "'").

(** The parameters without default that the keywords leave without value. *)
Definition missing_of (sig : signature) (kwargs : namespace) : list string :=
  map fst (List.filter (fun p => match snd p with
                            | None => negb (has_attr kwargs (fst p))
                            | Some _ => false
                            end) sig).

(** The names as CPython lists them: ['a'], ['a' and 'b'], ['a', 'b', and 'c']. *)
Fixpoint quoted_names (names : list string) : string :=
  match names with
  | [] => ""
  | [n] => "'" +:+ n +:+ "'"
  | [n; n'] => "'" +:+ n +:+ "' and '" +:+ n' +:+ "'"
  | n :: ((_ :: _ :: _) as names') =>
      "'" +:+ n +:+ "', " +:+
      match names' with
      | [n1; n2] => "'" +:+ n1 +:+ "', and '" +:+ n2 +:+ "'"
      | _ => quoted_names names'
      end
  end.

Definition missing_arguments (fname : string) (names : list string) : exn :=
  TypeError (fname +:+ "() missing " +:+ str_of_int (Z.of_nat (length names))
             +:+ " required positional argument"
             +:+ (if (length names =? 1)%nat then "" else "s") +:+ ": "
             +:+ quoted_names names).

(** The value a parameter is bound to: its keyword, or else its default. *)
Definition bind_parameter (kwargs : namespace) (p : string * option pyval) : string * pyval :=
  match get_attr kwargs (fst p), snd p with
  | Some v, _ => (fst p, v)
  | None, Some d => (fst p, d)
  | None, None => (fst p, PNone)
  end.

(** The call of [f] with a dictionary unpacked into keyword arguments: a
    keyword that is not a parameter of [f] raises [TypeError] (the first one
    in the order of the dictionary); then each parameter takes the value of
    its keyword or its default, and a parameter left without a value raises
    [TypeError]. *)
Definition call_kwargs (fname : string) (sig : signature) (kwargs : namespace)
    : exn + list (string * pyval) :=
  match find (fun kv => negb (is_parameter sig (fst kv))) kwargs with
  | Some (k, _) => inl (unexpected_keyword fname k)
  | None =>
      match missing_of sig kwargs with
      | [] => inr (map (bind_parameter kwargs) sig)
      | names => inl (missing_arguments fname names)
      end
  end.

(** The script: [args = parser.parse_args()], then [training] called with
    [vars(args)] unpacked into keyword arguments, up to the binding of the
    arguments of [training] (its body runs on the bound arguments).  A usage
    error ends the script with [SystemExit(2)]. *)
Definition script (convert : arg_type -> string -> option pyval) (argv : list string)
    : exn + list (string * pyval) :=
  match parse_args convert parser argv with
  | None => inl (Raise "SystemExit" "2")
  | Some args => call_kwargs "training" training_signature args
  end.

(** ** A concrete set of collaborators

    A small world to run the orchestrator in: a file system with directories,
    label lists, prior arrays and weight files, and collaborators that do the
    least their contracts ask for. *)
Module Demo.

Record fs : Type := Fs {
  dirs : gset string;
  label_lists : gmap string (list Z * Z);
  prior_blocks : gmap string Z;
  h5_files : gmap string (list layer)
}.

(** The label list stored under [label_list], or else the labels of the
    maps in [labels_dir]; the list is written to [save_label_list] when
    one is given. *)
Definition read_labels (label_list labels_dir save_label_list : option string)
    (FS_sort : bool) (w : fs) : (exn + (list Z * Z)) * fs :=
  let source := match label_list with Some p => Some p | None => labels_dir end in
  match source ≫= (fun p => label_lists w !! p) with
  | None => (inl (Raise "ResourceError" "no label list"), w)
  | Some r =>
      match save_label_list with
      | None => (inr r, w)
      | Some p =>
          (inr r, Fs (dirs w) (<[p := r]> (label_lists w)) (prior_blocks w) (h5_files w))
      end
  end.

Definition make_dir (path : string) (w : fs) : (exn + unit) * fs :=
  (inr tt, Fs ({[path]} ∪ dirs w) (label_lists w) (prior_blocks w) (h5_files w)).

(** Modelled from the spec: [BrainGenerator] is not under src/.  Section 3:
    when the prior arrays hold M > 1 modality blocks and per-channel
    statistics are requested, M must equal the channel count; section 7
    makes the violation a [ConfigurationError]. *)
Definition modalities_consistent (a : BrainGenerator.args) (w : fs) : bool :=
  match BrainGenerator.use_specific_stats_for_channel a, BrainGenerator.prior_means a with
  | PBool true, PStr p =>
      match prior_blocks w !! p with
      | Some m => (m <=? 1) || py_eqb (PInt m) (BrainGenerator.n_channels a)
      | None => true
      end
  | _, _ => true
  end.

Definition make_generator (a : BrainGenerator.args) (w : fs)
    : (exn + BrainGenerator.args) * fs :=
  if modalities_consistent a w then (inr a, w)
  else (inl (Raise "ConfigurationError" "prior_means does not match n_channels"), w).

(** Modelled from the spec: the output shape of the generator is not under
    src/.  Sections 4.2 and 8: the image shape is the output shape, rounded
    to be divisible by [output_div_by_n], followed by the channel count. *)
Definition round_up (s d : Z) : Z := d * ((s + d - 1) / d).

Definition output_shape_of (a : BrainGenerator.args) : list Z :=
  let side :=
    match BrainGenerator.output_shape a, BrainGenerator.output_div_by_n a with
    | PInt s, PInt d => round_up s d
    | _, PInt d => round_up 160 d
    | _, _ => 160
    end in
  let channels := match BrainGenerator.n_channels a with PInt c => c | _ => 1 end in
  [side; side; side; channels].

Definition make_unet (a : unet.args (list layer)) : exn + list layer :=
  inr (unet.input_model a ++
       [Layer "unet_conv_0" [[3; 3; 3; 1; 24]; [24]];
        Layer "unet_likelihood" [[1; 1; 1; 24; unet.nb_labels a]; [unet.nb_labels a]];
        Layer "unet_prediction" []])%list.

Fixpoint up_to (m : list layer) (name : string) : option (list layer) :=
  match m with
  | [] => None
  | l :: m' =>
      if String.eqb (layer_name l) name then Some [l]
      else option_map (cons l) (up_to m' name)
  end.

Definition cut_at (m : list layer) (name : string) : exn + list layer :=
  match up_to m name with
  | Some m' => inr m'
  | None => inl (ValueError ("No such layer: " +:+ name))
  end.

Definition add_metrics (label_list : list Z) (m : list layer) (metrics : option string)
    : exn + list layer :=
  inr (m ++ [Layer (default "dice" metrics) []])%list.

Definition write_h5 (m : list layer) (file : string) (w : fs) : (exn + unit) * fs :=
  (inr tt, Fs (dirs w) (label_lists w) (prior_blocks w) (<[file := m]> (h5_files w))).

Definition X : Externals := {|
  World := fs;
  Generator := BrainGenerator.args;
  Examples := unit;
  Batches := unit;
  KModel := list layer;
  Tensor := Q;
  get_list_labels := read_labels;
  mkdir := make_dir;
  build_training_generator := fun _ _ => inr tt;
  new_BrainGenerator := make_generator;
  labels_to_image_model := fun _ => [];
  model_output_shape := output_shape_of;
  model_inputs_generator := fun _ => tt;
  nrn_unet := make_unet;
  metrics_model := add_metrics;
  Model_up_to := cut_at;
  layers := fun m => m;
  h5_layers := fun file w => h5_files w !! file;
  set_weights := fun _ _ _ w => w;
  set_optimizer := fun _ _ w => w;
  train_on_batch := fun _ _ w => (inr tt, w);
  save_weights := write_h5;
  write_summaries := fun _ _ _ w => (inr tt, w)
|}.

End Demo.

(** ** Reading a log *)

Section Observations.

Context {X : Externals}.

(** The weight files loaded, with the [by_name] flag of each load. *)
Definition loads (l : list (event X)) : list (string * bool) :=
  flat_map (fun ev => match ev with
                      | Call_load_weights _ f b => [(f, b)]
                      | _ => []
                      end) l.

(** The epochs that ran to their end, and the checkpoint files written. *)
Definition epochs_ended (l : list (event X)) : list Z :=
  flat_map (fun ev => match ev with Epoch_end _ e => [e] | _ => [] end) l.

Definition checkpoints (l : list (event X)) : list string :=
  flat_map (fun ev => match ev with Checkpoint_written _ f _ => [f] | _ => [] end) l.

(** The [compile] and [fit_generator] calls. *)
Definition compiles (l : list (event X)) : list (KModel X) :=
  flat_map (fun ev => match ev with Call_compile m _ _ _ => [m] | _ => [] end) l.

(** The request for the dice model is the call of [metrics_model] without
    [metrics]: [wl2_part l] is the log up to it, [dice_part l] the log after
    it (empty when the dice model was never asked for). *)
Definition is_dice_model_call (ev : event X) : bool :=
  match ev with Call_metrics_model _ _ None => true | _ => false end.

Fixpoint wl2_part (l : list (event X)) : list (event X) :=
  match l with
  | [] => []
  | ev :: l' => if is_dice_model_call ev then [] else ev :: wl2_part l'
  end.

Fixpoint dice_part (l : list (event X)) : list (event X) :=
  match l with
  | [] => []
  | ev :: l' => if is_dice_model_call ev then l' else dice_part l'
  end.

(** The callbacks of the [fit_generator] calls. *)
Definition fit_callbacks (l : list (event X)) : list (list callback) :=
  flat_map (fun ev => match ev with
                      | Call_fit_generator _ _ _ _ cs _ => [cs]
                      | _ => []
                      end) l.

(** Every epoch that ends has its checkpoint behind it: each [Epoch_end] of
    [l] finds, among the events before it ([seen], then the part of [l]
    read so far), the weight-only checkpoint [name (epoch + 1)] of the same
    model. *)
Fixpoint checkpointed_from (name : Z -> string) (seen l : list (event X)) : Prop :=
  match l with
  | [] => True
  | ev :: l' =>
      match ev with
      | Epoch_end m e => In (Checkpoint_written m (name (e + 1)) true) seen
      | _ => True
      end /\ checkpointed_from name (seen ++ [ev]) l'
  end.

(** All the events a computation logs satisfy [P], from any world. *)
Definition emits {A : Type} (P : event X -> Prop) (m : M X A) : Prop :=
  forall w, Forall P (trace (m w)).

(** The stages of a run, by the calls that belong to them. *)
Definition is_label_call (ev : event X) : bool :=
  match ev with Call_get_list_labels _ _ _ _ => true | _ => false end.

Definition is_mkdir (ev : event X) : bool :=
  match ev with Call_mkdir _ => true | _ => false end.

Definition is_generator_call (ev : event X) : bool :=
  match ev with Call_BrainGenerator _ => true | _ => false end.

(** The calls made once the generator exists: the network, the loss heads
    and keras. *)
Definition is_network_event (ev : event X) : bool :=
  match ev with
  | Call_get_list_labels _ _ _ _ | Call_mkdir _ | Call_BrainGenerator _ => false
  | _ => true
  end.

End Observations.

(** The epochs [first], ..., [first + n - 1]. *)
Fixpoint epochs_from (first : Z) (n : nat) : list Z :=
  match n with
  | O => []
  | S n' => first :: epochs_from (first + 1) n'
  end.

(** The checkpoint of epoch number [e] (counted from 1) of a phase:
    [model_dir/<tag>_<e, three digits>.h5]. *)
Definition checkpoint_name (model_dir tag : string) (e : Z) : string :=
  path_join model_dir (tag +:+ "_" +:+ fmt_03d e +:+ ".h5").

(** Modelled from the spec: the shape contract of [BrainGenerator], which is
    not under src/.  Sections 4.2 and 8: the output shape is rounded to be
    divisible by [output_div_by_n], and the image shape the generator reports
    is that output shape followed by the channel count. *)
Definition generator_contract (X : Externals) : Prop :=
  forall (g : BrainGenerator.args) (w w' : World X) (gen : Generator X) (d : Z),
    new_BrainGenerator X g w = (inr gen, w') ->
    BrainGenerator.output_div_by_n g = PInt d ->
    Forall (Z.divide d) (removelast (model_output_shape X gen)).

(** The reading of "a configuration failure leaves no trace behind": a run
    that raises has created no directory and built no generator. *)
Definition aborts_before_side_effects (X : Externals) (a : training_args) (w : World X) : Prop :=
  forall e, result (training X a w) = inl e ->
    Forall (fun ev => is_mkdir ev = false /\ is_generator_call ev = false)
           (trace (training X a w)).

(** The separator [os.path.join] puts after its first argument. *)
Definition sep_of (a : string) : string :=
  if (String.eqb a "" || ends_with_sep a)%bool then "" else "/".

(** ** What a run of [training] can log *)

(** The callbacks [train_model] builds for the arguments [a]: a weight-only
    checkpoint, and summaries in the log folder. *)
Definition expected_callback (a : training_args) (c : callback) : Prop :=
  match c with
  | ModelCheckpoint _ save_weights_only _ => save_weights_only = true
  | TensorBoard log_dir _ _ _ => log_dir = path_join (model_dir a) "logs"
  end.

(** What each entry of the log of [training a] can be: every call is made
    with the arguments the source gives it. *)
Definition expected_event {X : Externals} (a : training_args) (ev : event X) : Prop :=
  match ev with
  | Call_get_list_labels label_list ldir save FS_sort =>
      FS_sort = true /\
      ((label_list = path_generation_labels a /\ ldir = Some (labels_dir a)
        /\ save = save_generation_labels a)
       \/ (label_list = path_segmentation_labels a /\ label_list <> None
           /\ ldir = None /\ save = None))
  | Call_mkdir p => p = model_dir a \/ p = path_join (model_dir a) "logs"
  | Call_BrainGenerator g => exists gl sl n, g = generator_args a gl sl n
  | Call_unet u => exists shape n m, u = unet_args X a shape n m
  | Call_build_training_generator _ b => b = batchsize a
  | Call_Model _ output_layer => output_layer = "unet_likelihood" /\ 0 < wl2_epochs a
  | Call_metrics_model _ _ metrics =>
      (metrics = Some "wl2" /\ 0 < wl2_epochs a) \/ (metrics = None /\ 0 < dice_epochs a)
  | Call_load_weights _ f by_name =>
      (by_name = false /\ load_model_file a = Some f)
      \/ (by_name = true /\ f = checkpoint_name (model_dir a) "wl2" (wl2_epochs a)
          /\ 0 < wl2_epochs a /\ 0 < dice_epochs a)
  | Call_compile _ opt loss loss_weights =>
      opt = Adam (lr a) (lr_decay a) /\ loss = IdentityLoss_loss /\ loss_weights = [1%Q]
  | Call_fit_generator _ _ epochs steps cs init =>
      steps = steps_per_epoch a /\
      ((epochs = wl2_epochs a /\ init = initial_epoch_wl2 a
        /\ cs = [ModelCheckpoint (save_file_name (model_dir a) "wl2") true 1])
       \/ (epochs = dice_epochs a /\ init = initial_epoch_dice a
           /\ cs = [ModelCheckpoint (save_file_name (model_dir a) "dice") true 1;
                    TensorBoard (path_join (model_dir a) "logs") 0 true false]))
  | Checkpoint_written _ _ weights_only => weights_only = true
  | Summary_written _ log_dir _ => log_dir = path_join (model_dir a) "logs"
  | Epoch_begin _ _ | Train_step _ _ _ | Epoch_end _ _ => True
  end.

(** The entries of the log by the part of the program that writes them. *)
Definition is_setup_event {X : Externals} (ev : event X) : bool :=
  match ev with
  | Call_get_list_labels _ _ _ _ | Call_mkdir _ | Call_BrainGenerator _
  | Call_unet _ | Call_build_training_generator _ _ => true
  | _ => false
  end.

Definition is_callback_event {X : Externals} (ev : event X) : bool :=
  match ev with
  | Checkpoint_written _ _ _ | Summary_written _ _ _ => true
  | _ => false
  end.

Definition is_epoch_event {X : Externals} (ev : event X) : bool :=
  match ev with
  | Epoch_begin _ _ | Train_step _ _ _ | Epoch_end _ _ => true
  | _ => is_callback_event ev
  end.

Definition is_epoch_end {X : Externals} (ev : event X) : bool :=
  match ev with Epoch_end _ _ => true | _ => false end.

Definition is_load {X : Externals} (ev : event X) : bool :=
  match ev with Call_load_weights _ _ _ => true | _ => false end.

Definition is_train_step {X : Externals} (ev : event X) : bool :=
  match ev with Train_step _ _ _ => true | _ => false end.

(** The weights the dice model starts from: the last checkpoint of the
    warm-up, by name, when the warm-up ran; else the file given by
    [load_model_file], if any. *)
Definition dice_loads (a : training_args) : list (string * bool) :=
  if 0 <? wl2_epochs a
  then [(checkpoint_name (model_dir a) "wl2" (wl2_epochs a), true)]
  else match load_model_file a with
       | Some f => [(f, false)]
       | None => []
       end.

(** The callbacks of the two phases. *)
Definition wl2_callbacks (a : training_args) : list callback :=
  [ModelCheckpoint (save_file_name (model_dir a) "wl2") true 1].

Definition dice_callbacks (a : training_args) : list callback :=
  [ModelCheckpoint (save_file_name (model_dir a) "dice") true 1;
   TensorBoard (path_join (model_dir a) "logs") 0 true false].

(** The external checkpoint the warm-up starts from, when it runs. *)
Definition wl2_loads (a : training_args) : list (string * bool) :=
  if 0 <? wl2_epochs a
  then match load_model_file a with
       | Some f => [(f, false)]
       | None => []
       end
  else [].

Definition is_compile {X : Externals} (ev : event X) : bool :=
  match ev with Call_compile _ _ _ _ => true | _ => false end.

(** The number of phases that run. *)
Definition phases_run (a : training_args) : nat :=
  (if 0 <? wl2_epochs a then 1%nat else 0%nat)
  + (if 0 <? dice_epochs a then 1%nat else 0%nat).

(** ** Scenarios

    Concrete runs in the world of [Demo]: three label maps with the labels
    0, 2, 3, 4 under [labels], a list of segmentation labels, a prior array
    with two modality blocks, and a weight file to start from. *)
Module Scenario.

Definition files : Demo.fs := {|
  Demo.dirs := ∅;
  Demo.label_lists := {[ "labels" := ([0; 2; 3; 4], 1); "seg.npy" := ([0; 2], 0) ]};
  Demo.prior_blocks := {[ "priors.npy" := 2 ]};
  Demo.h5_files :=
    {[ "start.h5" := [Layer "unet_conv_0" [[3; 3; 3; 1; 24]; [24]];
                      Layer "unet_likelihood" [[1; 1; 1; 24; 4]; [4]]] ]}
|}.

(** The defaults of [training], with the schedule, the segmentation labels,
    the checkpoint to load and the prior statistics of the scenario. *)
Definition args (wl2 dice steps first_dice : Z) (seg load : option string)
    (specific_stats priors : pyval) : training_args :=
  let d := training_defaults "labels" "models" in {|
  labels_dir := labels_dir d;
  model_dir := model_dir d;
  path_generation_labels := path_generation_labels d;
  path_segmentation_labels := seg;
  save_generation_labels := save_generation_labels d;
  batchsize := batchsize d;
  n_channels := n_channels d;
  target_res := target_res d;
  output_shape := output_shape d;
  path_generation_classes := path_generation_classes d;
  prior_distributions := prior_distributions d;
  prior_means := priors;
  prior_stds := prior_stds d;
  use_specific_stats_for_channel := specific_stats;
  mix_prior_and_random := mix_prior_and_random d;
  flipping := flipping d;
  scaling_bounds := scaling_bounds d;
  rotation_bounds := rotation_bounds d;
  shearing_bounds := shearing_bounds d;
  translation_bounds := translation_bounds d;
  nonlin_std := nonlin_std d;
  nonlin_shape_factor := nonlin_shape_factor d;
  randomise_res := randomise_res d;
  buil_distance_maps := buil_distance_maps d;
  data_res := data_res d;
  thickness := thickness d;
  downsample := downsample d;
  blur_range := blur_range d;
  bias_field_std := bias_field_std d;
  bias_shape_factor := bias_shape_factor d;
  n_levels := n_levels d;
  nb_conv_per_level := nb_conv_per_level d;
  conv_size := conv_size d;
  unet_feat_count := unet_feat_count d;
  feat_multiplier := feat_multiplier d;
  dropout := dropout d;
  activation := activation d;
  lr := lr d;
  lr_decay := lr_decay d;
  wl2_epochs := wl2;
  dice_epochs := dice;
  steps_per_epoch := steps;
  load_model_file := load;
  initial_epoch_wl2 := initial_epoch_wl2 d;
  initial_epoch_dice := first_dice
|}.

(** One warm-up epoch and three dice epochs of two steps, resumed after the
    first dice epoch. *)
Definition resumed : training_args := args 1 3 2 1 None None (PBool false) PNone.

(** No warm-up: one dice epoch started from an external checkpoint. *)
Definition from_checkpoint : training_args :=
  args 0 1 2 0 None (Some "start.h5") (PBool false) PNone.

(** Both epoch counts at zero. *)
Definition no_phase : training_args := args 0 0 2 0 None None (PBool false) PNone.

(** Segmentation labels given apart from the generation labels. *)
Definition with_segmentation : training_args :=
  args 1 1 1 0 (Some "seg.npy") None (PBool false) PNone.

(** Per-channel statistics asked for with two modality blocks and one
    channel. *)
Definition inconsistent_modalities : training_args :=
  args 1 1 1 0 None None (PBool true) (PStr "priors.npy").

(** One warm-up epoch of two steps and no dice epoch. *)
Definition warmup_only : training_args := args 1 0 2 0 None None (PBool false) PNone.

(** Segmentation labels asked from a file that is not there. *)
Definition missing_segmentation : training_args :=
  args 1 1 1 0 (Some "missing.npy") None (PBool false) PNone.

End Scenario.

(** The arguments of the generators built, read off a log. *)
Definition generator_calls {X : Externals} (l : list (event X)) : list BrainGenerator.args :=
  flat_map (fun ev => match ev with Call_BrainGenerator g => [g] | _ => [] end) l.

(** The directories asked for, read off a log. *)
Definition mkdir_calls {X : Externals} (l : list (event X)) : list string :=
  flat_map (fun ev => match ev with Call_mkdir p => [p] | _ => [] end) l.

(** ** The command line against the signature *)

(** The default of a parameter in a signature ([None] for a parameter
    without default and for a name that is not a parameter). *)
Definition default_of (sig : signature) (k : string) : option pyval :=
  match find (fun p => String.eqb (fst p) k) sig with
  | Some (_, d) => d
  | None => None
  end.

(** The destinations of the command line whose default differs from the
    default [training] has for the parameter of that name. *)
Definition mismatched_defaults : list string :=
  map arg_dest
    (List.filter
       (fun a => match get_attr (initial_namespace parser) (arg_dest a),
                       default_of training_signature (arg_dest a) with
                 | Some v, Some d => negb (py_eqb v d)
                 | _, _ => false
                 end) parser).

(** The destinations of the command line that [training] has no parameter
    for. *)
Definition unknown_keywords : list string :=
  List.filter (fun k => negb (is_parameter training_signature k)) (map arg_dest parser).

(** The arguments of the networks built, read off a log. *)
Definition unet_calls {X : Externals} (l : list (event X)) : list (unet.args (KModel X)) :=
  flat_map (fun ev => match ev with Call_unet u => [u] | _ => [] end) l.

(** ** The schedule of a run *)

(** The epochs a phase runs, as keras numbers them (from 0): none when the
    count of the phase is not positive, else those from its initial epoch
    up to its count. *)
Definition phase_epochs (epochs initial_epoch : Z) : list Z :=
  if 0 <? epochs then epochs_from initial_epoch (Z.to_nat (epochs - initial_epoch)) else [].

Definition wl2_schedule (a : training_args) : list Z :=
  phase_epochs (wl2_epochs a) (initial_epoch_wl2 a).

Definition dice_schedule (a : training_args) : list Z :=
  phase_epochs (dice_epochs a) (initial_epoch_dice a).

(** The checkpoint files of a run that goes through: one for each epoch of
    the warm-up, then one for each epoch of the fine-tuning, each named by
    the number of its epoch counted from 1. *)
Definition expected_checkpoints (a : training_args) : list string :=
  map (fun e => checkpoint_name (model_dir a) "wl2" (e + 1)) (wl2_schedule a)
  ++ map (fun e => checkpoint_name (model_dir a) "dice" (e + 1)) (dice_schedule a).

(** The summaries written (the folder and the epoch of each) and the batches
    trained on (the epoch and the step of each), read off a log. *)
Definition summaries {X : Externals} (l : list (event X)) : list (string * Z) :=
  flat_map (fun ev => match ev with Summary_written _ d e => [(d, e)] | _ => [] end) l.

Definition train_steps {X : Externals} (l : list (event X)) : list (Z * nat) :=
  flat_map (fun ev => match ev with Train_step _ e i => [(e, i)] | _ => [] end) l.

(** The load of the last warm-up checkpoint into the dice model is the only
    load by name. *)
Definition is_handoff {X : Externals} (ev : event X) : bool :=
  match ev with Call_load_weights _ _ true => true | _ => false end.

(** [a] with the warm-up resumed from the epoch [k]. *)
Definition with_initial_epoch_wl2 (a : training_args) (k : Z) : training_args := {|
  labels_dir := labels_dir a;
  model_dir := model_dir a;
  path_generation_labels := path_generation_labels a;
  path_segmentation_labels := path_segmentation_labels a;
  save_generation_labels := save_generation_labels a;
  batchsize := batchsize a;
  n_channels := n_channels a;
  target_res := target_res a;
  output_shape := output_shape a;
  path_generation_classes := path_generation_classes a;
  prior_distributions := prior_distributions a;
  prior_means := prior_means a;
  prior_stds := prior_stds a;
  use_specific_stats_for_channel := use_specific_stats_for_channel a;
  mix_prior_and_random := mix_prior_and_random a;
  flipping := flipping a;
  scaling_bounds := scaling_bounds a;
  rotation_bounds := rotation_bounds a;
  shearing_bounds := shearing_bounds a;
  translation_bounds := translation_bounds a;
  nonlin_std := nonlin_std a;
  nonlin_shape_factor := nonlin_shape_factor a;
  randomise_res := randomise_res a;
  buil_distance_maps := buil_distance_maps a;
  data_res := data_res a;
  thickness := thickness a;
  downsample := downsample a;
  blur_range := blur_range a;
  bias_field_std := bias_field_std a;
  bias_shape_factor := bias_shape_factor a;
  n_levels := n_levels a;
  nb_conv_per_level := nb_conv_per_level a;
  conv_size := conv_size a;
  unet_feat_count := unet_feat_count a;
  feat_multiplier := feat_multiplier a;
  dropout := dropout a;
  activation := activation a;
  lr := lr a;
  lr_decay := lr_decay a;
  wl2_epochs := wl2_epochs a;
  dice_epochs := dice_epochs a;
  steps_per_epoch := steps_per_epoch a;
  load_model_file := load_model_file a;
  initial_epoch_wl2 := k;
  initial_epoch_dice := initial_epoch_dice a
|}.

(** Runs that take the warm-up up again. *)
Module Resumption.

(** Three warm-up epochs resumed after the first, then two dice epochs, of
    one step each. *)
Definition warmup_resumed : training_args :=
  with_initial_epoch_wl2 (Scenario.args 3 2 1 0 None None (PBool false) PNone) 1.

(** Two warm-up epochs, both already done, then one dice epoch. *)
Definition past_warmup : training_args :=
  with_initial_epoch_wl2 (Scenario.args 2 1 1 0 None None (PBool false) PNone) 2.

End Resumption.

(** ** What the phases are built on *)

(** The calls on one model [m] fed by the batches [g]: its loads, its
    compilation and its fit. *)
Definition on_model {X : Externals} (m : KModel X) (g : Batches X) (ev : event X) : Prop :=
  match ev with
  | Call_load_weights m' _ _ | Call_compile m' _ _ _ => m' = m
  | Call_fit_generator m' g' _ _ _ _ => m' = m /\ g' = g
  | Call_Model _ _ | Call_metrics_model _ _ _ => False
  | _ => True
  end.

(** The entries of a log whose phases are built on the segmentation labels
    [sl], the network [u] and the batches [tg]: the warm-up model is cut
    from [u] and the dice model wraps [u], both loss heads are given [sl],
    only models that come out of [metrics_model] are loaded, compiled and
    fitted, and every fit is fed by [tg]. *)
Definition built_on {X : Externals} (sl : list Z) (u : KModel X) (tg : Batches X)
    (ev : event X) : Prop :=
  match ev with
  | Call_Model m _ => m = u
  | Call_metrics_model label_list m metrics =>
      label_list = sl
      /\ match metrics with
         | None => m = u
         | Some _ => Model_up_to X u "unet_likelihood" = inr m
         end
  | Call_load_weights m _ _ | Call_compile m _ _ _ =>
      exists m0 metrics, metrics_model X sl m0 metrics = inr m
  | Call_fit_generator m g _ _ _ _ =>
      g = tg /\ exists m0 metrics, metrics_model X sl m0 metrics = inr m
  | _ => True
  end.

(** The calls of the label registry, read off a log. *)
Definition label_calls {X : Externals} (l : list (event X))
    : list (option string * option string * option string * bool) :=
  flat_map (fun ev => match ev with
                      | Call_get_list_labels p d s b => [(p, d, s, b)]
                      | _ => []
                      end) l.

(** ** What the callbacks write *)

(** The weights of a model to a file, or the summary of an epoch to a
    folder. *)
Inductive written : Type :=
| Weights (filepath : string)
| Summary (log_dir : string) (epoch : Z).

Definition writes {X : Externals} (l : list (event X)) : list written :=
  flat_map (fun ev => match ev with
                      | Checkpoint_written _ f _ => [Weights f]
                      | Summary_written _ d e => [Summary d e]
                      | _ => []
                      end) l.

Definition is_summary {X : Externals} (ev : event X) : bool :=
  match ev with Summary_written _ _ _ => true | _ => false end.

(** What the callbacks of a phase write at the end of the epoch [e]: the
    checkpoint, then the summary in the fine-tuning. *)
Definition epoch_writes (model_dir log_dir tag : string) (e : Z) : list written :=
  Weights (checkpoint_name model_dir tag (e + 1))
  :: (if String.eqb tag "dice" then [Summary log_dir e] else []).

(** A model directory whose name holds a brace. *)
Definition braced : training_args :=
  let d := Resumption.warmup_resumed in {|
  labels_dir := labels_dir d;
  model_dir := "run{1";
  path_generation_labels := path_generation_labels d;
  path_segmentation_labels := path_segmentation_labels d;
  save_generation_labels := save_generation_labels d;
  batchsize := batchsize d;
  n_channels := n_channels d;
  target_res := target_res d;
  output_shape := output_shape d;
  path_generation_classes := path_generation_classes d;
  prior_distributions := prior_distributions d;
  prior_means := prior_means d;
  prior_stds := prior_stds d;
  use_specific_stats_for_channel := use_specific_stats_for_channel d;
  mix_prior_and_random := mix_prior_and_random d;
  flipping := flipping d;
  scaling_bounds := scaling_bounds d;
  rotation_bounds := rotation_bounds d;
  shearing_bounds := shearing_bounds d;
  translation_bounds := translation_bounds d;
  nonlin_std := nonlin_std d;
  nonlin_shape_factor := nonlin_shape_factor d;
  randomise_res := randomise_res d;
  buil_distance_maps := buil_distance_maps d;
  data_res := data_res d;
  thickness := thickness d;
  downsample := downsample d;
  blur_range := blur_range d;
  bias_field_std := bias_field_std d;
  bias_shape_factor := bias_shape_factor d;
  n_levels := n_levels d;
  nb_conv_per_level := nb_conv_per_level d;
  conv_size := conv_size d;
  unet_feat_count := unet_feat_count d;
  feat_multiplier := feat_multiplier d;
  dropout := dropout d;
  activation := activation d;
  lr := lr d;
  lr_decay := lr_decay d;
  wl2_epochs := wl2_epochs d;
  dice_epochs := dice_epochs d;
  steps_per_epoch := steps_per_epoch d;
  load_model_file := load_model_file d;
  initial_epoch_wl2 := initial_epoch_wl2 d;
  initial_epoch_dice := initial_epoch_dice d
|}.

(** ** The command line of the supervised training
    (scripts/launch_scripts_from_terminal/supervised_training.py) *)

Definition supervised_parser : list argument := [
  Arg "image_dir" "image_dir" (positional type_str);
  Arg "labels_dir" "labels_dir" (positional type_str);
  Arg "model_dir" "model_dir" (positional type_str);
  Arg "--segmentation_labels" "path_segmentation_labels" (store type_str PNone);
  Arg "--batch_size" "batchsize" (store type_int (PInt 1));
  Arg "--output_shape" "output_shape" (store type_int PNone);
  Arg "--no_flipping" "flipping" store_false;
  Arg "--scaling" "scaling_bounds" (store type_infer (PFloat (15 # 100)));
  Arg "--rotation" "rotation_bounds" (store type_infer (PInt 15));
  Arg "--shearing" "shearing_bounds" (store type_infer (PFloat (12 # 1000)));
  Arg "--translation" "translation_bounds" (store type_infer (PBool false));
  Arg "--nonlin_std" "nonlin_std" (store type_float (PFloat (3 # 1)));
  Arg "--nonlin_shape_factor" "nonlin_shape_factor" (store type_float (PFloat (4 # 100)));
  Arg "--bias_std" "bias_field_std" (store type_float (PFloat (5 # 10)));
  Arg "--bias_shape_factor" "bias_shape_factor" (store type_float (PFloat (25 # 1000)));
  Arg "--n_levels" "n_levels" (store type_int (PInt 5));
  Arg "--conv_per_level" "nb_conv_per_level" (store type_int (PInt 2));
  Arg "--conv_size" "conv_size" (store type_int (PInt 3));
  Arg "--unet_feat" "unet_feat_count" (store type_int (PInt 24));
  Arg "--feat_mult" "feat_multiplier" (store type_int (PInt 2));
  Arg "--dropout" "dropout" (store type_float (PFloat (0 # 1)));
  Arg "--activation" "activation" (store type_str (PStr "elu"));
  Arg "--lr" "lr" (store type_float (PFloat (1 # 10000)));
  Arg "--lr_decay" "lr_decay" (store type_float (PInt 0));
  Arg "--wl2_epochs" "wl2_epochs" (store type_int (PInt 5));
  Arg "--dice_epochs" "dice_epochs" (store type_int (PInt 100));
  Arg "--steps_per_epoch" "steps_per_epoch" (store type_int (PInt 1000));
  Arg "--checkpoint" "checkpoint" (store type_str PNone);
  Arg "--reinitialise_momentum" "reinitialise_momentum" store_true;
  Arg "--freeze_layers" "freeze_layers" store_true
].

(** The keywords of the call [supervised_training] is given: the
    destinations of the parser, in the order they are declared. *)
Definition supervised_keywords : list string := map arg_dest supervised_parser.

(** The script: [args = parser.parse_args()], then [supervised_training]
    called with [vars(args)] unpacked into keyword arguments, up to the
    binding of its arguments.  [SynthSeg.supervised_training] is not under
    src/: its signature [sig] is left open. *)
Definition supervised_script (convert : arg_type -> string -> option pyval)
    (sig : signature) (argv : list string) : exn + list (string * pyval) :=
  match parse_args convert supervised_parser argv with
  | None => inl (Raise "SystemExit" "2")
  | Some args => call_kwargs "supervised_training" sig args
  end.

(** The options of a parser at their defaults, as the namespace holds them. *)
Definition option_defaults (p : list argument) : namespace :=
  map (fun a => (arg_dest a, arg_default a)) (List.filter (fun a => negb (is_positional a)) p).

(** A run that is to start from a weight file that is not there. *)
Definition from_absent_file : training_args :=
  Scenario.args 1 1 1 0 None (Some "absent.h5") (PBool false) PNone.


(** ** Braces in the name of the model directory *)

(** [a] with the model directory [dir]. *)
Definition with_model_dir (a : training_args) (dir : string) : training_args := {|
  labels_dir := labels_dir a;
  model_dir := dir;
  path_generation_labels := path_generation_labels a;
  path_segmentation_labels := path_segmentation_labels a;
  save_generation_labels := save_generation_labels a;
  batchsize := batchsize a;
  n_channels := n_channels a;
  target_res := target_res a;
  output_shape := output_shape a;
  path_generation_classes := path_generation_classes a;
  prior_distributions := prior_distributions a;
  prior_means := prior_means a;
  prior_stds := prior_stds a;
  use_specific_stats_for_channel := use_specific_stats_for_channel a;
  mix_prior_and_random := mix_prior_and_random a;
  flipping := flipping a;
  scaling_bounds := scaling_bounds a;
  rotation_bounds := rotation_bounds a;
  shearing_bounds := shearing_bounds a;
  translation_bounds := translation_bounds a;
  nonlin_std := nonlin_std a;
  nonlin_shape_factor := nonlin_shape_factor a;
  randomise_res := randomise_res a;
  buil_distance_maps := buil_distance_maps a;
  data_res := data_res a;
  thickness := thickness a;
  downsample := downsample a;
  blur_range := blur_range a;
  bias_field_std := bias_field_std a;
  bias_shape_factor := bias_shape_factor a;
  n_levels := n_levels a;
  nb_conv_per_level := nb_conv_per_level a;
  conv_size := conv_size a;
  unet_feat_count := unet_feat_count a;
  feat_multiplier := feat_multiplier a;
  dropout := dropout a;
  activation := activation a;
  lr := lr a;
  lr_decay := lr_decay a;
  wl2_epochs := wl2_epochs a;
  dice_epochs := dice_epochs a;
  steps_per_epoch := steps_per_epoch a;
  load_model_file := load_model_file a;
  initial_epoch_wl2 := initial_epoch_wl2 a;
  initial_epoch_dice := initial_epoch_dice a
|}.

Module Braces.

(** No warm-up and three dice epochs of two steps, resumed after the first,
    in the directory [models]. *)
Definition resumed_plain : training_args :=
  Scenario.args 0 3 2 1 None None (PBool false) PNone.

(** The same run in the directory [run{1]. *)
Definition resumed_one_brace : training_args := with_model_dir resumed_plain "run{1".

(** No warm-up and two dice epochs of one step, in the directory [m{{x}}]. *)
Definition escaped : training_args :=
  with_model_dir (Scenario.args 0 2 1 0 None None (PBool false) PNone) "m{{x}}".

(** One warm-up epoch and one dice epoch of one step, in [m{{x}}]. *)
Definition escaped_two_phases : training_args :=
  with_model_dir (Scenario.args 1 1 1 0 None None (PBool false) PNone) "m{{x}}".

End Braces.


(** * Properties *)

Open Scope list_scope.

(** ** Strings and formatting *)

Example fmt_03d_5 : fmt_03d 5 = "005". Proof. reflexivity. Qed.
Example fmt_03d_100 : fmt_03d 100 = "100". Proof. reflexivity. Qed.
Example fmt_03d_1234 : fmt_03d 1234 = "1234". Proof. reflexivity. Qed.
Example fmt_03d_neg : fmt_03d (-5) = "-05". Proof. reflexivity. Qed.
Example path_join_plain : path_join "models" "logs" = "models/logs". Proof. reflexivity. Qed.
Example path_join_sep : path_join "models/" "logs" = "models/logs". Proof. reflexivity. Qed.
Example path_join_empty : path_join "" "logs" = "logs". Proof. reflexivity. Qed.
Example path_join_abs : path_join "models" "/logs" = "/logs". Proof. reflexivity. Qed.
Example format_epoch_dice :
  format_epoch "models/dice_{epoch:03d}.h5" 7 = Some "models/dice_007.h5".
Proof. reflexivity. Qed.
Example format_epoch_escaped :
  format_epoch "m{{x}}/dice_{epoch:03d}.h5" 7 = Some "m{x}/dice_007.h5".
Proof. reflexivity. Qed.
Example format_epoch_field :
  format_epoch "m{x}/dice_{epoch:03d}.h5" 7 = None.
Proof. reflexivity. Qed.
Example py_pow2_5 : py_pow2 5 = PInt 32. Proof. reflexivity. Qed.
Example py_pow2_neg : py_pow2 (-1) = PFloat (1 # 2). Proof. reflexivity. Qed.

Lemma append_cons (c : ascii) (s t : string) : String c s +:+ t = String c (s +:+ t).
Proof. reflexivity. Qed.

Lemma append_empty (t : string) : "" +:+ t = t.
Proof. reflexivity. Qed.

Lemma append_associative (s t u : string) : s +:+ t +:+ u = (s +:+ t) +:+ u.
Proof.
  induction s as [|c s IH]; [reflexivity|].
  rewrite !append_cons. now f_equal.
Qed.

Lemma option_map_append (s t : string) (o : option string) :
  option_map (String.append s) (option_map (String.append t) o)
  = option_map (String.append (s +:+ t)) o.
Proof.
  destruct o as [u|]; simpl; [|reflexivity].
  f_equal. apply append_associative.
Qed.

(** Text without braces goes through [format] unchanged. *)
Lemma format_scan_brace_free (s t : string) (e : Z) :
  brace_free s = true ->
  format_scan None (s +:+ t) e = option_map (String.append s) (format_scan None t e).
Proof.
  induction s as [|c s IH]; intros H.
  - rewrite append_empty. now destruct (format_scan None t e).
  - rewrite append_cons. simpl in H |- *.
    apply andb_prop in H as [H Hs]. apply andb_prop in H as [Ho Hc].
    apply negb_true_iff in Ho, Hc. rewrite Ho, Hc, (IH Hs).
    now destruct (format_scan None t e).
Qed.

Lemma path_join_relative (a b : string) :
  String.prefix "/" b = false -> path_join a b = a +:+ sep_of a +:+ b.
Proof.
  intros H. unfold path_join, sep_of. rewrite H.
  now destruct (String.eqb a "" || ends_with_sep a)%bool.
Qed.

Lemma sep_of_brace_free (a : string) : brace_free (sep_of a) = true.
Proof. unfold sep_of. now destruct (String.eqb a "" || ends_with_sep a)%bool. Qed.

(** The file path [train_model] gives to the checkpoint callback formats to
    the checkpoint name of the phase, when the model directory has no brace
    in it. *)
Lemma format_save_file_name (model_dir tag : string) (e : Z) :
  brace_free model_dir = true ->
  tag = "wl2" \/ tag = "dice" ->
  format_epoch (save_file_name model_dir tag) e = Some (checkpoint_name model_dir tag e).
Proof.
  intros Hb Htag. unfold format_epoch, save_file_name, checkpoint_name.
  rewrite !path_join_relative by (destruct Htag; subst; reflexivity).
  rewrite (format_scan_brace_free _ _ _ Hb).
  rewrite (format_scan_brace_free _ _ _ (sep_of_brace_free model_dir)).
  destruct Htag; subst; reflexivity.
Qed.

(** ** Running the monad *)

Section Runs.

Context {X : Externals}.

Lemma bind_failed {A B} (m : M X A) (f : A -> M X B) (w : World X) (e : exn) :
  result (m w) = inl e ->
  (m ≫= f) w = Outcome (trace (m w)) (world (m w)) (inl e).
Proof. intros H. unfold mbind, M_bind, bind. now rewrite H. Qed.

Lemma bind_passed {A B} (m : M X A) (f : A -> M X B) (w : World X) (a : A) :
  result (m w) = inr a ->
  (m ≫= f) w = Outcome (trace (m w) ++ trace (f a (world (m w))))
                        (world (f a (world (m w)))) (result (f a (world (m w)))).
Proof. intros H. unfold mbind, M_bind, bind. now rewrite H. Qed.

(** A bind that returns ran both of its parts. *)
Lemma bind_returns {A B} (m : M X A) (f : A -> M X B) (w : World X) (b : B) :
  result ((m ≫= f) w) = inr b ->
  exists a, result (m w) = inr a /\ result (f a (world (m w))) = inr b /\
            trace ((m ≫= f) w) = trace (m w) ++ trace (f a (world (m w))).
Proof.
  destruct (result (m w)) as [e|a] eqn:H.
  - rewrite (bind_failed _ _ _ _ H). discriminate.
  - rewrite (bind_passed _ _ _ _ H). simpl. eauto.
Qed.

(** The log of a bind starts with the log of its first part. *)
Lemma bind_trace {A B} (m : M X A) (f : A -> M X B) (w : World X) :
  exists rest, trace ((m ≫= f) w) = trace (m w) ++ rest /\
    (rest = [] \/ exists a, result (m w) = inr a /\ rest = trace (f a (world (m w)))).
Proof.
  destruct (result (m w)) as [e|a] eqn:H.
  - rewrite (bind_failed _ _ _ _ H). exists []. simpl. rewrite app_nil_r. auto.
  - rewrite (bind_passed _ _ _ _ H). simpl. eexists. split; [reflexivity|]. right. eauto.
Qed.

Lemma emits_bind {A B} (P : event X -> Prop) (m : M X A) (f : A -> M X B) :
  emits P m -> (forall a, emits P (f a)) -> emits P (m ≫= f).
Proof.
  intros Hm Hf w. destruct (bind_trace m f w) as (rest & -> & [-> | (a & _ & ->)]).
  - rewrite app_nil_r. apply Hm.
  - apply Forall_app. split; [apply Hm | apply Hf].
Qed.

Lemma emits_ret {A} (P : event X -> Prop) (a : A) : emits P (mret a : M X A).
Proof. intros w. constructor. Qed.

Lemma emits_raise {A} (P : event X -> Prop) (e : exn) : emits P (raise e : M X A).
Proof. intros w. constructor. Qed.

Lemma emits_call {A} (P : event X -> Prop) (ev : event X) op :
  P ev -> emits P (call ev op : M X A).
Proof. intros H w. unfold call. destruct (op w). simpl. auto. Qed.

Lemma emits_build {A} (P : event X -> Prop) (ev : event X) (r : exn + A) :
  P ev -> emits P (build ev r).
Proof. intros H w. simpl. auto. Qed.

Lemma emits_weaken {A} (P Q : event X -> Prop) (m : M X A) :
  (forall ev, P ev -> Q ev) -> emits P m -> emits Q m.
Proof. intros H Hm w. eapply Forall_impl; [apply Hm | exact H]. Qed.

End Runs.

(** Splits a goal [emits P m] along the binds of [m]. *)
Ltac emits_step :=
  first
    [ apply emits_ret
    | apply emits_raise
    | apply emits_call
    | apply emits_build
    | apply emits_bind;
      [| let x := fresh "x" in
         intros x; repeat match goal with p : (_ * _)%type |- _ => destruct p end ] ].

(** ** The calls of a run and their arguments *)

Section Calls.

Context {X : Externals}.

Variable a : training_args.

Lemma emits_load_weights (P : event X -> Prop) m f by_name :
  P (Call_load_weights m f by_name) -> emits P (load_weights X m f by_name).
Proof. apply emits_call. Qed.

Lemma emits_run_steps (P : event X -> Prop) m g e done todo :
  (forall i, P (Train_step m e i)) -> emits P (run_steps X m g e done todo).
Proof.
  intros H. revert done. induction todo as [|todo IH]; intros done; simpl.
  - apply emits_ret.
  - apply emits_bind; [apply emits_call, H | intros _; apply IH].
Qed.

Lemma emits_callbacks m e cs :
  Forall (expected_callback a) cs ->
  emits (expected_event a) (callbacks_on_epoch_end X m e cs).
Proof.
  induction 1 as [|c cs Hc _ IH]; simpl.
  - apply emits_ret.
  - apply emits_bind; [| intros _; exact IH].
    destruct c as [filepath wo v | ld hf wg wi]; simpl in Hc |- *.
    + destruct (format_epoch filepath (e + 1)); [apply emits_call, Hc | apply emits_raise].
    + apply emits_call, Hc.
Qed.

Lemma emits_epoch_loop m g steps cs n e :
  Forall (expected_callback a) cs ->
  emits (expected_event a) (epoch_loop X m g steps cs n e).
Proof.
  intros Hcs. revert e. induction n as [|n IH]; intros e; simpl.
  - apply emits_ret.
  - repeat emits_step; simpl; auto.
    + now apply emits_run_steps.
    + now apply emits_callbacks.
Qed.

Lemma expected_callbacks (tag : string) :
  Forall (expected_callback a)
         (train_callbacks (model_dir a) (path_join (model_dir a) "logs") tag).
Proof.
  unfold train_callbacks. destruct (String.eqb tag "dice"); repeat constructor.
Qed.

Lemma emits_wl2_phase sl u tg :
  emits (expected_event a) (wl2_phase X a sl u tg (path_join (model_dir a) "logs")).
Proof.
  unfold wl2_phase. destruct (0 <? wl2_epochs a) eqn:Hw; [| apply emits_ret].
  apply Z.ltb_lt in Hw.
  repeat emits_step; simpl; auto.
  - destruct (load_model_file a) as [f|] eqn:Hf; [| apply emits_ret].
    apply emits_load_weights. simpl. auto.
  - unfold train_model, fit_generator. repeat emits_step; simpl; auto.
    apply emits_epoch_loop, expected_callbacks.
Qed.

Lemma emits_dice_phase sl u tg :
  emits (expected_event a) (dice_phase X a sl u tg (path_join (model_dir a) "logs")).
Proof.
  unfold dice_phase. destruct (0 <? dice_epochs a) eqn:Hd; [| apply emits_ret].
  apply Z.ltb_lt in Hd.
  repeat emits_step; simpl; auto.
  - destruct (0 <? wl2_epochs a) eqn:Hw.
    + apply Z.ltb_lt in Hw. apply emits_load_weights. simpl. right. auto.
    + destruct (load_model_file a) as [f|] eqn:Hf; [| apply emits_ret].
      apply emits_load_weights. simpl. auto.
  - unfold train_model, fit_generator. repeat emits_step; simpl; auto.
    apply emits_epoch_loop, expected_callbacks.
Qed.

Lemma emits_get_label_lists : emits (expected_event a) (get_label_lists X a).
Proof.
  unfold get_label_lists. repeat emits_step; simpl; auto.
  destruct (path_segmentation_labels a) as [p|] eqn:Hp; repeat emits_step; simpl.
  split; [reflexivity|]. right. rewrite Hp. repeat split; congruence.
Qed.

Lemma prepare_log_dir w sl u tg ld :
  result (prepare X a w) = inr (sl, u, tg, ld) -> ld = path_join (model_dir a) "logs".
Proof.
  unfold prepare. intros H.
  repeat (apply bind_returns in H as (? & _ & H & _);
          repeat match goal with p : (_ * _)%type |- _ => destruct p end).
  simpl in H. congruence.
Qed.

Lemma emits_prepare : emits (expected_event a) (prepare X a).
Proof.
  unfold prepare. apply emits_bind; [apply emits_get_label_lists |].
  intros [[gl n] sl]. repeat emits_step; simpl; eauto.
Qed.

(** Every entry of the log of a run is a call the source makes, with the
    arguments the source gives it. *)
Lemma emits_training : emits (expected_event a) (training X a).
Proof.
  unfold training. apply emits_bind.
  - unfold py_assert. destruct (_ || _); [apply emits_ret | apply emits_raise].
  - intros _. intros w.
    destruct (bind_trace (prepare X a)
      (fun '(sl, u, tg, ld) => wl2_phase X a sl u tg ld ;; dice_phase X a sl u tg ld) w)
      as (rest & Ht & Hrest).
    rewrite Ht. apply Forall_app. split; [apply emits_prepare |].
    destruct Hrest as [-> | ([[[sl u] tg] ld] & Hr & ->)]; [constructor |].
    rewrite (prepare_log_dir _ _ _ _ _ Hr).
    apply emits_bind; [apply emits_wl2_phase | intros _; apply emits_dice_phase].
Qed.

End Calls.

(** ** The epoch loop *)

Section EpochLoop.

Context {X : Externals}.

Lemma ret_bind {A B} (x : A) (f : A -> M X B) (w : World X) : (mret x ≫= f) w = f x w.
Proof. unfold mbind, M_bind, bind, mret, M_ret, ret. simpl. now destruct (f x w). Qed.

Lemma build_bind {B} (ev : event X) (f : unit -> M X B) (w : World X) :
  (build ev (inr tt) ≫= f) w
  = Outcome (ev :: trace (f tt w)) (world (f tt w)) (result (f tt w)).
Proof. reflexivity. Qed.

Lemma emits_run_steps_kind m g e done todo :
  emits (fun ev => is_train_step ev = true) (run_steps X m g e done todo).
Proof. now apply emits_run_steps. Qed.

Lemma emits_callbacks_kind m e cs :
  emits (fun ev => is_callback_event ev = true) (callbacks_on_epoch_end X m e cs).
Proof.
  induction cs as [|c cs IH]; simpl; [apply emits_ret|].
  apply emits_bind; [| intros _; exact IH].
  destruct c; simpl; [destruct (format_epoch _ _) |]; repeat emits_step; reflexivity.
Qed.

Lemma emits_epoch_loop_kind m g steps cs n e :
  emits (fun ev => is_epoch_event ev = true) (epoch_loop X m g steps cs n e).
Proof.
  revert e. induction n as [|n IH]; intros e; simpl; [apply emits_ret|].
  repeat emits_step; try reflexivity; try apply IH.
  - eapply emits_weaken; [| apply emits_run_steps_kind]. intros ev H. now destruct ev.
  - eapply emits_weaken; [| apply emits_callbacks_kind].
    intros ev H. now destruct ev.
Qed.

Lemma epoch_loop_next m g steps cs n e :
  epoch_loop X m g steps cs (S n) e
  = (build (Epoch_begin m e) (inr tt) ;;
     run_steps X m g e 0 (Z.to_nat steps) ;;
     callbacks_on_epoch_end X m e cs ;;
     build (Epoch_end m e) (inr tt) ;;
     epoch_loop X m g steps cs n (e + 1)).
Proof. reflexivity. Qed.

(** *** Reading a log in pieces *)

Lemma checkpointed_from_app name (seen l l' : list (event X)) :
  checkpointed_from name seen (l ++ l')
  <-> checkpointed_from name seen l /\ checkpointed_from name (seen ++ l) l'.
Proof.
  revert seen. induction l as [|ev l IH]; intros seen; simpl.
  - rewrite app_nil_r. tauto.
  - rewrite IH, <- app_assoc. simpl. tauto.
Qed.

Lemma checkpointed_from_quiet name (seen l : list (event X)) :
  Forall (fun ev => is_epoch_end ev = false) l -> checkpointed_from name seen l.
Proof.
  intros H. revert seen. induction H as [|ev l Hev _ IH]; intros seen; simpl; [exact I|].
  split; [| apply IH]. now destruct ev.
Qed.

Lemma epochs_ended_quiet (l : list (event X)) :
  Forall (fun ev => is_epoch_end ev = false) l -> epochs_ended l = [].
Proof.
  induction 1 as [|ev l Hev _ IH]; [reflexivity|].
  unfold epochs_ended in *. simpl. rewrite IH. now destruct ev.
Qed.

Lemma checkpoints_quiet (l : list (event X)) :
  Forall (fun ev => is_callback_event ev = false) l -> checkpoints l = [].
Proof.
  induction 1 as [|ev l Hev _ IH]; [reflexivity|].
  unfold checkpoints in *. simpl. rewrite IH. now destruct ev.
Qed.

Lemma loads_quiet (l : list (event X)) :
  Forall (fun ev => is_load ev = false) l -> loads l = [].
Proof.
  induction 1 as [|ev l Hev _ IH]; [reflexivity|].
  unfold loads in *. simpl. rewrite IH. now destruct ev.
Qed.

Lemma compiles_quiet (l : list (event X)) :
  Forall (fun ev => is_compile ev = false) l -> compiles l = [].
Proof.
  induction 1 as [|ev l Hev _ IH]; [reflexivity|].
  unfold compiles in *. simpl. rewrite IH. now destruct ev.
Qed.

Lemma compiles_app (l l' : list (event X)) :
  compiles (l ++ l') = compiles l ++ compiles l'.
Proof. apply flat_map_app. Qed.

Lemma fit_callbacks_quiet (l : list (event X)) :
  Forall (fun ev => is_epoch_event ev = true \/ is_setup_event ev = true) l ->
  fit_callbacks l = [].
Proof.
  induction 1 as [|ev l Hev _ IH]; [reflexivity|].
  unfold fit_callbacks in *. simpl. rewrite IH. now destruct ev, Hev.
Qed.

Lemma epochs_ended_app (l l' : list (event X)) :
  epochs_ended (l ++ l') = epochs_ended l ++ epochs_ended l'.
Proof. apply flat_map_app. Qed.

Lemma checkpoints_app (l l' : list (event X)) :
  checkpoints (l ++ l') = checkpoints l ++ checkpoints l'.
Proof. apply flat_map_app. Qed.

Lemma loads_app (l l' : list (event X)) : loads (l ++ l') = loads l ++ loads l'.
Proof. apply flat_map_app. Qed.

Lemma fit_callbacks_app (l l' : list (event X)) :
  fit_callbacks (l ++ l') = fit_callbacks l ++ fit_callbacks l'.
Proof. apply flat_map_app. Qed.

Lemma wl2_part_app (l l' : list (event X)) :
  Forall (fun ev => is_dice_model_call ev = false) l ->
  wl2_part (l ++ l') = l ++ wl2_part l'.
Proof. induction 1 as [|ev l Hev _ IH]; simpl; [reflexivity|]. now rewrite Hev, IH. Qed.

Lemma dice_part_app (l l' : list (event X)) :
  Forall (fun ev => is_dice_model_call ev = false) l ->
  dice_part (l ++ l') = dice_part l'.
Proof. induction 1 as [|ev l Hev _ IH]; simpl; [reflexivity|]. now rewrite Hev. Qed.

End EpochLoop.

(** ** One phase: [train_model] *)

Section Phase.

Context {X : Externals}.

Variables (md ld tag : string).

Hypothesis md_brace_free : brace_free md = true.
Hypothesis tag_of_phase : tag = "wl2" \/ tag = "dice".

(** When the callbacks of an epoch return, the checkpoint of the epoch has
    been written, and it is the only one. *)
Lemma callbacks_checkpoint (m : KModel X) (e : Z) (w : World X) :
  let o := callbacks_on_epoch_end X m e (train_callbacks md ld tag) w in
  result o = inr tt ->
  checkpoints (trace o) = [checkpoint_name md tag (e + 1)]
  /\ In (Checkpoint_written m (checkpoint_name md tag (e + 1)) true) (trace o).
Proof.
  unfold train_callbacks.
  destruct (String.eqb tag "dice"); simpl; unfold on_epoch_end;
    rewrite (format_save_file_name _ _ _ md_brace_free tag_of_phase);
    unfold mbind, M_bind, bind, call;
    destruct (save_weights X m _ w) as [[e1|[]] w1]; simpl; try discriminate.
  - destruct (write_summaries X m ld e w1) as [[e2|[]] w2]; simpl; try discriminate.
    intros _. split; auto.
  - intros _. split; auto.
Qed.

(** No epoch of the loop ends before its checkpoint is written, whether the
    loop returns or raises. *)
Lemma epoch_loop_checkpointed (m : KModel X) (g : Batches X) (steps : Z)
    (n : nat) (e : Z) (w : World X) (seen : list (event X)) :
  checkpointed_from (checkpoint_name md tag) seen
    (trace (epoch_loop X m g steps (train_callbacks md ld tag) n e w)).
Proof.
  revert e w seen. induction n as [|n IH]; intros e w seen; [exact I|].
  rewrite epoch_loop_next, build_bind. simpl. split; [exact I|].
  pose proof (emits_run_steps_kind m g e 0 (Z.to_nat steps) w) as Hsteps.
  destruct (result (run_steps X m g e 0 (Z.to_nat steps) w)) as [e1|[]] eqn:H1.
  { rewrite (bind_failed _ _ _ _ H1). simpl. apply checkpointed_from_quiet.
    eapply Forall_impl; [exact Hsteps|]. intros ev Hev. now destruct ev. }
  rewrite (bind_passed _ _ _ _ H1). simpl.
  set (w1 := world (run_steps X m g e 0 (Z.to_nat steps) w)).
  pose proof (emits_callbacks_kind m e (train_callbacks md ld tag) w1) as Hcbs.
  apply checkpointed_from_app. split.
  { apply checkpointed_from_quiet.
    eapply Forall_impl; [exact Hsteps|]. intros ev Hev. now destruct ev. }
  destruct (result (callbacks_on_epoch_end X m e (train_callbacks md ld tag) w1))
    as [e2|[]] eqn:H2.
  { rewrite (bind_failed _ _ _ _ H2). simpl. apply checkpointed_from_quiet.
    eapply Forall_impl; [exact Hcbs|]. intros ev Hev. now destruct ev. }
  rewrite (bind_passed _ _ _ _ H2). simpl.
  apply checkpointed_from_app. split.
  { apply checkpointed_from_quiet.
    eapply Forall_impl; [exact Hcbs|]. intros ev Hev. now destruct ev. }
  simpl. split; [| apply IH].
  apply in_or_app. right. now apply callbacks_checkpoint.
Qed.

(** A loop that returns has run its [n] epochs, [e], [e + 1], ..., and has
    written one checkpoint for each, numbered from [e + 1]. *)
Lemma epoch_loop_returns (m : KModel X) (g : Batches X) (steps : Z)
    (n : nat) (e : Z) (w : World X) :
  let o := epoch_loop X m g steps (train_callbacks md ld tag) n e w in
  result o = inr tt ->
  epochs_ended (trace o) = epochs_from e n
  /\ checkpoints (trace o) = map (checkpoint_name md tag) (epochs_from (e + 1) n).
Proof.
  revert e w. induction n as [|n IH]; intros e w; [simpl; auto|].
  rewrite epoch_loop_next, build_bind. simpl.
  pose proof (emits_run_steps_kind m g e 0 (Z.to_nat steps) w) as Hsteps.
  destruct (result (run_steps X m g e 0 (Z.to_nat steps) w)) as [e1|[]] eqn:H1.
  { rewrite (bind_failed _ _ _ _ H1). discriminate. }
  rewrite (bind_passed _ _ _ _ H1). simpl.
  set (w1 := world (run_steps X m g e 0 (Z.to_nat steps) w)).
  pose proof (emits_callbacks_kind m e (train_callbacks md ld tag) w1) as Hcbs.
  destruct (result (callbacks_on_epoch_end X m e (train_callbacks md ld tag) w1))
    as [e2|[]] eqn:H2.
  { rewrite (bind_failed _ _ _ _ H2). discriminate. }
  rewrite (bind_passed _ _ _ _ H2). simpl.
  intros Hr. destruct (IH _ _ Hr) as [IHe IHc].
  destruct (callbacks_checkpoint m e w1 H2) as [Hc _].
  change (Epoch_begin m e :: ?l) with ([Epoch_begin m e] ++ l).
  change (Epoch_end m e :: ?l) with ([Epoch_end m e] ++ l).
  rewrite !epochs_ended_app, !checkpoints_app, Hc, IHe, IHc.
  rewrite (epochs_ended_quiet (trace (run_steps _ _ _ _ _ _ _))),
          (checkpoints_quiet (trace (run_steps _ _ _ _ _ _ _))),
          (epochs_ended_quiet (trace (callbacks_on_epoch_end _ _ _ _ _))).
  - now split.
  - eapply Forall_impl; [exact Hcbs|]. intros ev Hev. now destruct ev.
  - eapply Forall_impl; [exact Hsteps|]. intros ev Hev. now destruct ev.
  - eapply Forall_impl; [exact Hsteps|]. intros ev Hev. now destruct ev.
Qed.

End Phase.

(** ** A phase: an optional load, then [train_model] *)

Section LoadThenTrain.

Context {X : Externals}.

Variables (md ld tag : string).

Variables (m : KModel X) (g : Batches X) (rate decay : pyval) (n steps init : Z).

Lemma train_model_run (w : World X) :
  train_model X m g rate decay n steps md ld tag init w
  = let o := epoch_loop X m g steps (train_callbacks md ld tag) (Z.to_nat (n - init)) init
               (set_optimizer X m (Adam rate decay) w) in
    Outcome (Call_compile m (Adam rate decay) IdentityLoss_loss [1%Q]
             :: Call_fit_generator m g n steps (train_callbacks md ld tag) init
             :: trace o)
            (world o) (result o).
Proof. reflexivity. Qed.

(** The log of [train_model]: no load, one [fit_generator] with the callbacks
    of the phase, and only calls to the network and keras. *)
Lemma train_model_log (w : World X) :
  let l := trace (train_model X m g rate decay n steps md ld tag init w) in
  fit_callbacks l = [train_callbacks md ld tag]
  /\ compiles l = [m]
  /\ loads l = []
  /\ Forall (fun ev => is_dice_model_call ev = false) l
  /\ Forall (fun ev => is_network_event ev = true) l.
Proof.
  rewrite train_model_run. cbv zeta. cbn [trace].
  set (o := epoch_loop X m g steps _ _ init _).
  pose proof (emits_epoch_loop_kind m g steps (train_callbacks md ld tag)
                (Z.to_nat (n - init)) init (set_optimizer X m (Adam rate decay) w)) as Hk.
  fold o in Hk.
  split; [| split; [| split; [| split]]].
  - unfold fit_callbacks. simpl. f_equal. apply fit_callbacks_quiet.
    eapply Forall_impl; [exact Hk|]. auto.
  - unfold compiles. simpl. f_equal. apply compiles_quiet.
    eapply Forall_impl; [exact Hk|]. intros ev Hev. now destruct ev.
  - unfold loads. simpl. apply loads_quiet.
    eapply Forall_impl; [exact Hk|]. intros ev Hev. now destruct ev.
  - repeat constructor. eapply Forall_impl; [exact Hk|]. intros ev Hev. now destruct ev.
  - repeat constructor. eapply Forall_impl; [exact Hk|]. intros ev Hev. now destruct ev.
Qed.

(** The optional load that opens a phase logs nothing but loads. *)
Variable pre : M X unit.

Hypothesis pre_loads : emits (fun ev => is_load ev = true) pre.

Lemma phase_log (w : World X) :
  let l := trace ((pre ;; train_model X m g rate decay n steps md ld tag init) w) in
  Forall (fun cs => cs = train_callbacks md ld tag) (fit_callbacks l)
  /\ (result (pre w) = inr tt -> l <> [] /\ compiles l = [m])
  /\ loads l = loads (trace (pre w))
  /\ Forall (fun ev => is_dice_model_call ev = false) l
  /\ Forall (fun ev => is_network_event ev = true) l.
Proof.
  pose proof (pre_loads w) as Hp.
  assert (Hf : fit_callbacks (trace (pre w)) = []).
  { induction Hp as [|ev l Hev _ IH]; [reflexivity|].
    unfold fit_callbacks in *. simpl. rewrite IH. now destruct ev. }
  assert (Hd : Forall (fun ev : event X => is_dice_model_call ev = false) (trace (pre w))).
  { eapply Forall_impl; [exact Hp|]. intros ev Hev. now destruct ev. }
  assert (Hn : Forall (fun ev : event X => is_network_event ev = true) (trace (pre w))).
  { eapply Forall_impl; [exact Hp|]. intros ev Hev. now destruct ev. }
  destruct (result (pre w)) as [e|[]] eqn:Hr.
  - rewrite (bind_failed _ _ _ _ Hr). simpl.
    split; [rewrite Hf; constructor|].
    split; [discriminate|]. auto.
  - rewrite (bind_passed _ _ _ _ Hr). cbv zeta. cbn [trace].
    destruct (train_model_log (world (pre w))) as (Hfc & Hcm & Hl & Hdm & Hne).
    split; [|split; [|split; [|split]]].
    + rewrite fit_callbacks_app, Hf, Hfc. repeat constructor.
    + intros _. split.
      * intros H. apply app_eq_nil in H as [_ H]. rewrite train_model_run in H. discriminate.
      * rewrite compiles_app, Hcm, compiles_quiet; [reflexivity|].
        eapply Forall_impl; [exact Hp|]. intros ev Hev. now destruct ev.
    + rewrite loads_app, Hl. apply app_nil_r.
    + apply Forall_app. now split.
    + apply Forall_app. now split.
Qed.

Hypothesis md_brace_free : brace_free md = true.
Hypothesis tag_of_phase : tag = "wl2" \/ tag = "dice".

(** Every epoch of the phase is checkpointed under the name of the phase. *)
Lemma phase_checkpointed (w : World X) (seen : list (event X)) :
  checkpointed_from (checkpoint_name md tag) seen
    (trace ((pre ;; train_model X m g rate decay n steps md ld tag init) w)).
Proof.
  pose proof (pre_loads w) as Hp.
  assert (Hq : Forall (fun ev : event X => is_epoch_end ev = false) (trace (pre w))).
  { eapply Forall_impl; [exact Hp|]. intros ev Hev. now destruct ev. }
  destruct (result (pre w)) as [e|[]] eqn:Hr.
  - rewrite (bind_failed _ _ _ _ Hr). simpl. now apply checkpointed_from_quiet.
  - rewrite (bind_passed _ _ _ _ Hr). cbn [trace].
    apply checkpointed_from_app. split; [now apply checkpointed_from_quiet|].
    rewrite train_model_run. cbv zeta. cbn [trace].
    simpl. split; [exact I|]. split; [exact I|].
    now apply epoch_loop_checkpointed.
Qed.

(** A phase that returns ran the epochs [init], ..., [n - 1] and wrote the
    checkpoints numbered [init + 1], ..., [n]. *)
Lemma phase_returns (w : World X) :
  let o := (pre ;; train_model X m g rate decay n steps md ld tag init) w in
  result o = inr tt ->
  epochs_ended (trace o) = epochs_from init (Z.to_nat (n - init))
  /\ checkpoints (trace o)
     = map (checkpoint_name md tag) (epochs_from (init + 1) (Z.to_nat (n - init))).
Proof.
  cbv zeta. intros H.
  apply bind_returns in H as ([] & Hr & H & ->).
  rewrite train_model_run in H |- *. cbv zeta in H |- *. cbn [trace result] in H |- *.
  destruct (epoch_loop_returns md ld tag md_brace_free tag_of_phase _ _ _ _ _ _ H)
    as [He Hc].
  pose proof (pre_loads w) as Hp.
  change (Call_compile ?x ?y ?z ?t :: Call_fit_generator ?x ?g' ?n' ?s ?c ?i :: ?l)
    with ([Call_compile x y z t; Call_fit_generator x g' n' s c i] ++ l).
  rewrite !epochs_ended_app, !checkpoints_app, He, Hc.
  rewrite epochs_ended_quiet, checkpoints_quiet; [now split | |];
    (eapply Forall_impl; [exact Hp|]; intros ev Hev; now destruct ev).
Qed.

End LoadThenTrain.

(** ** The steps of [training] *)

Section Steps.

Context {X : Externals}.

Variable a : training_args.

Local Abbreviation logs := (path_join (model_dir a) "logs").

Lemma build_run {A B} (ev : event X) (r : exn + A) (f : A -> M X B) (w : World X) :
  (build ev r ≫= f) w
  = match r with
    | inl e => Outcome [ev] w (inl e)
    | inr x => Outcome (ev :: trace (f x w)) (world (f x w)) (result (f x w))
    end.
Proof. now destruct r. Qed.

Lemma call_run {A B} (ev : event X) (op : World X -> (exn + A) * World X)
    (f : A -> M X B) (w : World X) :
  (call ev op ≫= f) w
  = match op w with
    | (inl e, w') => Outcome [ev] w' (inl e)
    | (inr x, w') => Outcome (ev :: trace (f x w')) (world (f x w')) (result (f x w'))
    end.
Proof. unfold mbind, M_bind, bind, call. now destruct (op w) as [[e|x] w']. Qed.

(** Lines 194-203, call by call. *)
Lemma get_label_lists_run (w : World X) :
  get_label_lists X a w
  = let c1 := Call_get_list_labels (path_generation_labels a) (Some (labels_dir a))
                (save_generation_labels a) true in
    match get_list_labels X (path_generation_labels a) (Some (labels_dir a))
            (save_generation_labels a) true w with
    | (inl e, w1) => Outcome [c1] w1 (inl e)
    | (inr (gl, n), w1) =>
        match path_segmentation_labels a with
        | None => Outcome [c1] w1 (inr (gl, n, gl))
        | Some p =>
            let c2 := Call_get_list_labels (Some p) None None true in
            match get_list_labels X (Some p) None None true w1 with
            | (inl e, w2) => Outcome [c1; c2] w2 (inl e)
            | (inr (sl, _), w2) => Outcome [c1; c2] w2 (inr (gl, n, sl))
            end
        end
    end.
Proof.
  unfold get_label_lists. rewrite call_run. cbv zeta.
  destruct (get_list_labels X _ _ _ _ w) as [[e|[gl n]] w1]; [reflexivity|].
  destruct (path_segmentation_labels a) as [p|]; [| reflexivity].
  unfold mbind, M_bind, bind, call.
  destruct (get_list_labels X _ _ _ _ w1) as [[e|[sl n']] w2]; reflexivity.
Qed.

Lemma get_label_lists_log (w : World X) :
  Forall (fun ev => is_label_call ev = true) (trace (get_label_lists X a w)).
Proof.
  rewrite get_label_lists_run. cbv zeta.
  destruct (get_list_labels X _ _ _ _ w) as [[e|[gl n]] w1]; [repeat constructor|].
  destruct (path_segmentation_labels a) as [p|]; [| repeat constructor].
  destruct (get_list_labels X _ _ _ _ w1) as [[e|[sl n']] w2]; repeat constructor.
Qed.

(** Lines 205-263, call by call, once the label lists are there. *)
Lemma prepare_run (w : World X) :
  prepare X a w
  = let o := get_label_lists X a w in
    match result o with
    | inl e => Outcome (trace o) (world o) (inl e)
    | inr (gl, n, sl) =>
        let mk1 := Call_mkdir (model_dir a) in
        let mk2 := Call_mkdir logs in
        let ga := generator_args a gl sl n in
        match mkdir X (model_dir a) (world o) with
        | (inl e, w1) => Outcome (trace o ++ [mk1]) w1 (inl e)
        | (inr _, w1) =>
        match mkdir X logs w1 with
        | (inl e, w2) => Outcome (trace o ++ [mk1; mk2]) w2 (inl e)
        | (inr _, w2) =>
        match new_BrainGenerator X ga w2 with
        | (inl e, w3) => Outcome (trace o ++ [mk1; mk2; Call_BrainGenerator ga]) w3 (inl e)
        | (inr gen, w3) =>
            let ua := unet_args X a (model_output_shape X gen) (Z.of_nat (length sl))
                        (labels_to_image_model X gen) in
            let cg := Call_build_training_generator (model_inputs_generator X gen)
                        (batchsize a) in
            match nrn_unet X ua with
            | inl e =>
                Outcome (trace o ++ [mk1; mk2; Call_BrainGenerator ga; Call_unet ua]) w3 (inl e)
            | inr u =>
            match build_training_generator X (model_inputs_generator X gen) (batchsize a) with
            | inl e =>
                Outcome (trace o ++ [mk1; mk2; Call_BrainGenerator ga; Call_unet ua; cg])
                        w3 (inl e)
            | inr tg =>
                Outcome (trace o ++ [mk1; mk2; Call_BrainGenerator ga; Call_unet ua; cg])
                        w3 (inr (sl, u, tg, logs))
            end end end end end
    end.
Proof.
  unfold prepare. cbv zeta.
  destruct (result (get_label_lists X a w)) as [e|[[gl n] sl]] eqn:Hr.
  { now rewrite (bind_failed _ _ _ _ Hr). }
  rewrite (bind_passed _ _ _ _ Hr). rewrite call_run.
  destruct (mkdir X (model_dir a) _) as [[e|[]] w1]; [reflexivity|].
  rewrite call_run.
  destruct (mkdir X logs w1) as [[e|[]] w2]; [reflexivity|].
  rewrite call_run.
  destruct (new_BrainGenerator X _ w2) as [[e|gen] w3]; [reflexivity|].
  rewrite build_run.
  destruct (nrn_unet X _) as [e|u]; [reflexivity|].
  rewrite build_run.
  destruct (build_training_generator X _ _) as [e|tg]; reflexivity.
Qed.

Lemma prepare_log (w : World X) :
  Forall (fun ev => is_setup_event ev = true) (trace (prepare X a w)).
Proof.
  rewrite prepare_run. cbv zeta.
  pose proof (get_label_lists_log w) as Hl.
  assert (Hs : Forall (fun ev : event X => is_setup_event ev = true)
                      (trace (get_label_lists X a w))).
  { eapply Forall_impl; [exact Hl|]. intros ev Hev. now destruct ev. }
  destruct (result (get_label_lists X a w)) as [e|[[gl n] sl]]; [exact Hs|].
  destruct (mkdir X (model_dir a) _) as [[e|[]] w1];
    [apply Forall_app; split; [exact Hs | repeat constructor]|].
  destruct (mkdir X logs w1) as [[e|[]] w2];
    [apply Forall_app; split; [exact Hs | repeat constructor]|].
  destruct (new_BrainGenerator X _ w2) as [[e|gen] w3];
    [apply Forall_app; split; [exact Hs | repeat constructor]|].
  destruct (nrn_unet X _) as [e|u];
    [apply Forall_app; split; [exact Hs | repeat constructor]|].
  destruct (build_training_generator X _ _) as [e|tg];
    apply Forall_app; split; try exact Hs; repeat constructor.
Qed.

(** A run whose epoch counts pass the assertion is [prepare] followed by the
    two phases. *)
Lemma training_checked (w : World X) :
  (0 <? wl2_epochs a) || (0 <? dice_epochs a) = true ->
  training X a w
  = (prepare X a ≫= fun '(sl, u, tg, ld) =>
       wl2_phase X a sl u tg ld ;; dice_phase X a sl u tg ld) w.
Proof.
  intros H. unfold training, py_assert. rewrite H.
  exact (ret_bind tt (fun _ => prepare X a ≫= _) w).
Qed.

Lemma training_unchecked (w : World X) :
  (0 <? wl2_epochs a) || (0 <? dice_epochs a) = false ->
  training X a w
  = Outcome [] w (inl (AssertionError (epochs_message (wl2_epochs a) (dice_epochs a)))).
Proof. intros H. unfold training, py_assert. now rewrite H. Qed.

(** Lines 265-272, call by call. *)
Lemma wl2_phase_run sl u tg ld (w : World X) :
  0 < wl2_epochs a ->
  wl2_phase X a sl u tg ld w
  = let c1 := Call_Model u "unet_likelihood" in
    match Model_up_to X u "unet_likelihood" with
    | inl e => Outcome [c1] w (inl e)
    | inr m1 =>
        let c2 := Call_metrics_model sl m1 (Some "wl2") in
        match metrics_model X sl m1 (Some "wl2") with
        | inl e => Outcome [c1; c2] w (inl e)
        | inr m2 =>
            let o := (match load_model_file a with
                      | Some f => load_weights X m2 f false
                      | None => mret tt
                      end ;;
                      train_model X m2 tg (lr a) (lr_decay a) (wl2_epochs a)
                        (steps_per_epoch a) (model_dir a) ld "wl2" (initial_epoch_wl2 a)) w in
            Outcome (c1 :: c2 :: trace o) (world o) (result o)
        end
    end.
Proof.
  intros H. apply Z.ltb_lt in H. unfold wl2_phase. rewrite H, build_run. cbv zeta.
  destruct (Model_up_to X u _) as [e|m1]; [reflexivity|].
  rewrite build_run. now destruct (metrics_model X sl m1 _) as [e|m2].
Qed.

(** Lines 274-283, call by call. *)
Lemma dice_phase_run sl u tg ld (w : World X) :
  0 < dice_epochs a ->
  dice_phase X a sl u tg ld w
  = let c := Call_metrics_model sl u None in
    match metrics_model X sl u None with
    | inl e => Outcome [c] w (inl e)
    | inr dice_model =>
        let o := ((if 0 <? wl2_epochs a
                   then load_weights X dice_model
                          (path_join (model_dir a)
                             ("wl2_" +:+ fmt_03d (wl2_epochs a) +:+ ".h5")) true
                   else match load_model_file a with
                        | Some f => load_weights X dice_model f false
                        | None => mret tt
                        end) ;;
                  train_model X dice_model tg (lr a) (lr_decay a) (dice_epochs a)
                    (steps_per_epoch a) (model_dir a) ld "dice" (initial_epoch_dice a)) w in
        Outcome (c :: trace o) (world o) (result o)
    end.
Proof.
  intros H. apply Z.ltb_lt in H. unfold dice_phase. rewrite H, build_run. cbv zeta.
  now destruct (metrics_model X sl u None) as [e|m].
Qed.

Lemma wl2_phase_skipped sl u tg ld (w : World X) :
  wl2_epochs a <= 0 -> wl2_phase X a sl u tg ld w = Outcome [] w (inr tt).
Proof.
  intros H. unfold wl2_phase. destruct (0 <? wl2_epochs a) eqn:E; [|reflexivity].
  apply Z.ltb_lt in E. lia.
Qed.

Lemma dice_phase_skipped sl u tg ld (w : World X) :
  dice_epochs a <= 0 -> dice_phase X a sl u tg ld w = Outcome [] w (inr tt).
Proof.
  intros H. unfold dice_phase. destruct (0 <? dice_epochs a) eqn:E; [|reflexivity].
  apply Z.ltb_lt in E. lia.
Qed.

(** The log of a checked run, in its three parts: either the run raises
    before the fine-tuning, or the warm-up returns and the fine-tuning ends
    the run. *)
Lemma training_parts (w : World X) :
  (0 <? wl2_epochs a) || (0 <? dice_epochs a) = true ->
  exists t1 t2,
    trace (training X a w) = trace (prepare X a w) ++ t1 ++ t2
    /\ ((t2 = []
         /\ (t1 = [] \/ exists sl u tg w1, t1 = trace (wl2_phase X a sl u tg logs w1))
         /\ exists e, result (training X a w) = inl e)
        \/ exists sl u tg w1,
             t1 = trace (wl2_phase X a sl u tg logs w1)
             /\ result (wl2_phase X a sl u tg logs w1) = inr tt
             /\ t2 = trace (dice_phase X a sl u tg logs
                              (world (wl2_phase X a sl u tg logs w1)))
             /\ result (training X a w)
                = result (dice_phase X a sl u tg logs
                            (world (wl2_phase X a sl u tg logs w1)))).
Proof.
  intros H. rewrite (training_checked w H).
  destruct (result (prepare X a w)) as [e|[[[sl u] tg] ld]] eqn:Hp.
  { rewrite (bind_failed _ _ _ _ Hp). exists [], []. simpl. rewrite app_nil_r.
    split; [reflexivity|]. left. split; [reflexivity|]. split; [now left|]. now exists e. }
  rewrite (bind_passed _ _ _ _ Hp). cbn [trace result].
  rewrite (prepare_log_dir a _ _ _ _ _ Hp).
  set (w0 := world (prepare X a w)).
  destruct (result (wl2_phase X a sl u tg logs w0)) as [e|[]] eqn:Hw.
  { rewrite (bind_failed _ _ _ _ Hw). exists (trace (wl2_phase X a sl u tg logs w0)), [].
    simpl. rewrite app_nil_r.
    split; [reflexivity|]. left. split; [reflexivity|].
    split; [right; now exists sl, u, tg, w0 | now exists e]. }
  rewrite (bind_passed _ _ _ _ Hw). cbn [trace result].
  exists (trace (wl2_phase X a sl u tg logs w0)),
         (trace (dice_phase X a sl u tg logs (world (wl2_phase X a sl u tg logs w0)))).
  split; [reflexivity|]. right. now exists sl, u, tg, w0.
Qed.

End Steps.

(** ** The logs of the two phases *)

Section PhaseLogs.

Context {X : Externals}.

Variable a : training_args.

Local Abbreviation logs := (path_join (model_dir a) "logs").

Lemma load_weights_trace (m : KModel X) (f : string) (by_name : bool) (w : World X) :
  trace (load_weights X m f by_name w) = [Call_load_weights m f by_name].
Proof.
  unfold load_weights, call. destruct (h5_layers X f w) as [saved|]; [|reflexivity].
  now destruct (weights_fit by_name saved (layers X m)).
Qed.

Lemma wl2_load_emits (m : KModel X) :
  emits (fun ev => is_load ev = true)
    (match load_model_file a with
     | Some f => load_weights X m f false
     | None => mret tt
     end : M X unit).
Proof. destruct (load_model_file a); [now apply emits_call | apply emits_ret]. Qed.

Lemma dice_load_emits (m : KModel X) :
  emits (fun ev => is_load ev = true)
    (if 0 <? wl2_epochs a
     then load_weights X m
            (path_join (model_dir a) ("wl2_" +:+ fmt_03d (wl2_epochs a) +:+ ".h5")) true
     else match load_model_file a with
          | Some f => load_weights X m f false
          | None => mret tt
          end : M X unit).
Proof.
  destruct (0 <? wl2_epochs a); [now apply emits_call | apply wl2_load_emits].
Qed.

(** The warm-up: the fit is called with the checkpoint callback alone, and no
    dice model is asked for. *)
Lemma wl2_phase_log sl u tg (w : World X) :
  let l := trace (wl2_phase X a sl u tg logs w) in
  Forall (fun cs => cs = wl2_callbacks a) (fit_callbacks l)
  /\ Forall (fun ev => is_dice_model_call ev = false) l
  /\ Forall (fun ev => is_network_event ev = true) l
  /\ (result (wl2_phase X a sl u tg logs w) = inr tt ->
      loads l = wl2_loads a
      /\ length (compiles l) = if 0 <? wl2_epochs a then 1%nat else 0%nat).
Proof.
  unfold wl2_loads.
  destruct (Z_lt_le_dec 0 (wl2_epochs a)) as [Hw|Hw].
  2:{ rewrite (wl2_phase_skipped a _ _ _ _ _ Hw).
      assert (E : (0 <? wl2_epochs a) = false) by now apply Z.ltb_ge.
      rewrite E. simpl. repeat split; constructor. }
  rewrite (wl2_phase_run a _ _ _ _ _ Hw). cbv zeta.
  apply Z.ltb_lt in Hw. rewrite Hw.
  destruct (Model_up_to X u _) as [e|m1].
  { simpl. repeat split; repeat constructor; discriminate. }
  destruct (metrics_model X sl m1 _) as [e|m2].
  { simpl. repeat split; repeat constructor; discriminate. }
  cbn [trace result].
  destruct (phase_log (model_dir a) logs "wl2"
              m2 tg (lr a) (lr_decay a) (wl2_epochs a) (steps_per_epoch a)
              (initial_epoch_wl2 a) _ (wl2_load_emits m2) w)
    as (Hf & Hne & Hl & Hd & Hn).
  split; [|split; [|split]].
  - exact Hf.
  - repeat constructor. exact Hd.
  - repeat constructor. exact Hn.
  - intros Hr. apply bind_returns in Hr as ([] & Hp & _ & _).
    destruct (Hne Hp) as [_ Hc]. split.
    + change (loads (trace ((match load_model_file a with
                             | Some f => load_weights X m2 f false
                             | None => mret tt
                             end ;; train_model X m2 tg (lr a) (lr_decay a) (wl2_epochs a)
                                      (steps_per_epoch a) (model_dir a) logs "wl2"
                                      (initial_epoch_wl2 a)) w))
              = match load_model_file a with Some f => [(f, false)] | None => [] end).
      rewrite Hl. destruct (load_model_file a); [now rewrite load_weights_trace | reflexivity].
    + change (length (compiles (trace ((match load_model_file a with
                             | Some f => load_weights X m2 f false
                             | None => mret tt
                             end ;; train_model X m2 tg (lr a) (lr_decay a) (wl2_epochs a)
                                      (steps_per_epoch a) (model_dir a) logs "wl2"
                                      (initial_epoch_wl2 a)) w))) = 1%nat).
      now rewrite Hc.
Qed.

(** The fine-tuning: after the request for the dice model comes the load of
    its initial weights, and the fit is called with the checkpoint and the
    summary callbacks. *)
Lemma dice_phase_log sl u tg (w : World X) :
  0 < dice_epochs a ->
  let l := trace (dice_phase X a sl u tg logs w) in
  wl2_part l = []
  /\ (dice_part l = [] \/ loads (dice_part l) = dice_loads a)
  /\ Forall (fun cs => cs = dice_callbacks a) (fit_callbacks (dice_part l))
  /\ Forall (fun ev => is_network_event ev = true) l
  /\ (result (dice_phase X a sl u tg logs w) = inr tt ->
      dice_part l <> [] /\ length (compiles l) = 1%nat).
Proof.
  intros Hd. rewrite (dice_phase_run a _ _ _ _ _ Hd). cbv zeta.
  destruct (metrics_model X sl u None) as [e|m].
  { simpl. split; [reflexivity|]. split; [now left|]. split; [constructor|].
    split; [repeat constructor | discriminate]. }
  cbn [trace result]. simpl wl2_part. simpl dice_part.
  destruct (phase_log (model_dir a) logs "dice"
              m tg (lr a) (lr_decay a) (dice_epochs a) (steps_per_epoch a)
              (initial_epoch_dice a) _ (dice_load_emits m) w)
    as (Hf & Hne & Hl & _ & Hn).
  split; [reflexivity|]. split; [|split; [exact Hf|split]].
  - right. rewrite Hl. unfold dice_loads.
    destruct (0 <? wl2_epochs a); [now rewrite load_weights_trace|].
    destruct (load_model_file a); [now rewrite load_weights_trace | reflexivity].
  - repeat constructor. exact Hn.
  - intros Hr. apply bind_returns in Hr as ([] & Hp & _ & _).
    destruct (Hne Hp) as [Hne' Hc]. split; [exact Hne'|].
    change (length (compiles (trace ((
              (if 0 <? wl2_epochs a
               then load_weights X m
                      (path_join (model_dir a)
                         ("wl2_" +:+ fmt_03d (wl2_epochs a) +:+ ".h5")) true
               else match load_model_file a with
                    | Some f => load_weights X m f false
                    | None => mret tt
                    end) ;;
              train_model X m tg (lr a) (lr_decay a) (dice_epochs a)
                (steps_per_epoch a) (model_dir a) logs "dice" (initial_epoch_dice a)) w)))
            = 1%nat).
    now rewrite Hc.
Qed.

Hypothesis model_dir_brace_free : brace_free (model_dir a) = true.

(** The epochs of the warm-up are checkpointed under their [wl2] names. *)
Lemma wl2_phase_checkpointed sl u tg (w : World X) (seen : list (event X)) :
  checkpointed_from (checkpoint_name (model_dir a) "wl2") seen
    (trace (wl2_phase X a sl u tg logs w)).
Proof.
  destruct (Z_lt_le_dec 0 (wl2_epochs a)) as [Hw|Hw].
  2:{ now rewrite (wl2_phase_skipped a _ _ _ _ _ Hw). }
  rewrite (wl2_phase_run a _ _ _ _ _ Hw). cbv zeta.
  destruct (Model_up_to X u _) as [e|m1]; [now simpl|].
  destruct (metrics_model X sl m1 _) as [e|m2]; [now simpl|].
  cbn [trace]. simpl. split; [exact I|]. split; [exact I|].
  apply (phase_checkpointed (model_dir a) logs "wl2"); auto.
  apply wl2_load_emits.
Qed.

(** The epochs of the fine-tuning are checkpointed under their [dice] names;
    a fine-tuning that returns ran the epochs from [initial_epoch_dice] to
    [dice_epochs - 1]. *)
Lemma dice_phase_checkpointed sl u tg (w : World X) (seen : list (event X)) :
  0 < dice_epochs a ->
  let l := dice_part (trace (dice_phase X a sl u tg logs w)) in
  checkpointed_from (checkpoint_name (model_dir a) "dice") seen l
  /\ (result (dice_phase X a sl u tg logs w) = inr tt ->
      epochs_ended l
      = epochs_from (initial_epoch_dice a)
          (Z.to_nat (dice_epochs a - initial_epoch_dice a))
      /\ checkpoints l
         = map (checkpoint_name (model_dir a) "dice")
             (epochs_from (initial_epoch_dice a + 1)
                (Z.to_nat (dice_epochs a - initial_epoch_dice a)))).
Proof.
  intros Hd. rewrite (dice_phase_run a _ _ _ _ _ Hd). cbv zeta.
  destruct (metrics_model X sl u None) as [e|m].
  { simpl. split; [exact I | discriminate]. }
  cbn [trace result]. simpl dice_part. split.
  - apply (phase_checkpointed (model_dir a) logs "dice"); auto.
    apply dice_load_emits.
  - apply (phase_returns (model_dir a) logs "dice"); auto.
    apply dice_load_emits.
Qed.

End PhaseLogs.

(** ** A whole run *)

Section WholeRun.

Context {X : Externals}.

Variable a : training_args.

Local Abbreviation logs := (path_join (model_dir a) "logs").

Lemma setup_not_dice_model (l : list (event X)) :
  Forall (fun ev => is_setup_event ev = true) l ->
  Forall (fun ev => is_dice_model_call ev = false) l.
Proof. intros H. eapply Forall_impl; [exact H|]. intros ev Hev. now destruct ev. Qed.

Lemma dice_phase_wl2_part sl u tg (w : World X) :
  wl2_part (trace (dice_phase X a sl u tg logs w)) = [].
Proof.
  destruct (Z_lt_le_dec 0 (dice_epochs a)) as [Hd|Hd].
  - now apply dice_phase_log.
  - now rewrite (dice_phase_skipped a _ _ _ _ _ Hd).
Qed.

(** The log of a checked run splits at the request for the dice model: before
    it, [prepare] and the warm-up; after it, the rest of the fine-tuning. *)
Lemma training_split (w : World X) :
  (0 <? wl2_epochs a) || (0 <? dice_epochs a) = true ->
  exists t1 t2,
    trace (training X a w) = trace (prepare X a w) ++ t1 ++ t2
    /\ wl2_part (trace (training X a w)) = trace (prepare X a w) ++ t1
    /\ dice_part (trace (training X a w)) = dice_part t2
    /\ ((t2 = []
         /\ (t1 = [] \/ exists sl u tg w1, t1 = trace (wl2_phase X a sl u tg logs w1))
         /\ exists e, result (training X a w) = inl e)
        \/ exists sl u tg w1,
             t1 = trace (wl2_phase X a sl u tg logs w1)
             /\ result (wl2_phase X a sl u tg logs w1) = inr tt
             /\ t2 = trace (dice_phase X a sl u tg logs
                              (world (wl2_phase X a sl u tg logs w1)))
             /\ result (training X a w)
                = result (dice_phase X a sl u tg logs
                            (world (wl2_phase X a sl u tg logs w1)))).
Proof.
  intros H. destruct (training_parts a w H) as (t1 & t2 & Ht & Hcases).
  exists t1, t2. split; [exact Ht|].
  assert (Hp : Forall (fun ev : event X => is_dice_model_call ev = false)
                 (trace (prepare X a w) ++ t1)).
  { apply Forall_app. split; [apply setup_not_dice_model, prepare_log|].
    destruct Hcases as [(_ & [-> | (sl & u & tg & w1 & ->)] & _) | (sl & u & tg & w1 & -> & _)];
      [constructor | apply wl2_phase_log | apply wl2_phase_log]. }
  assert (Hw : wl2_part t2 = []).
  { destruct Hcases as [(-> & _) | (sl & u & tg & w1 & _ & _ & -> & _)];
      [reflexivity | apply dice_phase_wl2_part]. }
  rewrite Ht, app_assoc.
  rewrite (wl2_part_app _ _ Hp), (dice_part_app _ _ Hp), Hw, app_nil_r.
  auto.
Qed.

End WholeRun.

(** ** The claims *)

(** *** C2: the epoch counts are checked first *)

(** C2.  When neither [wl2_epochs] nor [dice_epochs] is positive, [training]
    raises on its assertion (the configuration error of the specification),
    with the message that names both counts, before it calls anything: the
    log is empty (no label list asked for, no directory made, no generator
    built) and the world is the one it started in. *)
Theorem epochs_checked_first (X : Externals) (a : training_args) (w : World X) :
  wl2_epochs a <= 0 -> dice_epochs a <= 0 ->
  training X a w
  = Outcome [] w
      (inl (AssertionError
              ("either wl2_epochs or dice_epochs must be positive, had "
               +:+ str_of_int (wl2_epochs a) +:+ " and " +:+ str_of_int (dice_epochs a)))).
Proof.
  intros Hw Hd. apply training_unchecked.
  apply orb_false_intro; apply Z.ltb_ge; assumption.
Qed.

Lemma epochs_checked_first_witness :
  training Demo.X Scenario.no_phase Scenario.files
  = Outcome (X := Demo.X) [] Scenario.files
      (inl (AssertionError "either wl2_epochs or dice_epochs must be positive, had 0 and 0")).
Proof. apply (epochs_checked_first Demo.X Scenario.no_phase); simpl; lia. Defined.

(** *** C1: the weights the dice model starts from *)

(** C1.  When [dice_epochs] is positive, what the log holds after the request
    for the dice model is either nothing (the dice model could not be built)
    or starts the fine-tuning with exactly the loads of [dice_loads]: when
    the warm-up ran, the one load of [model_dir/wl2_<wl2_epochs>.h5] with
    [by_name=True], whatever [load_model_file] is; when it did not, the one
    load of [load_model_file] without [by_name] if a file is given, and no
    load otherwise.  A run that returns did build the dice model. *)
Theorem dice_model_initial_weights (X : Externals) (a : training_args) (w : World X) :
  0 < dice_epochs a ->
  let l := dice_part (trace (training X a w)) in
  (l <> [] ->
   loads l
   = if 0 <? wl2_epochs a
     then [(path_join (model_dir a) ("wl2_" +:+ fmt_03d (wl2_epochs a) +:+ ".h5"), true)]
     else match load_model_file a with
          | Some f => [(f, false)]
          | None => []
          end)
  /\ (result (training X a w) = inr tt -> l <> []).
Proof.
  intros Hd l.
  assert (Hc : (0 <? wl2_epochs a) || (0 <? dice_epochs a) = true).
  { apply orb_true_intro. right. now apply Z.ltb_lt. }
  destruct (training_split a w Hc) as (t1 & t2 & _ & _ & Hl & Hcases).
  subst l. rewrite Hl.
  destruct Hcases as [(-> & _ & e & He) | (sl & u & tg & w1 & _ & _ & -> & Hr)].
  - split; [now intros H | rewrite He; discriminate].
  - destruct (dice_phase_log a sl u tg (world (wl2_phase X a sl u tg
                (path_join (model_dir a) "logs") w1)) Hd) as (_ & Hloads & _ & _ & Hne).
    split.
    + intros H. destruct Hloads as [E | E]; [contradiction | exact E].
    + rewrite Hr. intros H. now apply Hne.
Qed.

Lemma dice_model_initial_weights_witness :
  loads (dice_part (trace (training Demo.X Scenario.from_checkpoint Scenario.files)))
  = [("start.h5", false)]
  /\ loads (dice_part (trace (training Demo.X Scenario.resumed Scenario.files)))
     = [("models/wl2_001.h5", true)].
Proof.
  assert (H1 : 0 < dice_epochs Scenario.from_checkpoint) by (simpl; lia).
  assert (H2 : 0 < dice_epochs Scenario.resumed) by (simpl; lia).
  destruct (dice_model_initial_weights Demo.X _ Scenario.files H1) as [L1 _].
  destruct (dice_model_initial_weights Demo.X _ Scenario.files H2) as [L2 _].
  split; [rewrite L1 | rewrite L2]; try reflexivity;
    intros E; apply (f_equal length) in E; vm_compute in E; discriminate.
Defined.

(** *** Resuming the fine-tuning in a model directory without braces *)

Lemma in_epochs_from (first e : Z) (n : nat) :
  In e (epochs_from first n) <-> first <= e < first + Z.of_nat n.
Proof.
  revert first. induction n as [|n IH]; intros first; simpl epochs_from.
  - simpl. lia.
  - simpl In. rewrite IH. lia.
Qed.

Lemma length_epochs_from (first : Z) (n : nat) : length (epochs_from first n) = n.
Proof. revert first. induction n as [|n IH]; intros first; simpl; [|rewrite IH]; reflexivity. Qed.

(** A run started with [initial_epoch_dice = k], [0 <= k < dice_epochs],
    that returns has run, in its fine-tuning, exactly the [dice_epochs - k]
    epochs [k], ..., [dice_epochs - 1], and written exactly the checkpoints
    [model_dir/dice_<e>.h5] for [e] from [k + 1] to [dice_epochs], in that
    order (the model directory has no brace in it, so that keras' file path
    template is filled as written). *)
Theorem resume_dice_phase (X : Externals) (a : training_args) (w : World X) (k : Z) :
  brace_free (model_dir a) = true ->
  initial_epoch_dice a = k ->
  0 <= k < dice_epochs a ->
  result (training X a w) = inr tt ->
  let l := dice_part (trace (training X a w)) in
  epochs_ended l = epochs_from k (Z.to_nat (dice_epochs a - k))
  /\ length (epochs_ended l) = Z.to_nat (dice_epochs a - k)
  /\ checkpoints l
     = map (fun e => path_join (model_dir a) ("dice_" +:+ fmt_03d e +:+ ".h5"))
           (epochs_from (k + 1) (Z.to_nat (dice_epochs a - k)))
  /\ (forall e, In e (epochs_from (k + 1) (Z.to_nat (dice_epochs a - k)))
                <-> k + 1 <= e <= dice_epochs a).
Proof.
  intros Hb Hk Hrange Hr l.
  assert (Hc : (0 <? wl2_epochs a) || (0 <? dice_epochs a) = true).
  { apply orb_true_intro. right. apply Z.ltb_lt. lia. }
  destruct (training_split a w Hc) as (t1 & t2 & _ & _ & Hl & Hcases).
  subst l. rewrite Hl.
  destruct Hcases as [(_ & _ & e & He) | (sl & u & tg & w1 & _ & _ & -> & Hres)];
    [congruence|].
  rewrite Hres in Hr.
  assert (Hd : 0 < dice_epochs a) by lia.
  destruct (dice_phase_checkpointed a Hb sl u tg
              (world (wl2_phase X a sl u tg (path_join (model_dir a) "logs") w1)) [] Hd)
    as [_ Hret].
  destruct (Hret Hr) as [He Hcp]. rewrite Hk in He, Hcp.
  split; [exact He|]. split; [rewrite He; apply length_epochs_from|].
  split; [exact Hcp|].
  intros e. rewrite in_epochs_from. lia.
Qed.

Lemma resume_dice_phase_witness :
  let l := dice_part (trace (training Demo.X Scenario.resumed Scenario.files)) in
  epochs_ended l = [1; 2]
  /\ checkpoints l = ["models/dice_002.h5"; "models/dice_003.h5"].
Proof.
  assert (Hb : brace_free (model_dir Scenario.resumed) = true) by reflexivity.
  assert (Hk : initial_epoch_dice Scenario.resumed = 1) by reflexivity.
  assert (Hrange : 0 <= 1 < dice_epochs Scenario.resumed) by (simpl; lia).
  assert (Hr : result (training Demo.X Scenario.resumed Scenario.files) = inr tt)
    by (vm_compute; reflexivity).
  destruct (resume_dice_phase Demo.X Scenario.resumed Scenario.files 1 Hb Hk Hrange Hr)
    as (He & _ & Hc & _).
  cbv zeta. rewrite He, Hc. split; reflexivity.
Defined.

(** *** A checkpoint for every epoch, in a model directory without braces *)

Lemma checkpointed_from_split {X : Externals} name (seen l : list (event X)) :
  checkpointed_from name seen l ->
  forall l1 m e l2, l = l1 ++ Epoch_end m e :: l2 ->
    In (Checkpoint_written m (name (e + 1)) true) (seen ++ l1).
Proof.
  intros H l1 m e l2 ->. apply checkpointed_from_app in H as [_ H]. simpl in H. apply H.
Qed.

(** In every run, returning or raising, each epoch that ends has its
    weight-only checkpoint written before it ends: before the request for
    the dice model (the warm-up) the file is [model_dir/wl2_<epoch + 1>.h5],
    after it (the fine-tuning) [model_dir/dice_<epoch + 1>.h5], the epochs
    being counted from 0 and the number filled to three digits.  No
    checkpoint is written with the optimizer state ([weights_only] is always
    set), [fit_generator] is given the checkpoint callback alone in the
    warm-up, and the checkpoint callback followed by the TensorBoard callback
    on [model_dir/logs] in the fine-tuning.  (The model directory has no
    brace in it, so that keras' file path template is filled as written.) *)
Theorem epochs_always_checkpointed (X : Externals) (a : training_args) (w : World X) :
  brace_free (model_dir a) = true ->
  let l := trace (training X a w) in
  (forall l1 m e l2, wl2_part l = l1 ++ Epoch_end m e :: l2 ->
     In (Checkpoint_written m
           (path_join (model_dir a) ("wl2_" +:+ fmt_03d (e + 1) +:+ ".h5")) true) l1)
  /\ (forall l1 m e l2, dice_part l = l1 ++ Epoch_end m e :: l2 ->
        In (Checkpoint_written m
              (path_join (model_dir a) ("dice_" +:+ fmt_03d (e + 1) +:+ ".h5")) true) l1)
  /\ (forall m f weights_only, In (Checkpoint_written m f weights_only) l ->
        weights_only = true)
  /\ Forall (fun cs => cs = [ModelCheckpoint (save_file_name (model_dir a) "wl2") true 1])
       (fit_callbacks (wl2_part l))
  /\ Forall (fun cs => cs = [ModelCheckpoint (save_file_name (model_dir a) "dice") true 1;
                             TensorBoard (path_join (model_dir a) "logs") 0 true false])
       (fit_callbacks (dice_part l)).
Proof.
  intros Hb l.
  assert (Hwo : forall m f weights_only,
             In (Checkpoint_written m f weights_only) l -> weights_only = true).
  { intros m f wo Hin. pose proof (emits_training a w) as He.
    rewrite List.Forall_forall in He. exact (He _ Hin). }
  destruct ((0 <? wl2_epochs a) || (0 <? dice_epochs a)) eqn:Hc.
  2:{ subst l. rewrite (training_unchecked a w Hc) in *. simpl.
      repeat split; try constructor; auto; intros l1 m e l2 H; now destruct l1. }
  destruct (training_split a w Hc) as (t1 & t2 & _ & Hw & Hd & Hcases).
  subst l. rewrite Hw, Hd.
  assert (Hq : Forall (fun ev : event X => is_epoch_end ev = false) (trace (prepare X a w))).
  { eapply Forall_impl; [apply prepare_log|]. intros ev Hev. now destruct ev. }
  assert (Hf : fit_callbacks (trace (prepare X a w)) = []).
  { apply fit_callbacks_quiet. eapply Forall_impl; [apply prepare_log|]. auto. }
  assert (H1 : checkpointed_from (checkpoint_name (model_dir a) "wl2") []
                 (trace (prepare X a w) ++ t1)
               /\ Forall (fun cs => cs = wl2_callbacks a) (fit_callbacks t1)).
  { assert (Ht1 : t1 = [] \/ exists sl u tg w1,
                t1 = trace (wl2_phase X a sl u tg (path_join (model_dir a) "logs") w1)).
    { destruct Hcases as [(_ & H & _) | (sl & u & tg & w1 & -> & _)];
        [exact H | right; now exists sl, u, tg, w1]. }
    destruct Ht1 as [-> | (sl & u & tg & w1 & ->)].
    - rewrite app_nil_r. split; [now apply checkpointed_from_quiet | constructor].
    - split; [| apply wl2_phase_log].
      apply checkpointed_from_app. split; [now apply checkpointed_from_quiet|].
      now apply wl2_phase_checkpointed. }
  assert (H2 : checkpointed_from (checkpoint_name (model_dir a) "dice") [] (dice_part t2)
               /\ Forall (fun cs => cs = dice_callbacks a) (fit_callbacks (dice_part t2))).
  { destruct Hcases as [(-> & _) | (sl & u & tg & w1 & _ & _ & -> & _)].
    - split; [exact I | constructor].
    - destruct (Z_lt_le_dec 0 (dice_epochs a)) as [Hp|Hp].
      + split; [now apply dice_phase_checkpointed | now apply dice_phase_log].
      + rewrite (dice_phase_skipped a _ _ _ _ _ Hp). split; [exact I | constructor]. }
  destruct H1 as [C1 F1]. destruct H2 as [C2 F2].
  split; [|split; [|split; [exact Hwo|split]]].
  - intros l1 m e l2 E. exact (checkpointed_from_split _ _ _ C1 _ _ _ _ E).
  - intros l1 m e l2 E. exact (checkpointed_from_split _ _ _ C2 _ _ _ _ E).
  - rewrite fit_callbacks_app, Hf. exact F1.
  - exact F2.
Qed.

Lemma epochs_always_checkpointed_witness :
  let l := trace (training Demo.X Scenario.resumed Scenario.files) in
  Forall (fun cs => cs = [ModelCheckpoint (save_file_name "models" "wl2") true 1])
    (fit_callbacks (wl2_part l))
  /\ Forall (fun cs => cs = [ModelCheckpoint (save_file_name "models" "dice") true 1;
                             TensorBoard (path_join "models" "logs") 0 true false])
       (fit_callbacks (dice_part l)).
Proof.
  destruct (epochs_always_checkpointed Demo.X Scenario.resumed Scenario.files eq_refl)
    as (_ & _ & _ & H1 & H2).
  split; [exact H1 | exact H2].
Defined.

(** ** What [prepare] passes on *)

Section Prepare.

Context {X : Externals}.

Variable a : training_args.

Local Abbreviation logs := (path_join (model_dir a) "logs").

Lemma emits_wl2_phase_kind sl u tg ld :
  emits (fun ev : event X => is_setup_event ev = false) (wl2_phase X a sl u tg ld).
Proof.
  unfold wl2_phase. destruct (0 <? wl2_epochs a); [| apply emits_ret].
  repeat emits_step; try reflexivity.
  - destruct (load_model_file a); [now apply emits_call | apply emits_ret].
  - eapply emits_weaken; [| apply emits_epoch_loop_kind]. intros ev H. now destruct ev.
Qed.

Lemma emits_dice_phase_kind sl u tg ld :
  emits (fun ev : event X => is_setup_event ev = false) (dice_phase X a sl u tg ld).
Proof.
  unfold dice_phase. destruct (0 <? dice_epochs a); [| apply emits_ret].
  repeat emits_step; try reflexivity.
  - destruct (0 <? wl2_epochs a); [now apply emits_call|].
    destruct (load_model_file a); [now apply emits_call | apply emits_ret].
  - eapply emits_weaken; [| apply emits_epoch_loop_kind]. intros ev H. now destruct ev.
Qed.

(** The calls of the setup are all in the log of [prepare]. *)
Lemma setup_event_in_prepare (w : World X) (ev : event X) :
  is_setup_event ev = true ->
  In ev (trace (training X a w)) -> In ev (trace (prepare X a w)).
Proof.
  intros Hs Hin.
  destruct ((0 <? wl2_epochs a) || (0 <? dice_epochs a)) eqn:Hc.
  2:{ now rewrite (training_unchecked a w Hc) in Hin. }
  destruct (training_parts a w Hc) as (t1 & t2 & Ht & Hcases).
  rewrite Ht in Hin. apply in_app_or in Hin as [Hin | Hin]; [exact Hin|].
  exfalso.
  assert (Hk : Forall (fun ev : event X => is_setup_event ev = false) (t1 ++ t2)).
  { apply Forall_app.
    destruct Hcases as [(-> & [-> | (sl & u & tg & w1 & ->)] & _)
                       | (sl & u & tg & w1 & -> & _ & -> & _)];
      split; try constructor; try apply emits_wl2_phase_kind; apply emits_dice_phase_kind. }
  rewrite List.Forall_forall in Hk. specialize (Hk _ Hin). congruence.
Qed.

(** What the label registry returned when [get_label_lists] returns. *)
Lemma label_lists_result (w : World X) gl n sl :
  result (get_label_lists X a w) = inr (gl, n, sl) ->
  exists w1,
    get_list_labels X (path_generation_labels a) (Some (labels_dir a))
      (save_generation_labels a) true w = (inr (gl, n), w1)
    /\ match path_segmentation_labels a with
       | None => sl = gl
       | Some p =>
           exists n' w2, get_list_labels X (Some p) None None true w1 = (inr (sl, n'), w2)
       end.
Proof.
  rewrite get_label_lists_run. cbv zeta.
  destruct (get_list_labels X _ _ _ _ w) as [[e|[gl0 n0]] w1] eqn:E1; [discriminate|].
  destruct (path_segmentation_labels a) as [p|].
  - destruct (get_list_labels X _ _ _ _ w1) as [[e|[sl0 n']] w2] eqn:E2; [discriminate|].
    simpl. intros [= -> -> ->]. exists w1. split; [reflexivity|]. now exists n', w2.
  - simpl. intros [= -> -> ->]. exists w1. now split.
Qed.

(** The generator is built from the label lists, right after the two
    folders are made. *)
Lemma generator_call (w : World X) (g : BrainGenerator.args) :
  In (Call_BrainGenerator g) (trace (prepare X a w)) ->
  exists gl n sl post,
    result (get_label_lists X a w) = inr (gl, n, sl)
    /\ g = generator_args a gl sl n
    /\ trace (prepare X a w)
       = trace (get_label_lists X a w)
         ++ [Call_mkdir (model_dir a); Call_mkdir logs; Call_BrainGenerator g] ++ post
    /\ Forall (fun ev => is_generator_call ev = false) post.
Proof.
  rewrite prepare_run. cbv zeta.
  pose proof (get_label_lists_log a w) as Hl.
  assert (Hn : ~ In (Call_BrainGenerator g) (trace (get_label_lists X a w))).
  { intros Hin. rewrite List.Forall_forall in Hl. now specialize (Hl _ Hin). }
  destruct (result (get_label_lists X a w)) as [e|[[gl n] sl]]; [intros H; contradiction|].
  destruct (mkdir X (model_dir a) _) as [[e|[]] w1].
  { simpl. intros H. apply in_app_or in H as [H|[H|[]]]; [contradiction | discriminate]. }
  destruct (mkdir X logs w1) as [[e|[]] w2].
  { simpl. intros H.
    apply in_app_or in H as [H|[H|[H|[]]]]; [contradiction | discriminate | discriminate]. }
  assert (Hg : forall post,
             Forall (fun ev : event X => is_generator_call ev = false) post ->
             In (Call_BrainGenerator g)
                (trace (get_label_lists X a w)
                 ++ [Call_mkdir (model_dir a); Call_mkdir logs;
                     Call_BrainGenerator (generator_args a gl sl n)] ++ post) ->
             exists gl' n' sl' post',
               @inr exn _ (gl, n, sl) = inr (gl', n', sl')
               /\ g = generator_args a gl' sl' n'
               /\ trace (get_label_lists X a w)
                  ++ [Call_mkdir (model_dir a); Call_mkdir logs;
                      Call_BrainGenerator (generator_args a gl sl n)] ++ post
                  = trace (get_label_lists X a w)
                    ++ [Call_mkdir (model_dir a); Call_mkdir logs; Call_BrainGenerator g]
                    ++ post'
               /\ Forall (fun ev : event X => is_generator_call ev = false) post').
  { intros post Hpost H. exists gl, n, sl, post.
    apply in_app_or in H as [H|H]; [contradiction|].
    simpl in H. destruct H as [H|[H|[H|H]]]; try discriminate.
    - injection H as <-. auto.
    - rewrite List.Forall_forall in Hpost. now specialize (Hpost _ H). }
  destruct (new_BrainGenerator X _ w2) as [[e|gen] w3].
  { cbn [trace result]. apply (Hg []). constructor. }
  destruct (nrn_unet X _) as [e|u].
  { cbn [trace result]. apply (Hg [_]). repeat constructor. }
  destruct (build_training_generator X _ _) as [e|tg];
    cbn [trace result]; apply (Hg [_; _]); repeat constructor.
Qed.

(** The network is given the image shape of the generator that was built. *)
Lemma unet_call (w : World X) (u : unet.args (KModel X)) :
  In (Call_unet u) (trace (prepare X a w)) ->
  exists gl n sl w2 w3 gen,
    new_BrainGenerator X (generator_args a gl sl n) w2 = (inr gen, w3)
    /\ u = unet_args X a (model_output_shape X gen) (Z.of_nat (length sl))
             (labels_to_image_model X gen).
Proof.
  rewrite prepare_run. cbv zeta.
  pose proof (get_label_lists_log a w) as Hl.
  assert (Hn : ~ In (Call_unet u) (trace (get_label_lists X a w))).
  { intros Hin. rewrite List.Forall_forall in Hl. now specialize (Hl _ Hin). }
  destruct (result (get_label_lists X a w)) as [e|[[gl n] sl]]; [intros H; contradiction|].
  destruct (mkdir X (model_dir a) _) as [[e|[]] w1].
  { simpl. intros H. apply in_app_or in H as [H|[H|[]]]; [contradiction | discriminate]. }
  destruct (mkdir X logs w1) as [[e|[]] w2].
  { simpl. intros H.
    apply in_app_or in H as [H|[H|[H|[]]]]; [contradiction | discriminate | discriminate]. }
  destruct (new_BrainGenerator X _ w2) as [[e|gen] w3] eqn:Hg.
  { simpl. intros H.
    apply in_app_or in H as [H|[H|[H|[H|[]]]]]; [contradiction | discriminate..]. }
  assert (Hu : forall post,
             Forall (fun ev : event X => is_setup_event ev = true /\ forall u', ev <> Call_unet u')
                    post ->
             In (Call_unet u)
                (trace (get_label_lists X a w)
                 ++ [Call_mkdir (model_dir a); Call_mkdir logs;
                     Call_BrainGenerator (generator_args a gl sl n);
                     Call_unet (unet_args X a (model_output_shape X gen)
                                  (Z.of_nat (length sl)) (labels_to_image_model X gen))]
                 ++ post) ->
             exists gl' n' sl' w2' w3' gen',
               new_BrainGenerator X (generator_args a gl' sl' n') w2' = (inr gen', w3')
               /\ u = unet_args X a (model_output_shape X gen') (Z.of_nat (length sl'))
                        (labels_to_image_model X gen')).
  { intros post Hpost H. exists gl, n, sl, w2, w3, gen. split; [exact Hg|].
    apply in_app_or in H as [H|H]; [contradiction|].
    simpl in H. destruct H as [H|[H|[H|[H|H]]]]; try discriminate.
    - now injection H.
    - rewrite List.Forall_forall in Hpost. destruct (Hpost _ H) as [_ Hne].
      now contradiction (Hne u). }
  destruct (nrn_unet X _) as [e|net].
  { cbn [trace]. apply (Hu []). constructor. }
  destruct (build_training_generator X _ _) as [e|tg];
    cbn [trace]; apply (Hu [_]); repeat constructor; discriminate.
Qed.

End Prepare.

(** *** C7: the segmentation labels *)

Lemma in_generator_calls {X : Externals} (l : list (event X)) (g : BrainGenerator.args) :
  In g (generator_calls l) <-> In (Call_BrainGenerator g) l.
Proof.
  unfold generator_calls. rewrite in_flat_map. split.
  - intros (ev & Hin & Hg). destruct ev; simpl in Hg; try contradiction.
    destruct Hg as [-> | []]. exact Hin.
  - intros Hin. exists (Call_BrainGenerator g). split; [exact Hin | now left].
Qed.

Lemma in_mkdir_calls {X : Externals} (l : list (event X)) (p : string) :
  In p (mkdir_calls l) <-> In (Call_mkdir p) l.
Proof.
  unfold mkdir_calls. rewrite in_flat_map. split.
  - intros (ev & Hin & Hg). destruct ev; simpl in Hg; try contradiction.
    destruct Hg as [-> | []]. exact Hin.
  - intros Hin. exists (Call_mkdir p). split; [exact Hin | now left].
Qed.

(** C7.  Whenever the generator is constructed, its [generation_labels] and
    [n_neutral_labels] are what the label registry returned for the
    generation labels (first call, on the world the run started in).  When
    [path_segmentation_labels] is [None] its [output_labels] are that same
    list; otherwise they are the list of a second call of the registry, on
    [path_segmentation_labels] alone, whose neutral count [n'] goes nowhere:
    [n_neutral_labels] is still the one of the first call. *)
Theorem segmentation_labels_default (X : Externals) (a : training_args) (w : World X)
    (g : BrainGenerator.args) :
  In (Call_BrainGenerator g) (trace (training X a w)) ->
  exists gl n w1,
    get_list_labels X (path_generation_labels a) (Some (labels_dir a))
      (save_generation_labels a) true w = (inr (gl, n), w1)
    /\ BrainGenerator.generation_labels g = gl
    /\ BrainGenerator.n_neutral_labels g = n
    /\ match path_segmentation_labels a with
       | None => BrainGenerator.output_labels g = gl
       | Some p =>
           exists sl n' w2,
             get_list_labels X (Some p) None None true w1 = (inr (sl, n'), w2)
             /\ BrainGenerator.output_labels g = sl
       end.
Proof.
  intros Hin. apply setup_event_in_prepare in Hin; [| reflexivity].
  destruct (generator_call a w g Hin) as (gl & n & sl & post & Hr & -> & _).
  destruct (label_lists_result a w gl n sl Hr) as (w1 & H1 & H2).
  exists gl, n, w1. split; [exact H1|]. split; [reflexivity|]. split; [reflexivity|].
  destruct (path_segmentation_labels a) as [p|].
  - destruct H2 as (n' & w2 & H2). now exists sl, n', w2.
  - simpl. now subst sl.
Qed.

Lemma segmentation_labels_default_witness :
  exists g,
    In (Call_BrainGenerator g) (trace (training Demo.X Scenario.with_segmentation Scenario.files))
    /\ BrainGenerator.generation_labels g = [0; 2; 3; 4]
    /\ BrainGenerator.n_neutral_labels g = 1
    /\ BrainGenerator.output_labels g = [0; 2].
Proof.
  exists (generator_args Scenario.with_segmentation [0; 2; 3; 4] [0; 2] 1).
  assert (Hin : In (Call_BrainGenerator
                      (generator_args Scenario.with_segmentation [0; 2; 3; 4] [0; 2] 1))
                   (trace (training Demo.X Scenario.with_segmentation Scenario.files))).
  { apply in_generator_calls.
    assert (E : generator_calls
                  (trace (training Demo.X Scenario.with_segmentation Scenario.files))
                = [generator_args Scenario.with_segmentation [0; 2; 3; 4] [0; 2] 1])
      by (vm_compute; reflexivity).
    rewrite E. now left. }
  destruct (segmentation_labels_default Demo.X _ Scenario.files _ Hin)
    as (gl & n & w1 & _ & Hg & Hn & _).
  split; [exact Hin|]. repeat split.
Defined.

(** *** C8: the output shape and the levels of the network *)

(** C8.  Whenever the generator is constructed, it is given
    [output_div_by_n = 2 ** n_levels].  For a generator that keeps the
    contract of the specification (its image shape is its output shape,
    rounded to be divisible by [output_div_by_n], followed by the channel
    count) and [n_levels >= 0], the network is built with [n_levels] levels
    on an input shape whose spatial sides are all divisible by
    [2 ^ n_levels]. *)
Theorem output_divisible_by_levels (X : Externals) (a : training_args) (w : World X) :
  (forall g, In (Call_BrainGenerator g) (trace (training X a w)) ->
     BrainGenerator.output_div_by_n g = py_pow2 (n_levels a))
  /\ (0 <= n_levels a -> generator_contract X ->
      forall u, In (Call_unet u) (trace (training X a w)) ->
        unet.nb_levels u = n_levels a
        /\ Forall (Z.divide (2 ^ n_levels a)) (removelast (unet.input_shape u))).
Proof.
  split.
  - intros g Hin. apply setup_event_in_prepare in Hin; [| reflexivity].
    now destruct (generator_call a w g Hin) as (gl & n & sl & post & _ & -> & _).
  - intros Hn Hc u Hin. apply setup_event_in_prepare in Hin; [| reflexivity].
    destruct (unet_call a w u Hin) as (gl & n & sl & w2 & w3 & gen & Hg & ->).
    split; [reflexivity|]. simpl.
    apply (Hc _ _ _ _ _ Hg). simpl. unfold py_pow2.
    now destruct (Z.leb_spec 0 (n_levels a)); [|lia].
Qed.

Lemma demo_generator_contract : generator_contract Demo.X.
Proof.
  intros g w w' gen d H Hd. simpl in H. unfold Demo.make_generator in H.
  destruct (Demo.modalities_consistent g w); [|discriminate].
  injection H as <- _. simpl. unfold Demo.output_shape_of. rewrite Hd.
  assert (Hdiv : forall s, (d | Demo.round_up s d)).
  { intros s. exists ((s + d - 1) / d). unfold Demo.round_up. lia. }
  destruct (BrainGenerator.output_shape g); simpl; repeat constructor; apply Hdiv.
Qed.

Lemma in_unet_calls {X : Externals} (l : list (event X)) (u : unet.args (KModel X)) :
  In u (unet_calls l) <-> In (Call_unet u) l.
Proof.
  unfold unet_calls. rewrite in_flat_map. split.
  - intros (ev & Hin & Hg). destruct ev; simpl in Hg; try contradiction.
    destruct Hg as [-> | []]. exact Hin.
  - intros Hin. exists (Call_unet u). split; [exact Hin | now left].
Qed.

Lemma output_divisible_by_levels_witness :
  exists u,
    In (Call_unet u) (trace (training Demo.X Scenario.resumed Scenario.files))
    /\ unet.input_shape u = [160; 160; 160; 1]
    /\ unet.nb_levels u = 5
    /\ Forall (Z.divide 32) (removelast (unet.input_shape u)).
Proof.
  exists (unet_args Demo.X Scenario.resumed [160; 160; 160; 1] 4 []).
  assert (Hin : In (Call_unet (unet_args Demo.X Scenario.resumed [160; 160; 160; 1] 4 []))
                   (trace (training Demo.X Scenario.resumed Scenario.files))).
  { apply in_unet_calls.
    assert (E : unet_calls (trace (training Demo.X Scenario.resumed Scenario.files))
                = [unet_args Demo.X Scenario.resumed [160; 160; 160; 1] 4 []])
      by (vm_compute; reflexivity).
    rewrite E. now left. }
  assert (Hn : 0 <= n_levels Scenario.resumed) by (simpl; lia).
  destruct (proj2 (output_divisible_by_levels Demo.X Scenario.resumed Scenario.files)
              Hn demo_generator_contract _ Hin) as [Hl Hd].
  split; [exact Hin|]. split; [reflexivity|]. split; [exact Hl | exact Hd].
Defined.

(** *** C9: the loss given to [compile] *)

(** C9.  Every [compile] of a run is given the Adam optimizer on [lr] and
    [lr_decay], the loss weights [[1.0]], and as loss the identity loss,
    which returns its prediction argument unchanged.  A run that returns has
    compiled once for each phase that runs. *)
Theorem compile_identity_loss (X : Externals) (a : training_args) (w : World X) :
  (forall m opt loss loss_weights,
     In (Call_compile m opt loss loss_weights) (trace (training X a w)) ->
     opt = Adam (lr a) (lr_decay a)
     /\ loss_weights = [1%Q]
     /\ loss = IdentityLoss_loss
     /\ forall y_true y_predicted, loss y_true y_predicted = y_predicted)
  /\ (result (training X a w) = inr tt ->
      length (compiles (trace (training X a w))) = phases_run a).
Proof.
  split.
  - intros m opt loss lw Hin. pose proof (emits_training a w) as He.
    rewrite List.Forall_forall in He. destruct (He _ Hin) as (-> & -> & ->).
    repeat split.
  - intros Hr.
    destruct ((0 <? wl2_epochs a) || (0 <? dice_epochs a)) eqn:Hc.
    2:{ rewrite (training_unchecked a w Hc) in Hr. discriminate. }
    destruct (training_split a w Hc) as (t1 & t2 & Ht & _ & _ & Hcases).
    destruct Hcases as [(_ & _ & e & He) | (sl & u & tg & w1 & -> & Hw & -> & Hres)];
      [congruence|].
    rewrite Ht, !compiles_app, !length_app.
    rewrite compiles_quiet.
    2:{ eapply Forall_impl; [apply prepare_log|]. intros ev Hev. now destruct ev. }
    destruct (wl2_phase_log a sl u tg w1) as (_ & _ & _ & H1).
    destruct (H1 Hw) as [_ ->]. unfold phases_run. simpl. f_equal.
    rewrite Hres in Hr.
    destruct (Z.ltb_spec 0 (dice_epochs a)) as [Hd|Hd].
    + now apply dice_phase_log.
    + now rewrite (dice_phase_skipped a _ _ _ _ _ Hd).
Qed.

Lemma compile_identity_loss_witness :
  length (compiles (trace (training Demo.X Scenario.resumed Scenario.files))) = 2%nat.
Proof.
  assert (Hr : result (training Demo.X Scenario.resumed Scenario.files) = inr tt)
    by (vm_compute; reflexivity).
  exact (proj2 (compile_identity_loss Demo.X Scenario.resumed Scenario.files) Hr).
Defined.

(** *** C10: an external checkpoint is loaded strictly *)

Lemma layers_match_length (saved model : list layer) :
  layers_match saved model = true -> length saved = length model.
Proof.
  revert model. induction saved as [|s saved IH]; intros [|l model]; simpl; try discriminate.
  - reflexivity.
  - intros H. apply andb_prop in H as [_ H]. now rewrite (IH _ H).
Qed.

Lemma names_match_tolerant (saved model : list layer) :
  (forall s l, In s saved -> In l model ->
     layer_name s = layer_name l -> weight_shapes s = weight_shapes l) ->
  names_match (List.filter has_weights saved) (List.filter has_weights model) = true.
Proof.
  intros H. unfold names_match. apply forallb_forall. intros s Hs.
  apply forallb_forall. intros l Hl.
  apply filter_In in Hs as [Hs _]. apply filter_In in Hl as [Hl _].
  destruct (String.eqb_spec (layer_name s) (layer_name l)) as [E|E]; [|reflexivity].
  simpl. apply bool_decide_eq_true. now apply H.
Qed.

(** C10.  Every load of a run without [by_name] is the load of
    [load_model_file], and every load with [by_name] is the handoff of the
    last warm-up checkpoint to the dice model; a run that returns has loaded
    [load_model_file], when given, into the warm-up model without [by_name].
    Without [by_name] a file whose number of weighted layers differs from
    the model's is refused with [ValueError] and the world is left as it
    was, while with [by_name] a file is accepted whatever layers it has more
    or less, as long as the layers of the same name have the same weight
    shapes. *)
Theorem external_checkpoint_strict (X : Externals) (a : training_args) (w : World X) :
  (forall m f by_name, In (Call_load_weights m f by_name) (trace (training X a w)) ->
     (by_name = false /\ load_model_file a = Some f)
     \/ (by_name = true
         /\ f = path_join (model_dir a) ("wl2_" +:+ fmt_03d (wl2_epochs a) +:+ ".h5")
         /\ 0 < wl2_epochs a /\ 0 < dice_epochs a))
  /\ (result (training X a w) = inr tt ->
      loads (wl2_part (trace (training X a w)))
      = if 0 <? wl2_epochs a
        then match load_model_file a with
             | Some f => [(f, false)]
             | None => []
             end
        else [])
  /\ (forall m f w' saved,
        h5_layers X f w' = Some saved ->
        length (List.filter has_weights saved)
          <> length (List.filter has_weights (layers X m)) ->
        load_weights X m f false w'
        = Outcome [Call_load_weights m f false] w' (inl (ValueError f)))
  /\ (forall m f w' saved,
        h5_layers X f w' = Some saved ->
        (forall s l, In s saved -> In l (layers X m) ->
           layer_name s = layer_name l -> weight_shapes s = weight_shapes l) ->
        result (load_weights X m f true w') = inr tt).
Proof.
  split; [|split; [|split]].
  - intros m f by_name Hin. pose proof (emits_training a w) as He.
    rewrite List.Forall_forall in He. exact (He _ Hin).
  - intros Hr.
    destruct ((0 <? wl2_epochs a) || (0 <? dice_epochs a)) eqn:Hc.
    2:{ rewrite (training_unchecked a w Hc) in Hr. discriminate. }
    destruct (training_split a w Hc) as (t1 & t2 & _ & Hw & _ & Hcases).
    destruct Hcases as [(_ & _ & e & He) | (sl & u & tg & w1 & -> & Hres & _)];
      [congruence|].
    rewrite Hw, loads_app, loads_quiet.
    2:{ eapply Forall_impl; [apply prepare_log|]. intros ev Hev. now destruct ev. }
    destruct (wl2_phase_log a sl u tg w1) as (_ & _ & _ & H1).
    now destruct (H1 Hres) as [-> _].
  - intros m f w' saved Hf Hlen. unfold load_weights, call. rewrite Hf.
    unfold weights_fit.
    destruct (layers_match _ _) eqn:E; [|reflexivity].
    apply layers_match_length in E. contradiction.
  - intros m f w' saved Hf Hnames. unfold load_weights, call. rewrite Hf.
    unfold weights_fit. now rewrite names_match_tolerant.
Qed.

Lemma external_checkpoint_strict_witness :
  result (load_weights Demo.X [Layer "unet_conv_0" [[3; 3; 3; 1; 24]; [24]]]
            "start.h5" false Scenario.files)
  = inl (ValueError "start.h5")
  /\ result (load_weights Demo.X [Layer "unet_conv_0" [[3; 3; 3; 1; 24]; [24]]]
               "start.h5" true Scenario.files)
     = inr tt.
Proof.
  destruct (external_checkpoint_strict Demo.X Scenario.resumed Scenario.files)
    as (_ & _ & Hstrict & Hname).
  assert (Hf : h5_layers Demo.X "start.h5" Scenario.files
               = Some [Layer "unet_conv_0" [[3; 3; 3; 1; 24]; [24]];
                       Layer "unet_likelihood" [[1; 1; 1; 24; 4]; [4]]])
    by (vm_compute; reflexivity).
  split.
  - rewrite (Hstrict _ _ _ _ Hf); [reflexivity | simpl; discriminate].
  - apply (Hname _ _ _ _ Hf). simpl.
    intros s l [<- | [<- | []]] [<- | []]; simpl; [reflexivity | discriminate].
Defined.

(** *** C3: what a failing run has done before it fails *)

Lemma split_at_generator {X : Externals} (l1 l2 l1' l2' : list (event X))
    (g g' : BrainGenerator.args) :
  Forall (fun ev => is_generator_call ev = false) l1' ->
  Forall (fun ev => is_generator_call ev = false) l2' ->
  l1 ++ Call_BrainGenerator g :: l2 = l1' ++ Call_BrainGenerator g' :: l2' ->
  l1 = l1'.
Proof.
  intros H1 H2. revert l1. induction H1 as [|y l1' Hy _ IH]; intros [|z l1]; simpl; intros E.
  - reflexivity.
  - injection E as _ E. rewrite List.Forall_forall in H2.
    assert (Hin : In (Call_BrainGenerator g) l2') by (rewrite <- E; apply in_elt).
    now specialize (H2 _ Hin).
  - injection E as <- _. discriminate.
  - injection E as -> E. f_equal. now apply IH.
Qed.

(** C3, as the code has it.  A run that fails on its epoch counts or in the
    label registry has called nothing but the label registry: no folder is
    made and no generator built.  But the generator is built only after the
    two folders have been asked for: in every run, whatever precedes a
    construction of the generator in the log is calls of the label registry
    followed by [mkdir(model_dir)] and [mkdir(model_dir/logs)], so an error
    raised by the constructor comes after both. *)
Theorem generator_built_after_folders (X : Externals) (a : training_args) (w : World X) :
  ((0 <? wl2_epochs a) || (0 <? dice_epochs a) = false
   \/ (exists e, result (get_label_lists X a w) = inl e) ->
   (exists e, result (training X a w) = inl e)
   /\ Forall (fun ev => is_label_call ev = true) (trace (training X a w)))
  /\ (forall l1 g l2,
        trace (training X a w) = l1 ++ Call_BrainGenerator g :: l2 ->
        exists labels,
          Forall (fun ev => is_label_call ev = true) labels
          /\ l1 = labels ++ [Call_mkdir (model_dir a);
                             Call_mkdir (path_join (model_dir a) "logs")]).
Proof.
  split.
  - destruct ((0 <? wl2_epochs a) || (0 <? dice_epochs a)) eqn:Hc.
    2:{ intros _. rewrite (training_unchecked a w Hc). simpl. split; [eauto | constructor]. }
    intros [Hf | [e He]]; [discriminate|].
    assert (Hp : prepare X a w
                 = Outcome (trace (get_label_lists X a w)) (world (get_label_lists X a w))
                     (inl e)).
    { rewrite prepare_run. cbv zeta. now rewrite He. }
    rewrite (training_checked a w Hc), (bind_failed _ _ _ e); rewrite Hp; simpl.
    + split; [eauto | apply get_label_lists_log].
    + reflexivity.
  - intros l1 g l2 E.
    assert (Hin : In (Call_BrainGenerator g) (trace (training X a w)))
      by (rewrite E; apply in_elt).
    pose proof (setup_event_in_prepare a w (Call_BrainGenerator g) eq_refl Hin) as Hp.
    destruct (generator_call a w g Hp) as (gl & n & sl & post & _ & _ & Ht & Hpost).
    exists (trace (get_label_lists X a w)). split; [apply get_label_lists_log|].
    destruct ((0 <? wl2_epochs a) || (0 <? dice_epochs a)) eqn:Hc.
    2:{ now rewrite (training_unchecked a w Hc) in Hin. }
    destruct (training_parts a w Hc) as (t1 & t2 & Hparts & Hcases).
    assert (Hk : Forall (fun ev : event X => is_generator_call ev = false) (t1 ++ t2)).
    { apply Forall_app.
      destruct Hcases as [(-> & [-> | (sl' & u & tg & w1 & ->)] & _)
                         | (sl' & u & tg & w1 & -> & _ & -> & _)];
        split; try constructor;
        (eapply Forall_impl;
         [first [apply emits_wl2_phase_kind | apply emits_dice_phase_kind]|];
         intros ev Hev; now destruct ev). }
    rewrite Hparts, Ht in E.
    apply (split_at_generator l1 l2 _ (post ++ t1 ++ t2) g g).
    + apply Forall_app. split; [| repeat constructor].
      eapply Forall_impl; [apply get_label_lists_log|]. intros ev Hev. now destruct ev.
    + apply Forall_app. now split.
    + rewrite <- E, <- !app_assoc. reflexivity.
Qed.

Lemma generator_built_after_folders_witness :
  Forall (fun ev => is_label_call ev = true)
    (trace (training Demo.X Scenario.missing_segmentation Scenario.files))
  /\ exists labels,
       Forall (fun ev => is_label_call ev = true) labels
       /\ [Call_get_list_labels None (Some "labels") None true;
           Call_mkdir "models"; Call_mkdir "models/logs"]
          = labels ++ [Call_mkdir (X := Demo.X) "models"; Call_mkdir "models/logs"].
Proof.
  destruct (generator_built_after_folders Demo.X Scenario.missing_segmentation Scenario.files)
    as [H1 _].
  destruct (generator_built_after_folders Demo.X Scenario.inconsistent_modalities
              Scenario.files) as [_ H2].
  split.
  - apply H1. right. eexists. vm_compute. reflexivity.
  - apply (H2 _ (generator_args Scenario.inconsistent_modalities [0; 2; 3; 4] [0; 2; 3; 4] 1)
             []).
    reflexivity.
Defined.

(** C3, as the specification has it, fails: with per-channel statistics asked
    for on one channel and a prior array of two modality blocks, the
    generator refuses the configuration, and by then the run has made
    [models] and [models/logs], which were not there before. *)
Lemma configuration_failure_after_folders :
  result (training Demo.X Scenario.inconsistent_modalities Scenario.files)
  = inl (Raise "ConfigurationError" "prior_means does not match n_channels")
  /\ mkdir_calls (trace (training Demo.X Scenario.inconsistent_modalities Scenario.files))
     = ["models"; "models/logs"]
  /\ elements (Demo.dirs Scenario.files) = []
  /\ elements (Demo.dirs
                 (world (training Demo.X Scenario.inconsistent_modalities Scenario.files)))
     = ["models/logs"; "models"]
  /\ ~ aborts_before_side_effects Demo.X Scenario.inconsistent_modalities Scenario.files.
Proof.
  assert (Hr : result (training Demo.X Scenario.inconsistent_modalities Scenario.files)
               = inl (Raise "ConfigurationError" "prior_means does not match n_channels"))
    by (vm_compute; reflexivity).
  assert (Hm : mkdir_calls
                 (trace (training Demo.X Scenario.inconsistent_modalities Scenario.files))
               = ["models"; "models/logs"])
    by (vm_compute; reflexivity).
  split; [exact Hr|]. split; [exact Hm|].
  split; [vm_compute; reflexivity|]. split; [vm_compute; reflexivity|].
  intros H. specialize (H _ Hr). rewrite List.Forall_forall in H.
  assert (Hin : In (Call_mkdir "models")
                  (trace (training Demo.X Scenario.inconsistent_modalities Scenario.files))).
  { apply in_mkdir_calls. rewrite Hm. now left. }
  destruct (H _ Hin) as [Hk _]. discriminate.
Qed.

(** ** The command line *)

Lemma has_attr_keys (ns ns' : namespace) (k : string) :
  map fst ns = map fst ns' -> has_attr ns k = has_attr ns' k.
Proof.
  revert ns'. induction ns as [|[k1 v1] ns IH]; intros [|[k2 v2] ns']; simpl; try discriminate.
  - reflexivity.
  - intros [= -> H]. now rewrite (IH _ H).
Qed.

Lemma set_attr_keys (ns : namespace) (k : string) (v : pyval) :
  has_attr ns k = true -> map fst (set_attr ns k v) = map fst ns.
Proof.
  induction ns as [|[k' v'] ns IH]; simpl; [discriminate|].
  destruct (String.eqb k' k); simpl; [reflexivity|].
  intros H. now rewrite IH.
Qed.

(** Reading the command line sets attributes the namespace already has: the
    names of the attributes stay those of the defaults. *)
Lemma parse_tokens_keys convert (p : list argument) (argv : list string) :
  forall (pending : list argument) (ns ns' : namespace),
    (forall a, In a p -> has_attr ns (arg_dest a) = true) ->
    (forall a, In a pending -> In a p) ->
    parse_tokens convert p argv pending ns = Some ns' ->
    map fst ns' = map fst ns.
Proof.
  assert (Hset : forall (ns : namespace) a x,
             (forall a, In a p -> has_attr ns (arg_dest a) = true) -> In a p ->
             map fst (set_attr ns (arg_dest a) x) = map fst ns
             /\ (forall a', In a' p -> has_attr (set_attr ns (arg_dest a) x) (arg_dest a') = true)).
  { intros ns a x Hall Ha.
    assert (E : map fst (set_attr ns (arg_dest a) x) = map fst ns)
      by (apply set_attr_keys, Hall, Ha).
    split; [exact E|]. intros a' Ha'. rewrite (has_attr_keys _ _ _ E). now apply Hall. }
  assert (Hn : forall (n : nat) (argv : list string), (length argv <= n)%nat ->
             forall (pending : list argument) (ns ns' : namespace),
               (forall a, In a p -> has_attr ns (arg_dest a) = true) ->
               (forall a, In a pending -> In a p) ->
               parse_tokens convert p argv pending ns = Some ns' ->
               map fst ns' = map fst ns).
  { induction n as [|n IH]; intros [|tok rest] Hlen pending ns ns' Hall Hpend; simpl;
      try (simpl in Hlen; lia);
      try (destruct pending; [intros [= <-]; reflexivity | discriminate]).
    simpl in Hlen.
    destruct (String.prefix "--" tok).
    - destruct (find_option p tok) as [a|] eqn:Hf; [|discriminate].
      assert (Ha : In a p) by (apply find_some in Hf; tauto).
      destruct (arg_action_of a) as [ty | ty d | |]; try discriminate.
      + destruct rest as [|v rest']; [discriminate|].
        destruct (convert ty v) as [x|]; [|discriminate].
        destruct (Hset ns a x Hall Ha) as [E Hall'].
        intros H. rewrite <- E. apply (IH rest') in H; auto. simpl in Hlen. lia.
      + destruct (Hset ns a (PBool true) Hall Ha) as [E Hall'].
        intros H. rewrite <- E. apply (IH rest) in H; auto. lia.
      + destruct (Hset ns a (PBool false) Hall Ha) as [E Hall'].
        intros H. rewrite <- E. apply (IH rest) in H; auto. lia.
    - destruct pending as [|a pending']; [discriminate|].
      assert (Ha : In a p) by (apply Hpend; now left).
      destruct (arg_action_of a) as [ty | ty d | |]; try discriminate.
      destruct (convert ty tok) as [x|]; [|discriminate].
      destruct (Hset ns a x Hall Ha) as [E Hall'].
      intros H. rewrite <- E. apply (IH rest) in H; auto; [lia|].
      intros a' Ha'. apply Hpend. now right. }
  intros pending ns ns'. now apply (Hn (length argv)).
Qed.

Lemma find_by_key (f : string -> bool) (ns : namespace) :
  option_map fst (find (fun kv => f (fst kv)) ns) = find f (map fst ns).
Proof.
  induction ns as [|[k v] ns IH]; simpl; [reflexivity|].
  destruct (f k); [reflexivity | exact IH].
Qed.

(** A call with keywords that are not parameters is refused on the first of
    them. *)
Lemma call_kwargs_unexpected (fname : string) (sig : signature) (kwargs : namespace)
    (k : string) :
  find (fun k => negb (is_parameter sig k)) (map fst kwargs) = Some k ->
  call_kwargs fname sig kwargs = inl (unexpected_keyword fname k).
Proof.
  intros H. unfold call_kwargs.
  rewrite <- (find_by_key (fun k => negb (is_parameter sig k))) in H.
  destruct (find _ kwargs) as [[k' v]|]; [|discriminate].
  simpl in H. now injection H as ->.
Qed.

(** *** C4: the command line against [training] *)

(** C4 fails on the code.  Whatever the command line, the script never
    enters [training]: either argparse ends it with a usage error, or the
    call is refused with [TypeError], because the namespace always holds
    [build_distance_maps] (and [checkpoint]), which [training] has no
    parameter for.  The defaults do not match the signature either:
    [nonlin_std] is 3.0 against 4.0 and [blur_range] 1.03 against 1.15. *)
Theorem command_line_call_rejected (convert : arg_type -> string -> option pyval)
    (argv : list string) :
  (script convert argv = inl (Raise "SystemExit" "2")
   \/ script convert argv
      = inl (TypeError "training() got an unexpected keyword argument 'build_distance_maps'"))
  /\ unknown_keywords = ["build_distance_maps"; "checkpoint"]
  /\ mismatched_defaults = ["nonlin_std"; "blur_range"]
  /\ get_attr (initial_namespace parser) "nonlin_std" = Some (PFloat (3 # 1))
  /\ default_of training_signature "nonlin_std" = Some (PFloat (4 # 1))
  /\ get_attr (initial_namespace parser) "blur_range" = Some (PFloat (103 # 100))
  /\ default_of training_signature "blur_range" = Some (PFloat (115 # 100)).
Proof.
  split; [| repeat split; vm_compute; reflexivity].
  unfold script. destruct (parse_args convert parser argv) as [args|] eqn:Hp; [right | now left].
  apply (call_kwargs_unexpected "training" training_signature args "build_distance_maps").
  unfold parse_args in Hp. apply parse_tokens_keys in Hp.
  - rewrite Hp. vm_compute. reflexivity.
  - assert (H : forallb (fun a => has_attr (initial_namespace parser) (arg_dest a)) parser
                = true) by (vm_compute; reflexivity).
    rewrite forallb_forall in H. exact H.
  - intros a Ha. apply filter_In in Ha. tauto.
Qed.

(** The plainest command line, with the two positional arguments. *)
Example command_line_plain :
  script (fun _ s => Some (PStr s)) ["labels"; "models"]
  = inl (TypeError "training() got an unexpected keyword argument 'build_distance_maps'").
Proof. vm_compute. reflexivity. Qed.

Example command_line_usage :
  script (fun _ s => Some (PStr s)) ["labels"] = inl (Raise "SystemExit" "2").
Proof. vm_compute. reflexivity. Qed.

(** ** The scenarios of the specification, run *)

(** One warm-up epoch and no dice epoch: exactly the checkpoint [wl2_001] is
    written, and no dice model is asked for. *)
Example warmup_only_run :
  result (training Demo.X Scenario.warmup_only Scenario.files) = inr tt
  /\ checkpoints (trace (training Demo.X Scenario.warmup_only Scenario.files))
     = ["models/wl2_001.h5"]
  /\ length (dice_part (trace (training Demo.X Scenario.warmup_only Scenario.files)))
     = 0%nat.
Proof. repeat split; vm_compute; reflexivity. Qed.

(** A resumed run: the warm-up checkpoint, then the dice checkpoints 2 and 3;
    the handoff loads the checkpoint the warm-up wrote. *)
Example resumed_run :
  result (training Demo.X Scenario.resumed Scenario.files) = inr tt
  /\ checkpoints (trace (training Demo.X Scenario.resumed Scenario.files))
     = ["models/wl2_001.h5"; "models/dice_002.h5"; "models/dice_003.h5"]
  /\ loads (trace (training Demo.X Scenario.resumed Scenario.files))
     = [("models/wl2_001.h5", true)]
  /\ epochs_ended (trace (training Demo.X Scenario.resumed Scenario.files)) = [0; 1; 2].
Proof. repeat split; vm_compute; reflexivity. Qed.

(** The dice model starts from the external checkpoint when there is no
    warm-up. *)
Example from_checkpoint_run :
  result (training Demo.X Scenario.from_checkpoint Scenario.files) = inr tt
  /\ loads (trace (training Demo.X Scenario.from_checkpoint Scenario.files))
     = [("start.h5", false)]
  /\ checkpoints (trace (training Demo.X Scenario.from_checkpoint Scenario.files))
     = ["models/dice_001.h5"].
Proof. repeat split; vm_compute; reflexivity. Qed.

(** ** Checkpoint names are read back *)

(** The digits of a non-negative number, zeros in front or not, read back as
    the number. *)
Lemma zeros_read (k : nat) (s : string) :
  NilEmpty.uint_of_string (zeros k +:+ s)
  = option_map (Nat.iter k Decimal.D0) (NilEmpty.uint_of_string s).
Proof.
  induction k as [|k IH]; simpl zeros.
  - rewrite append_empty. now destruct (NilEmpty.uint_of_string s).
  - rewrite append_cons. cbn [NilEmpty.uint_of_string]. rewrite IH.
    now destruct (NilEmpty.uint_of_string s).
Qed.

Lemma of_uint_zeros (k : nat) (d : Decimal.uint) :
  Pos.of_uint (Nat.iter k Decimal.D0 d) = Pos.of_uint d.
Proof. induction k as [|k IH]; [reflexivity | exact IH]. Qed.

Lemma str_of_int_read (k : nat) (n : Z) :
  0 <= n ->
  option_map Pos.of_uint (NilEmpty.uint_of_string (zeros k +:+ str_of_int n))
  = Some (Z.to_N n).
Proof.
  intros Hn. rewrite zeros_read. unfold str_of_int.
  destruct n as [|p|p]; [| | lia].
  - simpl. now rewrite of_uint_zeros.
  - cbn [Z.to_int NilZero.string_of_int]. unfold NilZero.string_of_uint.
    pose proof (Unsigned.to_uint_nonnil p) as Hnil.
    destruct (Pos.to_uint p) eqn:E; [contradiction | ..];
      rewrite <- E, NilEmpty.usu; simpl; rewrite of_uint_zeros;
      apply (f_equal Some), DecimalPos.Unsigned.of_to.
Qed.

Lemma zfill_read (width : nat) (n : Z) :
  0 <= n ->
  option_map Pos.of_uint (NilEmpty.uint_of_string (zfill width (str_of_int n)))
  = Some (Z.to_N n).
Proof. apply str_of_int_read. Qed.

Lemma zfill_injective (width : nat) (n n' : Z) :
  0 <= n -> 0 <= n' -> zfill width (str_of_int n) = zfill width (str_of_int n') -> n = n'.
Proof.
  intros Hn Hn' E.
  pose proof (zfill_read width n Hn) as R. rewrite E, (zfill_read width n' Hn') in R.
  injection R as R. lia.
Qed.

Lemma minus_read (s : string) : NilEmpty.uint_of_string (String "-" s) = None.
Proof. cbn [NilEmpty.uint_of_string]. now destruct (NilEmpty.uint_of_string s). Qed.

(** Distinct epochs are formatted differently. *)
Lemma fmt_03d_injective (n n' : Z) : fmt_03d n = fmt_03d n' -> n = n'.
Proof.
  unfold fmt_03d.
  destruct (Z.ltb_spec n 0) as [Hn|Hn], (Z.ltb_spec n' 0) as [Hn'|Hn'].
  - rewrite !append_cons, !append_empty. intros [= E].
    apply zfill_injective in E; lia.
  - rewrite append_cons. intros E.
    pose proof (zfill_read 3 n' Hn') as R. rewrite <- E, minus_read in R. discriminate.
  - rewrite append_cons. intros E.
    pose proof (zfill_read 3 n Hn) as R. rewrite E, minus_read in R. discriminate.
  - apply zfill_injective; assumption.
Qed.

Lemma append_cancel_l (s t t' : string) : s +:+ t = s +:+ t' -> t = t'.
Proof.
  induction s as [|c s IH]; [now rewrite !append_empty|].
  rewrite !append_cons. intros [= E]. now apply IH.
Qed.

Lemma length_append (s t : string) :
  String.length (s +:+ t) = (String.length s + String.length t)%nat.
Proof.
  induction s as [|c s IH]; [reflexivity|]. rewrite append_cons. simpl. now rewrite IH.
Qed.

Lemma append_cancel_r (s s' t : string) : s +:+ t = s' +:+ t -> s = s'.
Proof.
  revert s'. induction s as [|c s IH]; intros [|c' s'].
  - reflexivity.
  - intros E. apply (f_equal String.length) in E.
    rewrite append_empty, append_cons in E. simpl in E. rewrite length_append in E. lia.
  - intros E. apply (f_equal String.length) in E.
    rewrite append_empty, append_cons in E. simpl in E. rewrite length_append in E. lia.
  - rewrite !append_cons. intros [= -> E]. f_equal. now apply IH.
Qed.

(** Two epochs of a phase never share a checkpoint file. *)
Lemma checkpoint_name_injective (model_dir tag : string) (e e' : Z) :
  checkpoint_name model_dir tag e = checkpoint_name model_dir tag e' -> e = e'.
Proof.
  unfold checkpoint_name, path_join.
  assert (Hp : forall x, String.prefix "/" (tag +:+ "_" +:+ fmt_03d x +:+ ".h5")
                         = String.prefix "/" (tag +:+ "_")).
  { intros x. destruct tag as [|c tag]; [reflexivity|].
    rewrite !append_cons. simpl. now destruct (Ascii.eqb "/" c), tag. }
  rewrite !Hp. intros E.
  assert (E' : tag +:+ "_" +:+ fmt_03d e +:+ ".h5" = tag +:+ "_" +:+ fmt_03d e' +:+ ".h5").
  { destruct (String.prefix "/" (tag +:+ "_")); [exact E|].
    destruct (String.eqb model_dir "" || ends_with_sep model_dir)%bool.
    - now apply append_cancel_l in E.
    - apply append_cancel_l in E. now apply (append_cancel_l "/") in E. }
  apply append_cancel_l in E'. apply (append_cancel_l "_") in E'.
  apply append_cancel_r in E'. now apply fmt_03d_injective.
Qed.

(** The checkpoints of the warm-up and of the fine-tuning are different
    files. *)
Lemma checkpoint_name_phases (model_dir : string) (e e' : Z) :
  checkpoint_name model_dir "wl2" e <> checkpoint_name model_dir "dice" e'.
Proof.
  unfold checkpoint_name. rewrite !path_join_relative by reflexivity.
  intros E. apply append_cancel_l in E. apply append_cancel_l in E.
  discriminate.
Qed.

(** ** The checkpoints of a run, returning or raising *)

Lemma epochs_from_app (first : Z) (n k : nat) :
  epochs_from first (n + k) = epochs_from first n ++ epochs_from (first + Z.of_nat n) k.
Proof.
  revert first. induction n as [|n IH]; intros first.
  - simpl. f_equal. lia.
  - cbn [Nat.add epochs_from app]. rewrite IH. do 3 f_equal. lia.
Qed.

Lemma map_epochs_from_next {A} (f : Z -> A) (first : Z) (n : nat) :
  map f (epochs_from (first + 1) n) = map (fun e => f (e + 1)) (epochs_from first n).
Proof.
  revert first. induction n as [|n IH]; intros first; [reflexivity|].
  simpl. now rewrite IH.
Qed.

Lemma epochs_from_prefix {A} (f : Z -> A) (first : Z) (k n : nat) :
  (k <= n)%nat ->
  exists rest, map f (epochs_from first n) = map f (epochs_from first k) ++ rest.
Proof.
  intros H. replace n with (k + (n - k))%nat by lia.
  rewrite epochs_from_app, map_app. eauto.
Qed.

Lemma NoDup_epochs_from (first : Z) (n : nat) : List.NoDup (epochs_from first n).
Proof.
  revert first. induction n as [|n IH]; intros first; simpl; constructor; [|apply IH].
  rewrite in_epochs_from. lia.
Qed.

Section PhaseCheckpoints.

Context {X : Externals}.

Variables (md ld tag : string).

Hypothesis md_brace_free : brace_free md = true.
Hypothesis tag_of_phase : tag = "wl2" \/ tag = "dice".

(** The callbacks of an epoch ask for the checkpoint of the epoch, and for
    no other, whether they return or raise. *)
Lemma callbacks_checkpoints (m : KModel X) (e : Z) (w : World X) :
  checkpoints (trace (callbacks_on_epoch_end X m e (train_callbacks md ld tag) w))
  = [checkpoint_name md tag (e + 1)].
Proof.
  unfold train_callbacks.
  destruct (String.eqb tag "dice"); simpl; unfold on_epoch_end;
    rewrite (format_save_file_name _ _ _ md_brace_free tag_of_phase);
    unfold mbind, M_bind, bind, call;
    destruct (save_weights X m _ w) as [[e1|[]] w1]; simpl; try reflexivity.
  now destruct (write_summaries X m ld e w1) as [[e2|[]] w2].
Qed.

(** The checkpoints of a loop of [n] epochs are those of its first [k]
    epochs, for some [k] up to [n]. *)
Lemma epoch_loop_checkpoints (m : KModel X) (g : Batches X) (steps : Z)
    (n : nat) (e : Z) (w : World X) :
  exists k, (k <= n)%nat
    /\ checkpoints (trace (epoch_loop X m g steps (train_callbacks md ld tag) n e w))
       = map (checkpoint_name md tag) (epochs_from (e + 1) k).
Proof.
  revert e w. induction n as [|n IH]; intros e w; [exists 0%nat; now split|].
  rewrite epoch_loop_next, build_bind. cbn [trace].
  pose proof (emits_run_steps_kind m g e 0 (Z.to_nat steps) w) as Hsteps.
  assert (Hq : checkpoints (trace (run_steps X m g e 0 (Z.to_nat steps) w)) = []).
  { apply checkpoints_quiet. eapply Forall_impl; [exact Hsteps|].
    intros ev Hev. now destruct ev. }
  change (Epoch_begin m e :: ?l) with ([Epoch_begin m e] ++ l).
  destruct (result (run_steps X m g e 0 (Z.to_nat steps) w)) as [e1|[]] eqn:H1.
  { rewrite (bind_failed _ _ _ _ H1). cbn [trace]. exists 0%nat.
    rewrite checkpoints_app, Hq. split; [lia | reflexivity]. }
  rewrite (bind_passed _ _ _ _ H1). cbn [trace].
  set (w1 := world (run_steps X m g e 0 (Z.to_nat steps) w)).
  pose proof (callbacks_checkpoints m e w1) as Hc.
  destruct (result (callbacks_on_epoch_end X m e (train_callbacks md ld tag) w1))
    as [e2|[]] eqn:H2.
  { rewrite (bind_failed _ _ _ _ H2). cbn [trace]. exists 1%nat.
    rewrite !checkpoints_app, Hq, Hc. split; [lia | reflexivity]. }
  rewrite (bind_passed _ _ _ _ H2). cbn [trace].
  destruct (IH (e + 1) (world (callbacks_on_epoch_end X m e (train_callbacks md ld tag) w1)))
    as (k & Hk & IHc).
  exists (S k). split; [lia|].
  change (build (Epoch_end m e) (inr tt) ;; ?f) with (build (Epoch_end m e) (inr tt) ≫= fun _ => f).
  rewrite build_bind. cbn [trace].
  change (Epoch_end m e :: ?l) with ([Epoch_end m e] ++ l).
  rewrite !checkpoints_app, Hq, Hc, IHc. reflexivity.
Qed.

Variables (m : KModel X) (g : Batches X) (rate decay : pyval) (n steps init : Z).

Variable pre : M X unit.

Hypothesis pre_loads : emits (fun ev => is_load ev = true) pre.

Lemma phase_checkpoints (w : World X) :
  exists k, (k <= Z.to_nat (n - init))%nat
    /\ checkpoints (trace ((pre ;; train_model X m g rate decay n steps md ld tag init) w))
       = map (checkpoint_name md tag) (epochs_from (init + 1) k).
Proof.
  pose proof (pre_loads w) as Hp.
  assert (Hq : checkpoints (trace (pre w)) = []).
  { apply checkpoints_quiet. eapply Forall_impl; [exact Hp|]. intros ev Hev. now destruct ev. }
  destruct (result (pre w)) as [e|[]] eqn:Hr.
  - rewrite (bind_failed _ _ _ _ Hr). cbn [trace]. exists 0%nat. split; [lia | exact Hq].
  - rewrite (bind_passed _ _ _ _ Hr). cbn [trace].
    rewrite train_model_run. cbv zeta. cbn [trace].
    destruct (epoch_loop_checkpoints m g steps (Z.to_nat (n - init)) init
                (set_optimizer X m (Adam rate decay) (world (pre w)))) as (k & Hk & Hc).
    exists k. split; [exact Hk|].
    change (Call_compile ?x ?y ?z ?t :: Call_fit_generator ?x ?g' ?n' ?s ?c ?i :: ?l)
      with ([Call_compile x y z t; Call_fit_generator x g' n' s c i] ++ l).
    now rewrite !checkpoints_app, Hq, Hc.
Qed.

End PhaseCheckpoints.

Section RunCheckpoints.

Context {X : Externals}.

Variable a : training_args.

Hypothesis model_dir_brace_free : brace_free (model_dir a) = true.

Local Abbreviation logs := (path_join (model_dir a) "logs").

Local Abbreviation wl2_names :=
  (map (fun e => checkpoint_name (model_dir a) "wl2" (e + 1)) (wl2_schedule a)).

Local Abbreviation dice_names :=
  (map (fun e => checkpoint_name (model_dir a) "dice" (e + 1)) (dice_schedule a)).

Lemma wl2_phase_checkpoints sl u tg (w : World X) :
  exists rest, wl2_names = checkpoints (trace (wl2_phase X a sl u tg logs w)) ++ rest.
Proof.
  unfold wl2_schedule, phase_epochs.
  destruct (Z_lt_le_dec 0 (wl2_epochs a)) as [Hw|Hw].
  2:{ rewrite (wl2_phase_skipped a _ _ _ _ _ Hw).
      assert (E : (0 <? wl2_epochs a) = false) by now apply Z.ltb_ge.
      rewrite E. now exists []. }
  rewrite (wl2_phase_run a _ _ _ _ _ Hw). cbv zeta.
  apply Z.ltb_lt in Hw. rewrite Hw.
  destruct (Model_up_to X u _) as [e|m1]; [simpl; eauto|].
  destruct (metrics_model X sl m1 _) as [e|m2]; [simpl; eauto|].
  cbn [trace].
  destruct (phase_checkpoints (model_dir a) logs "wl2" model_dir_brace_free (or_introl eq_refl)
              m2 tg (lr a) (lr_decay a) (wl2_epochs a) (steps_per_epoch a)
              (initial_epoch_wl2 a) _ (wl2_load_emits a m2) w) as (k & Hk & Hc).
  change (checkpoints (?c1 :: ?c2 :: ?l)) with (checkpoints ([c1; c2] ++ l)).
  rewrite checkpoints_app, Hc. simpl app.
  rewrite <- !map_epochs_from_next. now apply epochs_from_prefix.
Qed.

Lemma wl2_phase_returns sl u tg (w : World X) :
  result (wl2_phase X a sl u tg logs w) = inr tt ->
  checkpoints (trace (wl2_phase X a sl u tg logs w)) = wl2_names
  /\ epochs_ended (trace (wl2_phase X a sl u tg logs w)) = wl2_schedule a.
Proof.
  unfold wl2_schedule, phase_epochs.
  destruct (Z_lt_le_dec 0 (wl2_epochs a)) as [Hw|Hw].
  2:{ rewrite (wl2_phase_skipped a _ _ _ _ _ Hw).
      assert (E : (0 <? wl2_epochs a) = false) by now apply Z.ltb_ge.
      rewrite E. now split. }
  rewrite (wl2_phase_run a _ _ _ _ _ Hw). cbv zeta.
  apply Z.ltb_lt in Hw. rewrite Hw.
  destruct (Model_up_to X u _) as [e|m1]; [discriminate|].
  destruct (metrics_model X sl m1 _) as [e|m2]; [discriminate|].
  cbn [trace result]. intros Hr.
  destruct (phase_returns (model_dir a) logs "wl2"
              m2 tg (lr a) (lr_decay a) (wl2_epochs a) (steps_per_epoch a)
              (initial_epoch_wl2 a) _ (wl2_load_emits a m2)
              model_dir_brace_free (or_introl eq_refl) w Hr) as [He Hc].
  change (checkpoints (?c1 :: ?c2 :: ?l)) with (checkpoints ([c1; c2] ++ l)).
  change (epochs_ended (?c1 :: ?c2 :: ?l)) with (epochs_ended ([c1; c2] ++ l)).
  rewrite checkpoints_app, epochs_ended_app, Hc, He, map_epochs_from_next. now split.
Qed.

Lemma dice_phase_checkpoints sl u tg (w : World X) :
  exists rest, dice_names = checkpoints (trace (dice_phase X a sl u tg logs w)) ++ rest.
Proof.
  unfold dice_schedule, phase_epochs.
  destruct (Z_lt_le_dec 0 (dice_epochs a)) as [Hd|Hd].
  2:{ rewrite (dice_phase_skipped a _ _ _ _ _ Hd).
      assert (E : (0 <? dice_epochs a) = false) by now apply Z.ltb_ge.
      rewrite E. now exists []. }
  rewrite (dice_phase_run a _ _ _ _ _ Hd). cbv zeta.
  apply Z.ltb_lt in Hd. rewrite Hd.
  destruct (metrics_model X sl u None) as [e|m]; [simpl; eauto|].
  cbn [trace].
  destruct (phase_checkpoints (model_dir a) logs "dice" model_dir_brace_free (or_intror eq_refl)
              m tg (lr a) (lr_decay a) (dice_epochs a) (steps_per_epoch a)
              (initial_epoch_dice a) _ (dice_load_emits a m) w) as (k & Hk & Hc).
  change (checkpoints (?c1 :: ?l)) with (checkpoints ([c1] ++ l)).
  rewrite checkpoints_app, Hc. simpl app.
  rewrite <- !map_epochs_from_next. now apply epochs_from_prefix.
Qed.

Lemma dice_phase_returns sl u tg (w : World X) :
  result (dice_phase X a sl u tg logs w) = inr tt ->
  checkpoints (trace (dice_phase X a sl u tg logs w)) = dice_names
  /\ epochs_ended (trace (dice_phase X a sl u tg logs w)) = dice_schedule a.
Proof.
  unfold dice_schedule, phase_epochs.
  destruct (Z_lt_le_dec 0 (dice_epochs a)) as [Hd|Hd].
  2:{ rewrite (dice_phase_skipped a _ _ _ _ _ Hd).
      assert (E : (0 <? dice_epochs a) = false) by now apply Z.ltb_ge.
      rewrite E. now split. }
  rewrite (dice_phase_run a _ _ _ _ _ Hd). cbv zeta.
  apply Z.ltb_lt in Hd. rewrite Hd.
  destruct (metrics_model X sl u None) as [e|m]; [discriminate|].
  cbn [trace result]. intros Hr.
  destruct (phase_returns (model_dir a) logs "dice"
              m tg (lr a) (lr_decay a) (dice_epochs a) (steps_per_epoch a)
              (initial_epoch_dice a) _ (dice_load_emits a m)
              model_dir_brace_free (or_intror eq_refl) w Hr) as [He Hc].
  change (checkpoints (?c1 :: ?l)) with (checkpoints ([c1] ++ l)).
  change (epochs_ended (?c1 :: ?l)) with (epochs_ended ([c1] ++ l)).
  rewrite checkpoints_app, epochs_ended_app, Hc, He, map_epochs_from_next. now split.
Qed.

Lemma prepare_quiet (w : World X) :
  checkpoints (trace (prepare X a w)) = [] /\ epochs_ended (trace (prepare X a w)) = [].
Proof.
  split; [apply checkpoints_quiet | apply epochs_ended_quiet];
    (eapply Forall_impl; [apply prepare_log|]; intros ev Hev; now destruct ev).
Qed.

(** The checkpoints of a run are the first of the checkpoints of its
    schedule. *)
Lemma run_checkpoints (w : World X) :
  exists rest, expected_checkpoints a = checkpoints (trace (training X a w)) ++ rest.
Proof.
  destruct ((0 <? wl2_epochs a) || (0 <? dice_epochs a)) eqn:Hc.
  2:{ rewrite (training_unchecked a w Hc). simpl. eauto. }
  destruct (training_parts a w Hc) as (t1 & t2 & Ht & Hcases).
  destruct (prepare_quiet w) as [Hq _].
  rewrite Ht, !checkpoints_app, Hq. simpl app. unfold expected_checkpoints.
  destruct Hcases as [(-> & [-> | (sl & u & tg & w1 & ->)] & _)
                     | (sl & u & tg & w1 & -> & Hr & -> & _)].
  - simpl. eauto.
  - destruct (wl2_phase_checkpoints sl u tg w1) as (rest & ->).
    exists (rest ++ dice_names). simpl checkpoints at 2. now rewrite app_nil_r, <- app_assoc.
  - destruct (wl2_phase_returns sl u tg w1 Hr) as [-> _].
    destruct (dice_phase_checkpoints sl u tg (world (wl2_phase X a sl u tg logs w1)))
      as (rest & ->).
    exists rest. now rewrite <- app_assoc.
Qed.

Lemma run_returns (w : World X) :
  result (training X a w) = inr tt ->
  checkpoints (trace (training X a w)) = expected_checkpoints a
  /\ epochs_ended (trace (training X a w)) = wl2_schedule a ++ dice_schedule a.
Proof.
  intros Hr.
  destruct ((0 <? wl2_epochs a) || (0 <? dice_epochs a)) eqn:Hc.
  2:{ rewrite (training_unchecked a w Hc) in Hr. discriminate. }
  destruct (training_parts a w Hc) as (t1 & t2 & Ht & Hcases).
  destruct (prepare_quiet w) as [Hq He].
  rewrite Ht, !checkpoints_app, !epochs_ended_app, Hq, He. simpl app.
  destruct Hcases as [(_ & _ & e & Hf) | (sl & u & tg & w1 & -> & Hw & -> & Hres)];
    [congruence|].
  rewrite Hres in Hr.
  destruct (wl2_phase_returns sl u tg w1 Hw) as [-> ->].
  destruct (dice_phase_returns sl u tg _ Hr) as [-> ->].
  now split.
Qed.

Lemma NoDup_expected_checkpoints : List.NoDup (expected_checkpoints a).
Proof.
  unfold expected_checkpoints. apply List.NoDup_app.
  - apply List.NoDup_map_NoDup_ForallPairs.
    + intros e e' _ _ E. apply checkpoint_name_injective in E. lia.
    + unfold wl2_schedule, phase_epochs.
      destruct (0 <? wl2_epochs a); [apply NoDup_epochs_from | constructor].
  - apply List.NoDup_map_NoDup_ForallPairs.
    + intros e e' _ _ E. apply checkpoint_name_injective in E. lia.
    + unfold dice_schedule, phase_epochs.
      destruct (0 <? dice_epochs a); [apply NoDup_epochs_from | constructor].
  - intros f H1 H2. apply in_map_iff in H1 as (e & <- & _).
    apply in_map_iff in H2 as (e' & E & _). symmetry in E.
    now apply checkpoint_name_phases in E.
Qed.

End RunCheckpoints.

(** ** The handoff from the warm-up to the fine-tuning *)

(** A list is cut in one way only around its one entry that satisfies [P]. *)
Lemma split_at_unique {A : Type} (P : A -> bool) (l1 l2 l1' l2' : list A) (x x' : A) :
  Forall (fun y => P y = false) l1' -> Forall (fun y => P y = false) l2' ->
  P x = true -> P x' = true ->
  l1 ++ x :: l2 = l1' ++ x' :: l2' -> l1 = l1' /\ x = x' /\ l2 = l2'.
Proof.
  intros H1 H2 Hx Hx'. revert l1.
  induction H1 as [|y l1' Hy _ IH]; intros [|z l1]; simpl; intros E.
  - now injection E as -> ->.
  - injection E as -> E. rewrite List.Forall_forall in H2.
    assert (Hin : In x l2') by (rewrite <- E; apply in_elt).
    specialize (H2 _ Hin). congruence.
  - injection E as -> _. congruence.
  - injection E as -> E. destruct (IH _ E) as (-> & -> & ->). auto.
Qed.

Section Handoff.

Context {X : Externals}.

Variable a : training_args.

Local Abbreviation logs := (path_join (model_dir a) "logs").

Lemma train_model_no_handoff (m : KModel X) (g : Batches X) rate decay n steps md ld tag init
    (w : World X) :
  Forall (fun ev => is_handoff ev = false)
    (trace (train_model X m g rate decay n steps md ld tag init w)).
Proof.
  rewrite train_model_run. cbv zeta. cbn [trace]. repeat constructor.
  eapply Forall_impl; [apply emits_epoch_loop_kind|]. intros ev Hev. now destruct ev.
Qed.

Lemma prepare_no_handoff (w : World X) :
  Forall (fun ev => is_handoff ev = false) (trace (prepare X a w)).
Proof. eapply Forall_impl; [apply prepare_log|]. intros ev Hev. now destruct ev. Qed.

Lemma wl2_phase_no_handoff sl u tg ld (w : World X) :
  Forall (fun ev => is_handoff ev = false) (trace (wl2_phase X a sl u tg ld w)).
Proof.
  revert w. change (emits (fun ev : event X => is_handoff ev = false) (wl2_phase X a sl u tg ld)).
  unfold wl2_phase. destruct (0 <? wl2_epochs a); [| apply emits_ret].
  repeat emits_step; try reflexivity.
  - destruct (load_model_file a); [now apply emits_call | apply emits_ret].
  - eapply emits_weaken; [| apply emits_epoch_loop_kind]. intros ev H. now destruct ev.
Qed.

(** The log of the fine-tuning holds at most one load by name, of the last
    warm-up checkpoint, right after the request for the dice model. *)
Lemma dice_phase_handoff sl u tg (w : World X) :
  let t := trace (dice_phase X a sl u tg logs w) in
  Forall (fun ev => is_handoff ev = false) t
  \/ exists dm rest,
       t = Call_metrics_model sl u None
           :: Call_load_weights dm (checkpoint_name (model_dir a) "wl2" (wl2_epochs a)) true
           :: rest
       /\ Forall (fun ev => is_handoff ev = false) rest.
Proof.
  destruct (Z_lt_le_dec 0 (dice_epochs a)) as [Hd|Hd].
  2:{ rewrite (dice_phase_skipped a _ _ _ _ _ Hd). left. constructor. }
  rewrite (dice_phase_run a _ _ _ _ _ Hd). cbv zeta.
  destruct (metrics_model X sl u None) as [e|dm]; [left; now repeat constructor|].
  cbn [trace].
  match goal with |- context [trace ((?pre ;; ?train) w)] =>
    destruct (bind_trace pre (fun _ => train) w) as (rest & -> & Hrest)
  end.
  assert (Hr : Forall (fun ev : event X => is_handoff ev = false) rest).
  { destruct Hrest as [-> | ([] & _ & ->)]; [constructor | apply train_model_no_handoff]. }
  destruct (0 <? wl2_epochs a).
  - right. rewrite load_weights_trace. now exists dm, rest.
  - left. constructor; [reflexivity|]. apply Forall_app. split; [|exact Hr].
    destruct (load_model_file a); [rewrite load_weights_trace; now repeat constructor|].
    constructor.
Qed.

End Handoff.

Section HandoffOfRun.

Context {X : Externals}.

Variable a : training_args.

Local Abbreviation logs := (path_join (model_dir a) "logs").

(** A load by name cuts the log after the warm-up, which returned, and the
    request for the dice model. *)
Lemma run_handoff (w : World X) l1 m f l2 :
  trace (training X a w) = l1 ++ Call_load_weights m f true :: l2 ->
  f = checkpoint_name (model_dir a) "wl2" (wl2_epochs a)
  /\ Forall (fun ev => is_handoff ev = false) l1
  /\ Forall (fun ev => is_handoff ev = false) l2
  /\ exists sl u tg w1,
       result (wl2_phase X a sl u tg logs w1) = inr tt
       /\ l1 = trace (prepare X a w) ++ trace (wl2_phase X a sl u tg logs w1)
               ++ [Call_metrics_model sl u None].
Proof.
  intros E.
  destruct ((0 <? wl2_epochs a) || (0 <? dice_epochs a)) eqn:Hc.
  2:{ rewrite (training_unchecked a w Hc) in E. now destruct l1. }
  destruct (training_parts a w Hc) as (t1 & t2 & Ht & Hcases).
  assert (Hin : In (Call_load_weights m f true) (trace (training X a w)))
    by (rewrite E; apply in_elt).
  assert (Hquiet : forall l : list (event X),
             Forall (fun ev => is_handoff ev = false) l ->
             ~ In (Call_load_weights m f true) l).
  { intros l Hl H. rewrite List.Forall_forall in Hl. now specialize (Hl _ H). }
  pose proof (prepare_no_handoff a w) as Hp.
  destruct Hcases as [(-> & Ht1 & _) | (sl & u & tg & w1 & -> & Hr & -> & _)].
  { exfalso. rewrite Ht, app_nil_r in Hin. apply (Hquiet (trace (prepare X a w) ++ t1)); [|exact Hin].
    apply Forall_app. split; [exact Hp|].
    destruct Ht1 as [-> | (sl & u & tg & w1 & ->)];
      [constructor | apply wl2_phase_no_handoff]. }
  pose proof (wl2_phase_no_handoff a sl u tg logs w1) as Hw.
  destruct (dice_phase_handoff a sl u tg (world (wl2_phase X a sl u tg logs w1)))
    as [Hd | (dm & rest & Hd & Hrest)].
  { exfalso. rewrite Ht in Hin. apply (Hquiet _ (proj2 (Forall_app _ _ _)
      (conj Hp (proj2 (Forall_app _ _ _) (conj Hw Hd)))) Hin). }
  rewrite Ht, Hd in E.
  change (trace (prepare X a w) ++ trace (wl2_phase X a sl u tg logs w1)
          ++ Call_metrics_model sl u None :: ?x :: rest)
    with (trace (prepare X a w) ++ trace (wl2_phase X a sl u tg logs w1)
          ++ [Call_metrics_model sl u None] ++ x :: rest) in E.
  rewrite !app_assoc in E.
  assert (H1 : Forall (fun ev : event X => is_handoff ev = false)
                 ((trace (prepare X a w) ++ trace (wl2_phase X a sl u tg logs w1))
                  ++ [Call_metrics_model sl u None])).
  { apply Forall_app. split; [apply Forall_app; now split | now repeat constructor]. }
  symmetry in E.
  apply (split_at_unique is_handoff) in E;
    [| exact H1 | exact Hrest | reflexivity | reflexivity].
  destruct E as (-> & [= -> ->] & ->).
  split; [reflexivity|]. split; [exact H1|]. split; [exact Hrest|].
  exists sl, u, tg, w1. split; [exact Hr|]. now rewrite <- app_assoc.
Qed.

Lemma last_epochs_from (first : Z) (n : nat) :
  (0 < n)%nat -> last (epochs_from first n) = Some (first + Z.of_nat n - 1).
Proof.
  intros H. replace n with ((n - 1) + 1)%nat at 1 by lia.
  rewrite epochs_from_app. simpl epochs_from at 2. rewrite last_snoc. f_equal. lia.
Qed.

Lemma last_map {A B : Type} (f : A -> B) (l : list A) :
  last (map f l) = option_map f (last l).
Proof.
  induction l as [|x [|y l] IH]; [reflexivity..|]. exact IH.
Qed.

(** A warm-up asked to start at or after its last epoch runs no epoch. *)
Lemma wl2_phase_idle sl u tg ld (w : World X) :
  wl2_epochs a <= initial_epoch_wl2 a ->
  Forall (fun ev => is_epoch_event ev = false) (trace (wl2_phase X a sl u tg ld w)).
Proof.
  intros Hi.
  destruct (Z_lt_le_dec 0 (wl2_epochs a)) as [Hw|Hw].
  2:{ rewrite (wl2_phase_skipped a _ _ _ _ _ Hw). constructor. }
  rewrite (wl2_phase_run a _ _ _ _ _ Hw). cbv zeta.
  destruct (Model_up_to X u _) as [e|m1]; [now repeat constructor|].
  destruct (metrics_model X sl m1 _) as [e|m2]; [now repeat constructor|].
  cbn [trace]. constructor; [reflexivity|]. constructor; [reflexivity|].
  match goal with |- context [trace ((?pre ;; ?train) w)] =>
    destruct (bind_trace pre (fun _ => train) w) as (rest & -> & Hrest)
  end.
  apply Forall_app. split.
  - destruct (load_model_file a); [rewrite load_weights_trace; now repeat constructor|].
    constructor.
  - destruct Hrest as [-> | ([] & _ & ->)]; [constructor|].
    rewrite train_model_run. cbv zeta. cbn [trace].
    replace (Z.to_nat (wl2_epochs a - initial_epoch_wl2 a)) with 0%nat by lia.
    now repeat constructor.
Qed.

End HandoffOfRun.

(** ** The checkpoint files of a run *)

(** X1.  The checkpoints of a run follow its schedule.  In every run whose
    model directory has no brace in it, returning or raising, the checkpoint
    files asked for are, in order, the first of [expected_checkpoints]:
    [model_dir/wl2_<e + 1>.h5] for the epochs [e] of the warm-up from
    [initial_epoch_wl2] to [wl2_epochs - 1], then [model_dir/dice_<e + 1>.h5]
    for the epochs of the fine-tuning from [initial_epoch_dice] to
    [dice_epochs - 1].  A run that returns has asked for all of them and has
    ended exactly the epochs of the two schedules, the warm-up first. *)
Theorem checkpoints_follow_schedule (X : Externals) (a : training_args) (w : World X) :
  brace_free (model_dir a) = true ->
  (exists rest, expected_checkpoints a = checkpoints (trace (training X a w)) ++ rest)
  /\ (result (training X a w) = inr tt ->
      checkpoints (trace (training X a w)) = expected_checkpoints a
      /\ epochs_ended (trace (training X a w)) = wl2_schedule a ++ dice_schedule a).
Proof.
  intros Hb. split; [now apply run_checkpoints | now apply run_returns].
Qed.

Lemma checkpoints_follow_schedule_witness :
  checkpoints (trace (training Demo.X Resumption.warmup_resumed Scenario.files))
  = ["models/wl2_002.h5"; "models/wl2_003.h5"; "models/dice_001.h5"; "models/dice_002.h5"]
  /\ epochs_ended (trace (training Demo.X Resumption.warmup_resumed Scenario.files))
     = [1; 2; 0; 1].
Proof.
  assert (Hr : result (training Demo.X Resumption.warmup_resumed Scenario.files) = inr tt)
    by (vm_compute; reflexivity).
  destruct (checkpoints_follow_schedule Demo.X Resumption.warmup_resumed Scenario.files
              eq_refl) as [_ H].
  destruct (H Hr) as [-> ->]. split; reflexivity.
Defined.

(** X2.  No checkpoint is written twice.  In every run whose model directory
    has no brace in it, the checkpoint files asked for are pairwise
    different: two epochs of a phase are formatted to different numbers, and
    the files of the warm-up and of the fine-tuning differ by their prefix. *)
Theorem checkpoints_never_overwritten (X : Externals) (a : training_args) (w : World X) :
  brace_free (model_dir a) = true ->
  List.NoDup (checkpoints (trace (training X a w))).
Proof.
  intros Hb. destruct (run_checkpoints a Hb w) as (rest & E).
  apply (List.NoDup_app_remove_r _ rest). rewrite <- E. apply NoDup_expected_checkpoints.
Qed.

Lemma checkpoints_never_overwritten_witness :
  List.NoDup (checkpoints (trace (training Demo.X Scenario.resumed Scenario.files))).
Proof.
  apply (checkpoints_never_overwritten Demo.X Scenario.resumed Scenario.files). reflexivity.
Defined.

(** X3.  The dice model starts from the checkpoint the warm-up has just
    written.  With [initial_epoch_wl2 < wl2_epochs] and a model directory
    without braces, wherever a run loads weights by name, the file is
    [model_dir/wl2_<wl2_epochs>.h5] and it is the last checkpoint written
    before that load, in the same run; there is no other load by name,
    before or after. *)
Theorem handoff_reads_last_warmup_checkpoint (X : Externals) (a : training_args)
    (w : World X) :
  brace_free (model_dir a) = true ->
  initial_epoch_wl2 a < wl2_epochs a ->
  forall l1 m f l2,
    trace (training X a w) = l1 ++ Call_load_weights m f true :: l2 ->
    f = path_join (model_dir a) ("wl2_" +:+ fmt_03d (wl2_epochs a) +:+ ".h5")
    /\ last (checkpoints l1) = Some f
    /\ Forall (fun ev => is_handoff ev = false) l1
    /\ Forall (fun ev => is_handoff ev = false) l2.
Proof.
  intros Hb Hk l1 m f l2 E.
  assert (Hin : In (Call_load_weights m f true) (trace (training X a w)))
    by (rewrite E; apply in_elt).
  pose proof (emits_training a w) as He. rewrite List.Forall_forall in He.
  destruct (He _ Hin) as [[? _] | (_ & _ & Hw & _)]; [discriminate|].
  destruct (run_handoff a w l1 m f l2 E) as (-> & H1 & H2 & sl & u & tg & w1 & Hr & ->).
  split; [reflexivity|]. split; [|now split].
  destruct (prepare_quiet a w) as [Hq _].
  destruct (wl2_phase_returns a Hb sl u tg w1 Hr) as [Hc _].
  rewrite !checkpoints_app, Hq, Hc. simpl. rewrite app_nil_r.
  unfold wl2_schedule, phase_epochs. apply Z.ltb_lt in Hw. rewrite Hw.
  rewrite last_map, last_epochs_from by lia. simpl. do 2 f_equal. lia.
Qed.

Lemma handoff_reads_last_warmup_checkpoint_witness :
  exists l1 m l2,
    trace (training Demo.X Resumption.warmup_resumed Scenario.files)
    = l1 ++ Call_load_weights m "models/wl2_003.h5" true :: l2
    /\ last (checkpoints l1) = Some "models/wl2_003.h5".
Proof.
  assert (H : existsb is_handoff
                (trace (training Demo.X Resumption.warmup_resumed Scenario.files)) = true)
    by (vm_compute; reflexivity).
  apply existsb_exists in H as (ev & Hin & Hev).
  destruct ev as [| | | | | | | m f by_name | | | | | | |]; try discriminate.
  destruct by_name; [|discriminate].
  apply in_split in Hin as (l1 & l2 & E).
  assert (Hk : initial_epoch_wl2 Resumption.warmup_resumed
               < wl2_epochs Resumption.warmup_resumed) by reflexivity.
  destruct (handoff_reads_last_warmup_checkpoint Demo.X Resumption.warmup_resumed
              Scenario.files eq_refl Hk l1 m f l2 E) as (Hf & Hlast & _).
  exists l1, m, l2. split.
  - rewrite E, Hf. reflexivity.
  - rewrite Hlast, Hf. reflexivity.
Defined.

(** X4.  A warm-up resumed at or past its last epoch
    ([wl2_epochs <= initial_epoch_wl2]) runs no epoch: before the request for
    the dice model the log holds no epoch, no batch, no checkpoint and no
    summary, in any run.  The dice model is still handed
    [model_dir/wl2_<wl2_epochs>.h5] by name: wherever that load is, no
    checkpoint has been written before it, so the file is not one of this
    run. *)
Theorem warmup_resumed_past_its_end (X : Externals) (a : training_args) (w : World X) :
  wl2_epochs a <= initial_epoch_wl2 a ->
  Forall (fun ev => is_epoch_event ev = false) (wl2_part (trace (training X a w)))
  /\ forall l1 m f l2,
       trace (training X a w) = l1 ++ Call_load_weights m f true :: l2 ->
       f = path_join (model_dir a) ("wl2_" +:+ fmt_03d (wl2_epochs a) +:+ ".h5")
       /\ checkpoints l1 = []
       /\ epochs_ended l1 = []
       /\ train_steps l1 = [].
Proof.
  intros Hk.
  assert (Hp : Forall (fun ev : event X => is_epoch_event ev = false) (trace (prepare X a w))).
  { eapply Forall_impl; [apply prepare_log|]. intros ev Hev. now destruct ev. }
  split.
  - destruct ((0 <? wl2_epochs a) || (0 <? dice_epochs a)) eqn:Hc.
    2:{ rewrite (training_unchecked a w Hc). constructor. }
    destruct (training_split a w Hc) as (t1 & t2 & _ & -> & _ & Hcases).
    apply Forall_app. split; [exact Hp|].
    destruct Hcases as [(_ & [-> | (sl & u & tg & w1 & ->)] & _)
                       | (sl & u & tg & w1 & -> & _)];
      [constructor | now apply wl2_phase_idle | now apply wl2_phase_idle].
  - intros l1 m f l2 E.
    destruct (run_handoff a w l1 m f l2 E) as (-> & _ & _ & sl & u & tg & w1 & _ & ->).
    split; [reflexivity|].
    assert (Hq : Forall (fun ev : event X => is_epoch_event ev = false)
                   (trace (prepare X a w)
                    ++ trace (wl2_phase X a sl u tg (path_join (model_dir a) "logs") w1)
                    ++ [Call_metrics_model sl u None])).
    { apply Forall_app. split; [exact Hp|]. apply Forall_app.
      split; [now apply wl2_phase_idle | now repeat constructor]. }
    split; [|split].
    + apply checkpoints_quiet. eapply Forall_impl; [exact Hq|]. intros ev Hev. now destruct ev.
    + apply epochs_ended_quiet. eapply Forall_impl; [exact Hq|]. intros ev Hev. now destruct ev.
    + clear -Hq. induction Hq as [|ev l Hev _ IH]; [reflexivity|].
      unfold train_steps in *. simpl. rewrite IH. now destruct ev.
Qed.

Lemma warmup_resumed_past_its_end_witness :
  result (training Demo.X Resumption.past_warmup Scenario.files)
  = inl (OSError "models/wl2_002.h5")
  /\ exists l1 m l2,
       trace (training Demo.X Resumption.past_warmup Scenario.files)
       = l1 ++ Call_load_weights m "models/wl2_002.h5" true :: l2
       /\ checkpoints l1 = [].
Proof.
  split; [vm_compute; reflexivity|].
  assert (H : existsb is_handoff
                (trace (training Demo.X Resumption.past_warmup Scenario.files)) = true)
    by (vm_compute; reflexivity).
  apply existsb_exists in H as (ev & Hin & Hev).
  destruct ev as [| | | | | | | m f by_name | | | | | | |]; try discriminate.
  destruct by_name; [|discriminate].
  apply in_split in Hin as (l1 & l2 & E).
  assert (Hk : wl2_epochs Resumption.past_warmup
               <= initial_epoch_wl2 Resumption.past_warmup) by (simpl; lia).
  destruct (proj2 (warmup_resumed_past_its_end Demo.X Resumption.past_warmup
                     Scenario.files Hk) l1 m f l2 E) as (Hf & Hc & _).
  exists l1, m, l2. split; [rewrite E, Hf; reflexivity | exact Hc].
Defined.

(** ** The batches of a run *)

Section Batches.

Context {X : Externals}.

Lemma train_steps_app (l l' : list (event X)) :
  train_steps (l ++ l') = train_steps l ++ train_steps l'.
Proof. apply flat_map_app. Qed.

Lemma train_steps_quiet (l : list (event X)) :
  Forall (fun ev => is_train_step ev = false) l -> train_steps l = [].
Proof.
  induction 1 as [|ev l Hev _ IH]; [reflexivity|].
  unfold train_steps in *. simpl. rewrite IH. now destruct ev.
Qed.

(** The steps of an epoch that goes through are numbered from [done] on. *)
Lemma run_steps_returns (m : KModel X) (g : Batches X) (e : Z) (done todo : nat)
    (w : World X) :
  result (run_steps X m g e done todo w) = inr tt ->
  train_steps (trace (run_steps X m g e done todo w)) = map (pair e) (seq done todo).
Proof.
  revert done w. induction todo as [|todo IH]; intros done w; [reflexivity|].
  cbn [run_steps seq map].
  change (call ?ev ?op ;; ?f) with (call ev op ≫= fun _ => f).
  rewrite call_run.
  destruct (train_on_batch X m g w) as [[e1|[]] w1]; [discriminate|].
  cbn [trace result]. intros Hr.
  change (train_steps (Train_step m e done :: ?l)) with ((e, done) :: train_steps l).
  now rewrite (IH _ _ Hr).
Qed.

Lemma epoch_loop_steps (m : KModel X) (g : Batches X) (steps : Z) (cs : list callback)
    (n : nat) (e : Z) (w : World X) :
  result (epoch_loop X m g steps cs n e w) = inr tt ->
  train_steps (trace (epoch_loop X m g steps cs n e w))
  = flat_map (fun e => map (pair e) (seq 0 (Z.to_nat steps))) (epochs_from e n).
Proof.
  revert e w. induction n as [|n IH]; intros e w; [reflexivity|].
  rewrite epoch_loop_next, build_bind. cbn [trace result epochs_from flat_map].
  destruct (result (run_steps X m g e 0 (Z.to_nat steps) w)) as [e1|[]] eqn:H1.
  { rewrite (bind_failed _ _ _ _ H1). discriminate. }
  rewrite (bind_passed _ _ _ _ H1). cbn [trace result].
  set (w1 := world (run_steps X m g e 0 (Z.to_nat steps) w)).
  pose proof (emits_callbacks_kind m e cs w1) as Hcbs.
  destruct (result (callbacks_on_epoch_end X m e cs w1)) as [e2|[]] eqn:H2.
  { rewrite (bind_failed _ _ _ _ H2). discriminate. }
  rewrite (bind_passed _ _ _ _ H2). cbn [trace result].
  change (build (Epoch_end m e) (inr tt) ;; ?f) with (build (Epoch_end m e) (inr tt) ≫= fun _ => f).
  rewrite build_bind. cbn [trace result]. intros Hr.
  change (Epoch_begin m e :: ?l) with ([Epoch_begin m e] ++ l).
  change (Epoch_end m e :: ?l) with ([Epoch_end m e] ++ l).
  rewrite !train_steps_app, (run_steps_returns _ _ _ _ _ _ H1), (IH _ _ Hr).
  rewrite (train_steps_quiet (trace (callbacks_on_epoch_end _ _ _ _ _))); [reflexivity|].
  eapply Forall_impl; [exact Hcbs|]. intros ev Hev. now destruct ev.
Qed.

Variables (md ld tag : string).

Variables (m : KModel X) (g : Batches X) (rate decay : pyval) (n steps init : Z).

Variable pre : M X unit.

Hypothesis pre_loads : emits (fun ev => is_load ev = true) pre.

Lemma phase_steps (w : World X) :
  result ((pre ;; train_model X m g rate decay n steps md ld tag init) w) = inr tt ->
  train_steps (trace ((pre ;; train_model X m g rate decay n steps md ld tag init) w))
  = flat_map (fun e => map (pair e) (seq 0 (Z.to_nat steps)))
      (epochs_from init (Z.to_nat (n - init))).
Proof.
  intros H. apply bind_returns in H as ([] & Hr & H & ->).
  rewrite train_model_run in H |- *. cbv zeta in H |- *. cbn [trace result] in H |- *.
  pose proof (pre_loads w) as Hp.
  change (Call_compile ?x ?y ?z ?t :: Call_fit_generator ?x ?g' ?n' ?s ?c ?i :: ?l)
    with ([Call_compile x y z t; Call_fit_generator x g' n' s c i] ++ l).
  rewrite !train_steps_app, (epoch_loop_steps _ _ _ _ _ _ _ H).
  rewrite train_steps_quiet; [reflexivity|].
  eapply Forall_impl; [exact Hp|]. intros ev Hev. now destruct ev.
Qed.

End Batches.

Section BatchesOfRun.

Context {X : Externals}.

Variable a : training_args.

Local Abbreviation logs := (path_join (model_dir a) "logs").

Local Abbreviation steps_of :=
  (flat_map (fun e => map (pair e) (seq 0 (Z.to_nat (steps_per_epoch a))))).

Lemma wl2_phase_steps sl u tg ld (w : World X) :
  result (wl2_phase X a sl u tg ld w) = inr tt ->
  train_steps (trace (wl2_phase X a sl u tg ld w)) = steps_of (wl2_schedule a).
Proof.
  unfold wl2_schedule, phase_epochs.
  destruct (Z_lt_le_dec 0 (wl2_epochs a)) as [Hw|Hw].
  2:{ rewrite (wl2_phase_skipped a _ _ _ _ _ Hw).
      assert (E : (0 <? wl2_epochs a) = false) by now apply Z.ltb_ge.
      now rewrite E. }
  rewrite (wl2_phase_run a _ _ _ _ _ Hw). cbv zeta.
  apply Z.ltb_lt in Hw. rewrite Hw.
  destruct (Model_up_to X u _) as [e|m1]; [discriminate|].
  destruct (metrics_model X sl m1 _) as [e|m2]; [discriminate|].
  cbn [trace result]. intros Hr.
  change (train_steps (?c1 :: ?c2 :: ?l)) with (train_steps l).
  apply (phase_steps (model_dir a) ld "wl2"); [apply wl2_load_emits | exact Hr].
Qed.

Lemma dice_phase_steps sl u tg ld (w : World X) :
  result (dice_phase X a sl u tg ld w) = inr tt ->
  train_steps (trace (dice_phase X a sl u tg ld w)) = steps_of (dice_schedule a).
Proof.
  unfold dice_schedule, phase_epochs.
  destruct (Z_lt_le_dec 0 (dice_epochs a)) as [Hd|Hd].
  2:{ rewrite (dice_phase_skipped a _ _ _ _ _ Hd).
      assert (E : (0 <? dice_epochs a) = false) by now apply Z.ltb_ge.
      now rewrite E. }
  rewrite (dice_phase_run a _ _ _ _ _ Hd). cbv zeta.
  apply Z.ltb_lt in Hd. rewrite Hd.
  destruct (metrics_model X sl u None) as [e|m]; [discriminate|].
  cbn [trace result]. intros Hr.
  change (train_steps (?c1 :: ?l)) with (train_steps l).
  apply (phase_steps (model_dir a) ld "dice"); [apply dice_load_emits | exact Hr].
Qed.

Lemma run_steps_of_schedule (w : World X) :
  result (training X a w) = inr tt ->
  train_steps (trace (training X a w)) = steps_of (wl2_schedule a ++ dice_schedule a).
Proof.
  intros Hr.
  destruct ((0 <? wl2_epochs a) || (0 <? dice_epochs a)) eqn:Hc.
  2:{ rewrite (training_unchecked a w Hc) in Hr. discriminate. }
  destruct (training_parts a w Hc) as (t1 & t2 & Ht & Hcases).
  destruct Hcases as [(_ & _ & e & Hf) | (sl & u & tg & w1 & -> & Hw & -> & Hres)];
    [congruence|].
  rewrite Hres in Hr.
  rewrite Ht, !train_steps_app, flat_map_app.
  rewrite (wl2_phase_steps _ _ _ _ _ Hw), (dice_phase_steps _ _ _ _ _ Hr).
  rewrite train_steps_quiet; [reflexivity|].
  eapply Forall_impl; [apply prepare_log|]. intros ev Hev. now destruct ev.
Qed.

End BatchesOfRun.

Lemma length_steps_of (steps : nat) (epochs : list Z) :
  length (flat_map (fun e => map (pair e) (seq 0 steps)) epochs)
  = (steps * length epochs)%nat.
Proof.
  induction epochs as [|e epochs IH]; simpl; [lia|].
  rewrite length_app, length_map, length_seq, IH. lia.
Qed.

(** X5.  A run that returns has trained on exactly [steps_per_epoch] batches
    in each of its epochs, numbered from 0, the epochs of the warm-up first
    and those of the fine-tuning after: [steps_per_epoch] times the number of
    epochs of the two schedules in all (none when [steps_per_epoch] is not
    positive). *)
Theorem batches_follow_schedule (X : Externals) (a : training_args) (w : World X) :
  result (training X a w) = inr tt ->
  train_steps (trace (training X a w))
  = flat_map (fun e => map (pair e) (seq 0 (Z.to_nat (steps_per_epoch a))))
      (wl2_schedule a ++ dice_schedule a)
  /\ length (train_steps (trace (training X a w)))
     = (Z.to_nat (steps_per_epoch a)
        * (length (wl2_schedule a) + length (dice_schedule a)))%nat.
Proof.
  intros Hr. rewrite (run_steps_of_schedule a w Hr). split; [reflexivity|].
  now rewrite length_steps_of, length_app.
Qed.

Lemma batches_follow_schedule_witness :
  train_steps (trace (training Demo.X Scenario.resumed Scenario.files))
  = [(0, 0%nat); (0, 1%nat); (1, 0%nat); (1, 1%nat); (2, 0%nat); (2, 1%nat)].
Proof.
  assert (Hr : result (training Demo.X Scenario.resumed Scenario.files) = inr tt)
    by (vm_compute; reflexivity).
  destruct (batches_follow_schedule Demo.X Scenario.resumed Scenario.files Hr) as [-> _].
  reflexivity.
Defined.

(** ** One network for the two phases *)

Section SharedNetwork.

Context {X : Externals}.

Variable a : training_args.

Local Abbreviation logs := (path_join (model_dir a) "logs").

Lemma emits_epoch_loop_on_model (m : KModel X) (g : Batches X) steps cs n e :
  emits (on_model m g) (epoch_loop X m g steps cs n e).
Proof.
  eapply emits_weaken; [| apply emits_epoch_loop_kind]. intros ev H. now destruct ev.
Qed.

Lemma emits_train_model_on_model (m : KModel X) (g : Batches X) rate decay n steps md ld tag
    init :
  emits (on_model m g) (train_model X m g rate decay n steps md ld tag init).
Proof.
  unfold train_model, fit_generator, compile. repeat emits_step; simpl; auto.
  apply emits_epoch_loop_on_model.
Qed.

Lemma on_model_built_on (sl : list Z) (u : KModel X) (tg : Batches X) (m m0 : KModel X)
    (metrics : option string) (l : list (event X)) :
  metrics_model X sl m0 metrics = inr m ->
  Forall (on_model m tg) l -> Forall (built_on sl u tg) l.
Proof.
  intros Hm H. eapply Forall_impl; [exact H|]. intros ev Hev.
  destruct ev; simpl in Hev |- *; try exact I; try contradiction; subst; eauto.
  destruct Hev as [-> ->]. eauto.
Qed.

Lemma wl2_phase_built_on sl u tg ld (w : World X) :
  Forall (built_on sl u tg) (trace (wl2_phase X a sl u tg ld w)).
Proof.
  destruct (Z_lt_le_dec 0 (wl2_epochs a)) as [Hw|Hw].
  2:{ rewrite (wl2_phase_skipped a _ _ _ _ _ Hw). constructor. }
  rewrite (wl2_phase_run a _ _ _ _ _ Hw). cbv zeta.
  destruct (Model_up_to X u _) as [e|m1] eqn:H1; [now repeat constructor|].
  destruct (metrics_model X sl m1 _) as [e|m2] eqn:H2; [now repeat constructor|].
  cbn [trace]. constructor; [reflexivity|]. constructor; [now split|].
  apply (on_model_built_on sl u tg m2 m1 (Some "wl2")); [exact H2|].
  apply emits_bind; [| intros _; apply emits_train_model_on_model].
  destruct (load_model_file a); [now apply emits_call | apply emits_ret].
Qed.

Lemma dice_phase_built_on sl u tg ld (w : World X) :
  Forall (built_on sl u tg) (trace (dice_phase X a sl u tg ld w)).
Proof.
  destruct (Z_lt_le_dec 0 (dice_epochs a)) as [Hd|Hd].
  2:{ rewrite (dice_phase_skipped a _ _ _ _ _ Hd). constructor. }
  rewrite (dice_phase_run a _ _ _ _ _ Hd). cbv zeta.
  destruct (metrics_model X sl u None) as [e|m] eqn:H1; [now repeat constructor|].
  cbn [trace]. constructor; [now split|].
  apply (on_model_built_on sl u tg m u None); [exact H1|].
  apply emits_bind; [| intros _; apply emits_train_model_on_model].
  destruct (0 <? wl2_epochs a); [now apply emits_call|].
  destruct (load_model_file a); [now apply emits_call | apply emits_ret].
Qed.

Lemma prepare_built_on sl u tg (w : World X) :
  Forall (built_on sl u tg) (trace (prepare X a w)).
Proof. eapply Forall_impl; [apply prepare_log|]. intros ev Hev. now destruct ev. Qed.

(** What [prepare] returns is what its last two calls returned. *)
Lemma prepare_result (w : World X) sl u tg ld :
  result (prepare X a w) = inr (sl, u, tg, ld) ->
  exists pre ua ex,
    trace (prepare X a w)
    = pre ++ [Call_unet ua; Call_build_training_generator ex (batchsize a)]
    /\ Forall (fun ev => is_label_call ev = true \/ is_mkdir ev = true
                         \/ is_generator_call ev = true) pre
    /\ nrn_unet X ua = inr u
    /\ build_training_generator X ex (batchsize a) = inr tg.
Proof.
  rewrite prepare_run. cbv zeta.
  pose proof (get_label_lists_log a w) as Hl.
  destruct (result (get_label_lists X a w)) as [e|[[gl n] sl0]]; [discriminate|].
  destruct (mkdir X (model_dir a) _) as [[e|[]] w1]; [discriminate|].
  destruct (mkdir X logs w1) as [[e|[]] w2]; [discriminate|].
  destruct (new_BrainGenerator X _ w2) as [[e|gen] w3]; [discriminate|].
  destruct (nrn_unet X _) as [e|u0] eqn:Hu; [discriminate|].
  destruct (build_training_generator X _ _) as [e|tg0] eqn:Hg; [discriminate|].
  cbn [trace result]. intros [= -> -> -> _].
  exists (trace (get_label_lists X a w)
          ++ [Call_mkdir (model_dir a); Call_mkdir logs;
              Call_BrainGenerator (generator_args a gl sl n)]).
  exists (unet_args X a (model_output_shape X gen) (Z.of_nat (length sl))
            (labels_to_image_model X gen)), (model_inputs_generator X gen).
  split; [now rewrite <- app_assoc|].
  split; [|now split].
  apply Forall_app. split.
  - eapply Forall_impl; [exact Hl|]. auto.
  - constructor; [now right; left|]. constructor; [now right; left|].
    constructor; [now right; right | constructor].
Qed.

Lemma run_built_on (w : World X) sl u tg ld :
  result (prepare X a w) = inr (sl, u, tg, ld) ->
  Forall (built_on sl u tg) (trace (training X a w)).
Proof.
  intros Hp.
  destruct ((0 <? wl2_epochs a) || (0 <? dice_epochs a)) eqn:Hc.
  2:{ rewrite (training_unchecked a w Hc). constructor. }
  rewrite (training_checked a w Hc), (bind_passed _ _ _ _ Hp). cbn [trace].
  apply Forall_app. split; [apply prepare_built_on|].
  apply emits_bind; [intros w'; apply wl2_phase_built_on|].
  intros _ w'. apply dice_phase_built_on.
Qed.

End SharedNetwork.

(** X6.  The two phases train one network on one stream of batches.  When
    the setup of a run goes through, giving the segmentation labels [sl],
    the network [u] (what [nrn_models.unet] returned) and the batches [tg]
    (what [build_training_generator] returned), then in the whole log: the
    warm-up model is cut from [u] at [unet_likelihood] and the dice model
    wraps [u] itself; both loss heads are given [sl]; only models that come
    out of [metrics_model] are loaded, compiled and fitted, never the bare
    network; and every [fit_generator] is fed by [tg]. *)
Theorem phases_share_network (X : Externals) (a : training_args) (w : World X)
    (sl : list Z) (u : KModel X) (tg : Batches X) (ld : string) :
  result (prepare X a w) = inr (sl, u, tg, ld) ->
  (exists pre ua ex,
     trace (prepare X a w)
     = pre ++ [Call_unet ua; Call_build_training_generator ex (batchsize a)]
     /\ nrn_unet X ua = inr u
     /\ build_training_generator X ex (batchsize a) = inr tg)
  /\ Forall (built_on sl u tg) (trace (training X a w)).
Proof.
  intros Hp. split; [| now apply (run_built_on a w sl u tg ld)].
  destruct (prepare_result a w sl u tg ld Hp) as (pre & ua & ex & Ht & _ & Hu & Hg).
  now exists pre, ua, ex.
Qed.

Lemma phases_share_network_witness :
  Forall (built_on (X := Demo.X) [0; 2; 3; 4]
            [Layer "unet_conv_0" [[3; 3; 3; 1; 24]; [24]];
             Layer "unet_likelihood" [[1; 1; 1; 24; 4]; [4]];
             Layer "unet_prediction" []] tt)
    (trace (training Demo.X Scenario.resumed Scenario.files)).
Proof.
  assert (Hp : result (prepare Demo.X Scenario.resumed Scenario.files)
               = inr ([0; 2; 3; 4],
                      [Layer "unet_conv_0" [[3; 3; 3; 1; 24]; [24]];
                       Layer "unet_likelihood" [[1; 1; 1; 24; 4]; [4]];
                       Layer "unet_prediction" []], tt, "models/logs"))
    by reflexivity.
  exact (proj2 (phases_share_network Demo.X Scenario.resumed Scenario.files _ _ _ _ Hp)).
Defined.

(** ** The setup of a run *)

Section Setup.

Context {X : Externals}.

Variable a : training_args.

Local Abbreviation logs := (path_join (model_dir a) "logs").

Lemma mkdir_calls_app (l l' : list (event X)) :
  mkdir_calls (l ++ l') = mkdir_calls l ++ mkdir_calls l'.
Proof. apply flat_map_app. Qed.

Lemma generator_calls_app (l l' : list (event X)) :
  generator_calls (l ++ l') = generator_calls l ++ generator_calls l'.
Proof. apply flat_map_app. Qed.

Lemma unet_calls_app (l l' : list (event X)) :
  unet_calls (l ++ l') = unet_calls l ++ unet_calls l'.
Proof. apply flat_map_app. Qed.

Lemma label_calls_app (l l' : list (event X)) :
  label_calls (l ++ l') = label_calls l ++ label_calls l'.
Proof. apply flat_map_app. Qed.

(** The calls of the label registry make no folder and build nothing. *)
Lemma label_calls_only (l : list (event X)) :
  Forall (fun ev => is_label_call ev = true) l ->
  mkdir_calls l = [] /\ generator_calls l = [] /\ unet_calls l = [].
Proof.
  induction 1 as [|ev l Hev _ (IH1 & IH2 & IH3)]; [now repeat split|].
  unfold mkdir_calls, generator_calls, unet_calls in *. simpl.
  rewrite IH1, IH2, IH3. now destruct ev.
Qed.

(** The phases make no folder, build no generator and no network, and do not
    ask for labels. *)
Lemma no_setup_calls (l : list (event X)) :
  Forall (fun ev => is_setup_event ev = false) l ->
  mkdir_calls l = [] /\ generator_calls l = [] /\ unet_calls l = [] /\ label_calls l = [].
Proof.
  induction 1 as [|ev l Hev _ (IH1 & IH2 & IH3 & IH4)]; [now repeat split|].
  unfold mkdir_calls, generator_calls, unet_calls, label_calls in *. simpl.
  rewrite IH1, IH2, IH3, IH4. now destruct ev.
Qed.

(** The setup calls of a run are those of [prepare]. *)
Lemma run_setup_calls (w : World X) :
  (0 <? wl2_epochs a) || (0 <? dice_epochs a) = true ->
  mkdir_calls (trace (training X a w)) = mkdir_calls (trace (prepare X a w))
  /\ generator_calls (trace (training X a w)) = generator_calls (trace (prepare X a w))
  /\ unet_calls (trace (training X a w)) = unet_calls (trace (prepare X a w))
  /\ label_calls (trace (training X a w)) = label_calls (trace (prepare X a w)).
Proof.
  intros Hc. destruct (training_parts a w Hc) as (t1 & t2 & -> & Hcases).
  assert (Hk : Forall (fun ev : event X => is_setup_event ev = false) (t1 ++ t2)).
  { apply Forall_app.
    destruct Hcases as [(-> & [-> | (sl & u & tg & w1 & ->)] & _)
                       | (sl & u & tg & w1 & -> & _ & -> & _)];
      split; try constructor; try apply emits_wl2_phase_kind; apply emits_dice_phase_kind. }
  destruct (no_setup_calls _ Hk) as (H1 & H2 & H3 & H4).
  rewrite mkdir_calls_app, generator_calls_app, unet_calls_app, label_calls_app.
  rewrite H1, H2, H3, H4, !app_nil_r. auto.
Qed.

(** The label registry is asked for the generation labels, then for the
    segmentation labels when they have a path of their own. *)
Lemma get_label_lists_calls (w : World X) :
  exists rest,
    (path_generation_labels a, Some (labels_dir a), save_generation_labels a, true)
    :: match path_segmentation_labels a with
       | Some p => [(Some p, None, None, true)]
       | None => []
       end
    = label_calls (trace (get_label_lists X a w)) ++ rest
    /\ (forall r, result (get_label_lists X a w) = inr r -> rest = []).
Proof.
  rewrite get_label_lists_run. cbv zeta.
  destruct (get_list_labels X _ _ _ _ w) as [[e|[gl n]] w1].
  { eexists. split; [reflexivity | discriminate]. }
  destruct (path_segmentation_labels a) as [p|]; [| now exists []].
  destruct (get_list_labels X _ _ _ _ w1) as [[e|[sl n']] w2]; now exists [].
Qed.

(** The setup, call by call: the folders, the generator and the network are
    asked for in this order, each once at most, and the network is built on
    what the generator gives. *)
Lemma prepare_calls (w : World X) :
  let t := trace (prepare X a w) in
  (exists rest, [model_dir a; logs] = mkdir_calls t ++ rest
     /\ (forall r, result (prepare X a w) = inr r -> rest = []))
  /\ (generator_calls t = [] /\ unet_calls t = [] /\ (forall r, result (prepare X a w) <> inr r)
      \/ exists gl n sl,
           result (get_label_lists X a w) = inr (gl, n, sl)
           /\ generator_calls t = [generator_args a gl sl n]
           /\ (unet_calls t = [] /\ (forall r, result (prepare X a w) <> inr r)
               \/ exists w2 w3 gen,
                    new_BrainGenerator X (generator_args a gl sl n) w2 = (inr gen, w3)
                    /\ unet_calls t
                       = [unet_args X a (model_output_shape X gen) (Z.of_nat (length sl))
                            (labels_to_image_model X gen)]))
  /\ label_calls t = label_calls (trace (get_label_lists X a w)).
Proof.
  rewrite prepare_run. cbv zeta.
  destruct (label_calls_only _ (get_label_lists_log a w)) as (L1 & L2 & L3).
  destruct (result (get_label_lists X a w)) as [e|[[gl n] sl]] eqn:Hr.
  { cbn [trace result]. rewrite L1, L2, L3.
    split; [eexists; split; [reflexivity | discriminate]|].
    split; [left; repeat split; discriminate | reflexivity]. }
  destruct (mkdir X (model_dir a) _) as [[e|[]] w1].
  { cbn [trace result].
    rewrite mkdir_calls_app, generator_calls_app, unet_calls_app, label_calls_app, L1, L2, L3.
    split; [eexists; split; [reflexivity | discriminate]|].
    split; [left; repeat split; discriminate | apply app_nil_r]. }
  destruct (mkdir X logs w1) as [[e|[]] w2].
  { cbn [trace result].
    rewrite mkdir_calls_app, generator_calls_app, unet_calls_app, label_calls_app, L1, L2, L3.
    split; [exists []; split; [reflexivity | discriminate]|].
    split; [left; repeat split; discriminate | apply app_nil_r]. }
  destruct (new_BrainGenerator X _ w2) as [[e|gen] w3] eqn:Hg.
  { cbn [trace result].
    rewrite mkdir_calls_app, generator_calls_app, unet_calls_app, label_calls_app, L1, L2, L3.
    split; [exists []; split; [reflexivity | discriminate]|].
    split; [| apply app_nil_r].
    right. exists gl, n, sl. split; [reflexivity|]. split; [reflexivity|].
    left. split; [reflexivity | discriminate]. }
  destruct (nrn_unet X _) as [e|u].
  { cbn [trace result].
    rewrite mkdir_calls_app, generator_calls_app, unet_calls_app, label_calls_app, L1, L2, L3.
    split; [exists []; split; [reflexivity | discriminate]|].
    split; [| apply app_nil_r].
    right. exists gl, n, sl. split; [reflexivity|]. split; [reflexivity|].
    right. now exists w2, w3, gen. }
  destruct (build_training_generator X _ _) as [e|tg];
    cbn [trace result];
    rewrite mkdir_calls_app, generator_calls_app, unet_calls_app, label_calls_app, L1, L2, L3;
    (split; [exists []; split; [reflexivity | auto]|]);
    (split; [| apply app_nil_r]);
    right; exists gl, n, sl; (split; [reflexivity|]); (split; [reflexivity|]);
    right; now exists w2, w3, gen.
Qed.

End Setup.

Lemma returning_run_prepared {X : Externals} (a : training_args) (w : World X) :
  result (training X a w) = inr tt ->
  (0 <? wl2_epochs a) || (0 <? dice_epochs a) = true
  /\ exists r, result (prepare X a w) = inr r.
Proof.
  intros Hr.
  destruct ((0 <? wl2_epochs a) || (0 <? dice_epochs a)) eqn:Hc.
  2:{ rewrite (training_unchecked a w Hc) in Hr. discriminate. }
  split; [reflexivity|].
  rewrite (training_checked a w Hc) in Hr.
  apply bind_returns in Hr as (r & Hp & _). now exists r.
Qed.

(** X7.  The setup is done once.  In every run the folders asked for are the
    first of [model_dir], [model_dir/logs], in this order, the label
    registry is asked for the generation labels and then, when
    [path_segmentation_labels] is given, for the segmentation labels, and
    one generator and one network at most are built: the phases make no
    folder, read no labels and build no second generator or network.  A run
    that returns has made both folders and built exactly one generator and
    one network. *)
Theorem setup_runs_once (X : Externals) (a : training_args) (w : World X) :
  let l := trace (training X a w) in
  let registry :=
    (path_generation_labels a, Some (labels_dir a), save_generation_labels a, true)
    :: match path_segmentation_labels a with
       | Some p => [(Some p, None, None, true)]
       | None => []
       end in
  (exists rest, [model_dir a; path_join (model_dir a) "logs"] = mkdir_calls l ++ rest)
  /\ (exists rest, registry = label_calls l ++ rest)
  /\ (length (generator_calls l) <= 1)%nat
  /\ (length (unet_calls l) <= 1)%nat
  /\ (result (training X a w) = inr tt ->
      mkdir_calls l = [model_dir a; path_join (model_dir a) "logs"]
      /\ label_calls l = registry
      /\ length (generator_calls l) = 1%nat
      /\ length (unet_calls l) = 1%nat).
Proof.
  cbv zeta.
  destruct ((0 <? wl2_epochs a) || (0 <? dice_epochs a)) eqn:Hc.
  2:{ rewrite (training_unchecked a w Hc). cbn [trace result].
      split; [eexists; reflexivity|]. split; [eexists; reflexivity|].
      split; [simpl; lia|]. split; [simpl; lia | discriminate]. }
  destruct (run_setup_calls a w Hc) as (-> & -> & -> & ->).
  destruct (prepare_calls a w) as ((rest & Hm & Hm') & Hg & ->).
  destruct (get_label_lists_calls a w) as (rest' & Hl & Hl').
  split; [now exists rest|]. split; [now exists rest'|].
  split; [|split].
  - destruct Hg as [(-> & _) | (gl & n & sl & _ & -> & _)]; simpl; lia.
  - destruct Hg as [(_ & -> & _) | (gl & n & sl & _ & _ & [(-> & _) | (w2 & w3 & gen & _ & ->)])];
      simpl; lia.
  - intros Hr. destruct (returning_run_prepared a w Hr) as (_ & r & Hp).
    rewrite (Hm' _ Hp), app_nil_r in Hm.
    destruct Hg as [(_ & _ & Hn) | (gl & n & sl & Hgl & -> & Hu)]; [now destruct (Hn r)|].
    destruct Hu as [(_ & Hn) | (w2 & w3 & gen & _ & ->)]; [now destruct (Hn r)|].
    rewrite (Hl' _ Hgl), app_nil_r in Hl. auto.
Qed.

(** X8.  The network predicts the labels the generator gives.  Wherever a
    run builds the network, it has built one generator before, and the
    network is given: as many output labels as the generator has
    [output_labels], the image shape and the labels-to-image model of that
    generator as input, [n_levels] levels while the generator rounds its
    shape to [2 ** n_levels], and [batch_norm = -1]. *)
Theorem network_predicts_output_labels (X : Externals) (a : training_args) (w : World X)
    (u : unet.args (KModel X)) :
  In (Call_unet u) (trace (training X a w)) ->
  exists g w2 w3 gen,
    generator_calls (trace (training X a w)) = [g]
    /\ new_BrainGenerator X g w2 = (inr gen, w3)
    /\ unet.nb_labels u = Z.of_nat (length (BrainGenerator.output_labels g))
    /\ unet.input_shape u = model_output_shape X gen
    /\ unet.input_model u = labels_to_image_model X gen
    /\ BrainGenerator.output_div_by_n g = py_pow2 (unet.nb_levels u)
    /\ unet.batch_norm u = -1.
Proof.
  intros Hin. apply in_unet_calls in Hin.
  destruct ((0 <? wl2_epochs a) || (0 <? dice_epochs a)) eqn:Hc.
  2:{ now rewrite (training_unchecked a w Hc) in Hin. }
  destruct (run_setup_calls a w Hc) as (_ & -> & Hu & _). rewrite Hu in Hin.
  destruct (prepare_calls a w) as (_ & Hg & _).
  destruct Hg as [(_ & E & _) | (gl & n & sl & _ & -> & Hcases)];
    [now rewrite E in Hin|].
  destruct Hcases as [(E & _) | (w2 & w3 & gen & Hgen & E)]; [now rewrite E in Hin|].
  rewrite E in Hin. destruct Hin as [<- | []].
  exists (generator_args a gl sl n), w2, w3, gen. now repeat split.
Qed.

Lemma network_predicts_output_labels_witness :
  exists u g,
    In (Call_unet u) (trace (training Demo.X Scenario.with_segmentation Scenario.files))
    /\ generator_calls (trace (training Demo.X Scenario.with_segmentation Scenario.files))
       = [g]
    /\ BrainGenerator.output_labels g = [0; 2]
    /\ unet.nb_labels u = 2.
Proof.
  set (u := unet_args Demo.X Scenario.with_segmentation [160; 160; 160; 1] 2 []).
  assert (Hin : In (Call_unet u)
                   (trace (training Demo.X Scenario.with_segmentation Scenario.files))).
  { apply in_unet_calls.
    assert (E : unet_calls (trace (training Demo.X Scenario.with_segmentation Scenario.files))
                = [u]) by (vm_compute; reflexivity).
    rewrite E. now left. }
  destruct (network_predicts_output_labels Demo.X Scenario.with_segmentation Scenario.files
              u Hin) as (g & w2 & w3 & gen & Hg & _ & Hn & _).
  exists u, g. split; [exact Hin|]. split; [exact Hg|].
  assert (E : generator_calls
                (trace (training Demo.X Scenario.with_segmentation Scenario.files))
              = [generator_args Scenario.with_segmentation [0; 2; 3; 4] [0; 2] 1])
    by (vm_compute; reflexivity).
  rewrite E in Hg. injection Hg as <-. split; reflexivity.
Defined.

(** ** What the callbacks write *)

Section Writes.

Context {X : Externals}.

Lemma writes_app (l l' : list (event X)) : writes (l ++ l') = writes l ++ writes l'.
Proof. apply flat_map_app. Qed.

Lemma writes_quiet (l : list (event X)) :
  Forall (fun ev => is_callback_event ev = false) l -> writes l = [].
Proof.
  induction 1 as [|ev l Hev _ IH]; [reflexivity|].
  unfold writes in *. simpl. rewrite IH. now destruct ev.
Qed.

Lemma summaries_app (l l' : list (event X)) :
  summaries (l ++ l') = summaries l ++ summaries l'.
Proof. apply flat_map_app. Qed.

Lemma summaries_quiet (l : list (event X)) :
  Forall (fun ev => is_summary ev = false) l -> summaries l = [].
Proof.
  induction 1 as [|ev l Hev _ IH]; [reflexivity|].
  unfold summaries in *. simpl. rewrite IH. now destruct ev.
Qed.

Variables (md ld tag : string).

Hypothesis md_brace_free : brace_free md = true.
Hypothesis tag_of_phase : tag = "wl2" \/ tag = "dice".

Lemma callbacks_writes (m : KModel X) (e : Z) (w : World X) :
  result (callbacks_on_epoch_end X m e (train_callbacks md ld tag) w) = inr tt ->
  writes (trace (callbacks_on_epoch_end X m e (train_callbacks md ld tag) w))
  = epoch_writes md ld tag e.
Proof.
  unfold train_callbacks, epoch_writes.
  destruct (String.eqb tag "dice"); simpl; unfold on_epoch_end;
    rewrite (format_save_file_name _ _ _ md_brace_free tag_of_phase);
    unfold mbind, M_bind, bind, call;
    destruct (save_weights X m _ w) as [[e1|[]] w1]; simpl; try discriminate;
    try reflexivity.
  now destruct (write_summaries X m ld e w1) as [[e2|[]] w2].
Qed.

Lemma epoch_loop_writes (m : KModel X) (g : Batches X) (steps : Z)
    (n : nat) (e : Z) (w : World X) :
  result (epoch_loop X m g steps (train_callbacks md ld tag) n e w) = inr tt ->
  writes (trace (epoch_loop X m g steps (train_callbacks md ld tag) n e w))
  = flat_map (epoch_writes md ld tag) (epochs_from e n).
Proof.
  revert e w. induction n as [|n IH]; intros e w; [reflexivity|].
  rewrite epoch_loop_next, build_bind. cbn [trace result epochs_from flat_map].
  pose proof (emits_run_steps_kind m g e 0 (Z.to_nat steps) w) as Hsteps.
  destruct (result (run_steps X m g e 0 (Z.to_nat steps) w)) as [e1|[]] eqn:H1.
  { rewrite (bind_failed _ _ _ _ H1). discriminate. }
  rewrite (bind_passed _ _ _ _ H1). cbn [trace result].
  set (w1 := world (run_steps X m g e 0 (Z.to_nat steps) w)).
  destruct (result (callbacks_on_epoch_end X m e (train_callbacks md ld tag) w1))
    as [e2|[]] eqn:H2.
  { rewrite (bind_failed _ _ _ _ H2). discriminate. }
  rewrite (bind_passed _ _ _ _ H2). cbn [trace result].
  change (build (Epoch_end m e) (inr tt) ;; ?f) with (build (Epoch_end m e) (inr tt) ≫= fun _ => f).
  rewrite build_bind. cbn [trace result]. intros Hr.
  change (Epoch_begin m e :: ?l) with ([Epoch_begin m e] ++ l).
  change (Epoch_end m e :: ?l) with ([Epoch_end m e] ++ l).
  rewrite !writes_app, (callbacks_writes _ _ _ H2), (IH _ _ Hr).
  rewrite (writes_quiet (trace (run_steps _ _ _ _ _ _ _))); [reflexivity|].
  eapply Forall_impl; [exact Hsteps|]. intros ev Hev. now destruct ev.
Qed.

Variables (m : KModel X) (g : Batches X) (rate decay : pyval) (n steps init : Z).

Variable pre : M X unit.

Hypothesis pre_loads : emits (fun ev => is_load ev = true) pre.

Lemma phase_writes (w : World X) :
  result ((pre ;; train_model X m g rate decay n steps md ld tag init) w) = inr tt ->
  writes (trace ((pre ;; train_model X m g rate decay n steps md ld tag init) w))
  = flat_map (epoch_writes md ld tag) (epochs_from init (Z.to_nat (n - init))).
Proof.
  intros H. apply bind_returns in H as ([] & Hr & H & ->).
  rewrite train_model_run in H |- *. cbv zeta in H |- *. cbn [trace result] in H |- *.
  pose proof (pre_loads w) as Hp.
  change (Call_compile ?x ?y ?z ?t :: Call_fit_generator ?x ?g' ?n' ?s ?c ?i :: ?l)
    with ([Call_compile x y z t; Call_fit_generator x g' n' s c i] ++ l).
  rewrite !writes_app, (epoch_loop_writes _ _ _ _ _ _ H).
  rewrite writes_quiet; [reflexivity|].
  eapply Forall_impl; [exact Hp|]. intros ev Hev. now destruct ev.
Qed.

End Writes.

Section WritesOfRun.

Context {X : Externals}.

Variable a : training_args.

Local Abbreviation logs := (path_join (model_dir a) "logs").

Lemma warmup_loop_no_summary (m : KModel X) (g : Batches X) steps md ld n e :
  emits (fun ev : event X => is_summary ev = false)
    (epoch_loop X m g steps (train_callbacks md ld "wl2") n e).
Proof.
  revert e. induction n as [|n IH]; intros e; [apply emits_ret|].
  rewrite epoch_loop_next. repeat emits_step; try reflexivity; try apply IH.
  - now apply emits_run_steps.
  - simpl. repeat emits_step.
    destruct (format_epoch _ _); [now apply emits_call | apply emits_raise].
Qed.

Lemma wl2_phase_no_summary sl u tg ld (w : World X) :
  Forall (fun ev => is_summary ev = false) (trace (wl2_phase X a sl u tg ld w)).
Proof.
  revert w. change (emits (fun ev : event X => is_summary ev = false) (wl2_phase X a sl u tg ld)).
  unfold wl2_phase. destruct (0 <? wl2_epochs a); [| apply emits_ret].
  repeat emits_step; try reflexivity.
  - destruct (load_model_file a); [now apply emits_call | apply emits_ret].
  - apply warmup_loop_no_summary.
Qed.

Hypothesis model_dir_brace_free : brace_free (model_dir a) = true.

Lemma dice_part_writes sl u tg (w : World X) :
  result (dice_phase X a sl u tg logs w) = inr tt ->
  writes (dice_part (trace (dice_phase X a sl u tg logs w)))
  = flat_map (epoch_writes (model_dir a) logs "dice") (dice_schedule a).
Proof.
  unfold dice_schedule, phase_epochs.
  destruct (Z_lt_le_dec 0 (dice_epochs a)) as [Hd|Hd].
  2:{ rewrite (dice_phase_skipped a _ _ _ _ _ Hd).
      assert (E : (0 <? dice_epochs a) = false) by now apply Z.ltb_ge.
      now rewrite E. }
  rewrite (dice_phase_run a _ _ _ _ _ Hd). cbv zeta.
  apply Z.ltb_lt in Hd. rewrite Hd.
  destruct (metrics_model X sl u None) as [e|m]; [discriminate|].
  cbn [trace result]. simpl dice_part. intros Hr.
  apply (phase_writes (model_dir a) logs "dice"); auto. apply dice_load_emits.
Qed.

End WritesOfRun.

(** X9.  Summaries come from the fine-tuning alone, each right after the
    checkpoint of its epoch.  In every run no summary is written before the
    dice model is asked for.  In a run that returns (the model directory
    has no brace in it), what the callbacks write after the dice model is
    asked for is, for each epoch [e] of the fine-tuning in turn, the weights
    to [model_dir/dice_<e + 1>.h5] and then the summary of epoch [e] to
    [model_dir/logs], the folder made in the setup. *)
Theorem summaries_follow_checkpoints (X : Externals) (a : training_args) (w : World X) :
  summaries (wl2_part (trace (training X a w))) = []
  /\ (brace_free (model_dir a) = true ->
      result (training X a w) = inr tt ->
      writes (dice_part (trace (training X a w)))
      = flat_map (fun e => [Weights (path_join (model_dir a)
                                       ("dice_" +:+ fmt_03d (e + 1) +:+ ".h5"));
                            Summary (path_join (model_dir a) "logs") e])
          (dice_schedule a)).
Proof.
  destruct ((0 <? wl2_epochs a) || (0 <? dice_epochs a)) eqn:Hc.
  2:{ rewrite (training_unchecked a w Hc). split; [reflexivity | discriminate]. }
  destruct (training_split a w Hc) as (t1 & t2 & _ & -> & -> & Hcases).
  split.
  - rewrite summaries_app. rewrite (summaries_quiet (trace (prepare X a w))).
    2:{ eapply Forall_impl; [apply prepare_log|]. intros ev Hev. now destruct ev. }
    apply summaries_quiet.
    destruct Hcases as [(_ & [-> | (sl & u & tg & w1 & ->)] & _)
                       | (sl & u & tg & w1 & -> & _)];
      [constructor | apply wl2_phase_no_summary | apply wl2_phase_no_summary].
  - intros Hb Hr.
    destruct Hcases as [(_ & _ & e & Hf) | (sl & u & tg & w1 & _ & _ & -> & Hres)];
      [congruence|].
    rewrite Hres in Hr. exact (dice_part_writes a Hb sl u tg _ Hr).
Qed.

Lemma summaries_follow_checkpoints_witness :
  writes (dice_part (trace (training Demo.X Scenario.resumed Scenario.files)))
  = [Weights "models/dice_002.h5"; Summary "models/logs" 1;
     Weights "models/dice_003.h5"; Summary "models/logs" 2].
Proof.
  assert (Hr : result (training Demo.X Scenario.resumed Scenario.files) = inr tt)
    by (vm_compute; reflexivity).
  rewrite (proj2 (summaries_follow_checkpoints Demo.X Scenario.resumed Scenario.files)
             eq_refl Hr).
  reflexivity.
Defined.

(** ** A brace in the name of the model directory *)

Lemma brace_free_append (s t : string) :
  brace_free (s +:+ t) = (brace_free s && brace_free t)%bool.
Proof.
  induction s as [|c s IH]; [reflexivity|].
  rewrite append_cons. simpl. rewrite IH. now rewrite !andb_assoc.
Qed.

(** A field that meets an opening brace before it is closed cannot be
    read. *)
Lemma format_scan_unclosed (f s t : string) (e : Z) :
  brace_free s = true -> format_scan (Some f) (s +:+ String "{" t) e = None.
Proof.
  revert f. induction s as [|c s IH]; intros f H; [reflexivity|].
  rewrite append_cons. simpl in H |- *.
  apply andb_prop in H as [H Hs]. apply andb_prop in H as [Ho Hc].
  apply negb_true_iff in Ho, Hc. rewrite Ho, Hc. now apply IH.
Qed.

(** The file path [train_model] gives to the checkpoint callback cannot be
    formatted when the model directory has one brace in its name. *)
Lemma format_save_file_name_braced (p q tag : string) (b : ascii) (e : Z) :
  b = "{"%char \/ b = "}"%char ->
  brace_free p = true -> brace_free q = true ->
  tag = "wl2" \/ tag = "dice" ->
  format_epoch (save_file_name (p +:+ String b q) tag) e = None.
Proof.
  intros Hb Hp Hq Htag. unfold format_epoch, save_file_name.
  rewrite path_join_relative by (destruct Htag; subst; reflexivity).
  set (md := p +:+ String b q).
  assert (E : md +:+ sep_of md +:+ tag +:+ "_{epoch:03d}.h5"
              = p +:+ String b ((q +:+ sep_of md +:+ tag +:+ "_")
                                +:+ String "{" "epoch:03d}.h5")).
  { subst md. rewrite <- !append_associative, append_cons. reflexivity. }
  rewrite E, (format_scan_brace_free _ _ _ Hp).
  set (s := q +:+ sep_of md +:+ tag +:+ "_").
  assert (Hs : brace_free s = true).
  { subst s. rewrite !brace_free_append, Hq, sep_of_brace_free.
    destruct Htag; subst; reflexivity. }
  assert (Hne : s <> "").
  { subst s. intros H. apply (f_equal String.length) in H.
    rewrite !length_append in H. destruct Htag; subst tag; simpl in H; lia. }
  destruct s as [|d s']; [contradiction|]. rewrite append_cons.
  simpl in Hs. apply andb_prop in Hs as [Hd Hs']. apply andb_prop in Hd as [Ho Hc].
  apply negb_true_iff in Ho, Hc.
  assert (F : format_scan None (String b (String d (s' +:+ String "{" "epoch:03d}.h5"))) e
              = None).
  { destruct Hb as [-> | ->]; cbn [format_scan]; simpl Ascii.eqb; rewrite ?Ho, ?Hc.
    - now apply format_scan_unclosed.
    - reflexivity. }
  now rewrite F.
Qed.

Section Unformatted.

Context {X : Externals}.

Variables (md ld tag : string).

Hypothesis unformatted : forall e, format_epoch (save_file_name md tag) e = None.

Lemma callbacks_unformatted (m : KModel X) (e : Z) (w : World X) :
  callbacks_on_epoch_end X m e (train_callbacks md ld tag) w
  = Outcome [] w (inl (KeyError (save_file_name md tag))).
Proof.
  unfold train_callbacks.
  destruct (String.eqb tag "dice"); simpl; unfold on_epoch_end; now rewrite unformatted.
Qed.

(** The loop runs no epoch to its end and writes nothing; it returns only
    when it has no epoch to run. *)
Lemma epoch_loop_unformatted (m : KModel X) (g : Batches X) (steps : Z)
    (n : nat) (e : Z) (w : World X) :
  let o := epoch_loop X m g steps (train_callbacks md ld tag) n e w in
  Forall (fun ev => is_epoch_end ev = false /\ is_callback_event ev = false) (trace o)
  /\ (result o = inr tt -> n = 0%nat).
Proof.
  destruct n as [|n]; [split; [constructor | reflexivity]|].
  rewrite epoch_loop_next, build_bind. cbn [trace result].
  pose proof (emits_run_steps_kind m g e 0 (Z.to_nat steps) w) as Hsteps.
  assert (Hq : Forall (fun ev : event X => is_epoch_end ev = false /\ is_callback_event ev = false)
                 (trace (run_steps X m g e 0 (Z.to_nat steps) w))).
  { eapply Forall_impl; [exact Hsteps|]. intros ev Hev. now destruct ev. }
  destruct (result (run_steps X m g e 0 (Z.to_nat steps) w)) as [e1|[]] eqn:H1.
  { rewrite (bind_failed _ _ _ _ H1). cbn [trace result].
    split; [constructor; [now split | exact Hq] | discriminate]. }
  rewrite (bind_passed _ _ _ _ H1). cbn [trace result].
  rewrite (bind_failed _ _ _ (KeyError (save_file_name md tag)))
    by now rewrite callbacks_unformatted.
  rewrite callbacks_unformatted. cbn [trace result]. rewrite app_nil_r.
  split; [constructor; [now split | exact Hq] | discriminate].
Qed.

Variables (m : KModel X) (g : Batches X) (rate decay : pyval) (n steps init : Z).

Variable pre : M X unit.

Hypothesis pre_loads : emits (fun ev => is_load ev = true) pre.

Lemma phase_unformatted (w : World X) :
  let o := (pre ;; train_model X m g rate decay n steps md ld tag init) w in
  Forall (fun ev => is_epoch_end ev = false /\ is_callback_event ev = false) (trace o)
  /\ (result o = inr tt -> Z.to_nat (n - init) = 0%nat).
Proof.
  cbv zeta. pose proof (pre_loads w) as Hp.
  assert (Hq : Forall (fun ev : event X => is_epoch_end ev = false /\ is_callback_event ev = false)
                 (trace (pre w))).
  { eapply Forall_impl; [exact Hp|]. intros ev Hev. now destruct ev. }
  destruct (result (pre w)) as [e|[]] eqn:Hr.
  - rewrite (bind_failed _ _ _ _ Hr). cbn [trace result]. split; [exact Hq | discriminate].
  - rewrite (bind_passed _ _ _ _ Hr). cbn [trace result].
    rewrite train_model_run. cbv zeta. cbn [trace result].
    destruct (epoch_loop_unformatted m g steps (Z.to_nat (n - init)) init
                (set_optimizer X m (Adam rate decay) (world (pre w)))) as [Hl Hn].
    split; [| exact Hn].
    apply Forall_app. split; [exact Hq|]. repeat (constructor; [now split|]). exact Hl.
Qed.

End Unformatted.

Section BracedRun.

Context {X : Externals}.

Variable a : training_args.

Variables (p q : string) (b : ascii).

Hypothesis model_dir_braced : model_dir a = p +:+ String b q.
Hypothesis brace : b = "{"%char \/ b = "}"%char.
Hypothesis p_brace_free : brace_free p = true.
Hypothesis q_brace_free : brace_free q = true.

Local Abbreviation unwritten :=
  (fun ev : event X => is_epoch_end ev = false /\ is_callback_event ev = false).

Lemma unformatted_phase (tag : string) :
  tag = "wl2" \/ tag = "dice" ->
  forall e, format_epoch (save_file_name (model_dir a) tag) e = None.
Proof.
  intros Htag e. rewrite model_dir_braced. now apply format_save_file_name_braced.
Qed.

Lemma wl2_phase_braced sl u tg ld (w : World X) :
  Forall unwritten (trace (wl2_phase X a sl u tg ld w))
  /\ (result (wl2_phase X a sl u tg ld w) = inr tt -> wl2_schedule a = []).
Proof.
  unfold wl2_schedule, phase_epochs.
  destruct (Z_lt_le_dec 0 (wl2_epochs a)) as [Hw|Hw].
  2:{ rewrite (wl2_phase_skipped a _ _ _ _ _ Hw).
      assert (E : (0 <? wl2_epochs a) = false) by now apply Z.ltb_ge.
      rewrite E. split; [constructor | reflexivity]. }
  rewrite (wl2_phase_run a _ _ _ _ _ Hw). cbv zeta.
  apply Z.ltb_lt in Hw. rewrite Hw.
  destruct (Model_up_to X u _) as [e|m1]; [split; [now repeat constructor | discriminate]|].
  destruct (metrics_model X sl m1 _) as [e|m2];
    [split; [now repeat constructor | discriminate]|].
  cbn [trace result].
  destruct (phase_unformatted (model_dir a) ld "wl2" (unformatted_phase "wl2" (or_introl eq_refl))
              m2 tg (lr a) (lr_decay a) (wl2_epochs a) (steps_per_epoch a)
              (initial_epoch_wl2 a) _ (wl2_load_emits a m2) w) as [Hl Hn].
  split; [repeat (constructor; [now split|]); exact Hl|].
  intros Hr. now rewrite (Hn Hr).
Qed.

Lemma dice_phase_braced sl u tg ld (w : World X) :
  Forall unwritten (trace (dice_phase X a sl u tg ld w))
  /\ (result (dice_phase X a sl u tg ld w) = inr tt -> dice_schedule a = []).
Proof.
  unfold dice_schedule, phase_epochs.
  destruct (Z_lt_le_dec 0 (dice_epochs a)) as [Hd|Hd].
  2:{ rewrite (dice_phase_skipped a _ _ _ _ _ Hd).
      assert (E : (0 <? dice_epochs a) = false) by now apply Z.ltb_ge.
      rewrite E. split; [constructor | reflexivity]. }
  rewrite (dice_phase_run a _ _ _ _ _ Hd). cbv zeta.
  apply Z.ltb_lt in Hd. rewrite Hd.
  destruct (metrics_model X sl u None) as [e|m];
    [split; [now repeat constructor | discriminate]|].
  cbn [trace result].
  destruct (phase_unformatted (model_dir a) ld "dice"
              (unformatted_phase "dice" (or_intror eq_refl))
              m tg (lr a) (lr_decay a) (dice_epochs a) (steps_per_epoch a)
              (initial_epoch_dice a) _ (dice_load_emits a m) w) as [Hl Hn].
  split; [repeat (constructor; [now split|]); exact Hl|].
  intros Hr. now rewrite (Hn Hr).
Qed.

Lemma run_braced (w : World X) :
  Forall unwritten (trace (training X a w))
  /\ (result (training X a w) = inr tt -> wl2_schedule a = [] /\ dice_schedule a = []).
Proof.
  destruct ((0 <? wl2_epochs a) || (0 <? dice_epochs a)) eqn:Hc.
  2:{ rewrite (training_unchecked a w Hc). split; [constructor | discriminate]. }
  destruct (training_parts a w Hc) as (t1 & t2 & -> & Hcases).
  assert (Hp : Forall unwritten (trace (prepare X a w))).
  { eapply Forall_impl; [apply prepare_log|]. intros ev Hev. now destruct ev. }
  destruct Hcases as [(-> & Ht1 & e & Hf) | (sl & u & tg & w1 & -> & Hw & -> & Hres)].
  - split; [| congruence]. rewrite app_nil_r. apply Forall_app. split; [exact Hp|].
    destruct Ht1 as [-> | (sl & u & tg & w1 & ->)]; [constructor | apply wl2_phase_braced].
  - destruct (wl2_phase_braced sl u tg (path_join (model_dir a) "logs") w1) as [H1 E1].
    destruct (dice_phase_braced sl u tg (path_join (model_dir a) "logs")
                (world (wl2_phase X a sl u tg (path_join (model_dir a) "logs") w1)))
      as [H2 E2].
    split.
    + apply Forall_app. split; [exact Hp|]. apply Forall_app. now split.
    + rewrite Hres. intros Hr. split; [now apply E1 | now apply E2].
Qed.

End BracedRun.

(** X10.  A brace in the name of the model directory loses the first epoch.
    [train_model] joins [model_dir], as it is, to the file name template of
    the checkpoint.  When [model_dir] has one brace in its name, the
    template cannot be formatted: in every run no checkpoint and no summary
    is written and no epoch runs to its end, and a run returns only when
    its schedules hold no epoch at all. *)
Theorem brace_in_model_dir_writes_nothing (X : Externals) (a : training_args) (w : World X)
    (p q : string) (b : ascii) :
  model_dir a = p +:+ String b q ->
  b = "{"%char \/ b = "}"%char ->
  brace_free p = true ->
  brace_free q = true ->
  checkpoints (trace (training X a w)) = []
  /\ summaries (trace (training X a w)) = []
  /\ epochs_ended (trace (training X a w)) = []
  /\ (result (training X a w) = inr tt -> wl2_schedule a = [] /\ dice_schedule a = []).
Proof.
  intros Hm Hb Hp Hq.
  destruct (run_braced a p q b Hm Hb Hp Hq w) as [Hl Hr].
  split; [|split; [|split; [|exact Hr]]].
  - apply checkpoints_quiet. eapply Forall_impl; [exact Hl|]. now intros ev [_ Hev].
  - apply summaries_quiet. eapply Forall_impl; [exact Hl|]. intros ev [_ Hev]. now destruct ev.
  - apply epochs_ended_quiet. eapply Forall_impl; [exact Hl|]. now intros ev [Hev _].
Qed.

Lemma brace_in_model_dir_writes_nothing_witness :
  checkpoints (trace (training Demo.X braced Scenario.files)) = []
  /\ result (training Demo.X braced Scenario.files) <> inr tt
  /\ train_steps (trace (training Demo.X braced Scenario.files)) = [(1, 0%nat)].
Proof.
  destruct (brace_in_model_dir_writes_nothing Demo.X braced Scenario.files "run" "1" "{"
              eq_refl (or_introl eq_refl) eq_refl eq_refl) as (Hc & _ & _ & Hr).
  split; [exact Hc|]. split; [| vm_compute; reflexivity].
  intros H. destruct (Hr H) as [E _]. discriminate E.
Defined.

(** ** The command line of the supervised training *)

Lemma parser_dests_set (p : list argument) :
  forallb (fun a => has_attr (initial_namespace p) (arg_dest a)) p = true ->
  forall a, In a p -> has_attr (initial_namespace p) (arg_dest a) = true.
Proof. intros H. now rewrite forallb_forall in H. Qed.

(** The attributes of the namespace argparse returns are those it has
    before it reads the command line. *)
Lemma parse_args_keys convert (p : list argument) (argv : list string) (ns : namespace) :
  forallb (fun a => has_attr (initial_namespace p) (arg_dest a)) p = true ->
  parse_args convert p argv = Some ns ->
  map fst ns = map fst (initial_namespace p).
Proof.
  intros Hp H. unfold parse_args in H. apply parse_tokens_keys in H; [exact H | |].
  - now apply parser_dests_set.
  - intros a Ha. apply filter_In in Ha. tauto.
Qed.

Lemma has_attr_in (ns : namespace) (k : string) :
  has_attr ns k = true <-> In k (map fst ns).
Proof.
  induction ns as [|[k' v] ns IH]; simpl; [split; [discriminate | tauto]|].
  rewrite orb_true_iff, IH, String.eqb_eq. tauto.
Qed.

Lemma has_attr_get (ns : namespace) (k : string) :
  has_attr ns k = true -> exists v, get_attr ns k = Some v.
Proof.
  induction ns as [|[k' v] ns IH]; simpl; [discriminate|].
  destruct (String.eqb k' k); [eauto | exact IH].
Qed.

(** A parameter that is given as keyword is bound to the value of the
    keyword, whatever its default. *)
Lemma bound_to_keyword (sig : signature) (kwargs : namespace) (k : string) :
  is_parameter sig k = true -> has_attr kwargs k = true ->
  get_attr (map (bind_parameter kwargs) sig) k = get_attr kwargs k.
Proof.
  intros Hs Hk. destruct (has_attr_get _ _ Hk) as (v & Hv).
  induction sig as [|[k' d] sig IH]; [discriminate|].
  simpl in Hs |- *. unfold bind_parameter at 1. cbn [fst snd].
  destruct (String.eqb_spec k' k) as [->|Hne].
  - rewrite Hv. simpl. now rewrite String.eqb_refl.
  - simpl in Hs.
    assert (E : String.eqb (fst match get_attr kwargs k' with
                                | Some v0 => (k', v0)
                                | None => match d with
                                          | Some d0 => (k', d0)
                                          | None => (k', PNone)
                                          end
                                end) k = false).
    { apply String.eqb_neq. now destruct (get_attr kwargs k') as [?|], d as [?|]. }
    destruct (get_attr kwargs k') as [?|], d as [?|]; simpl in E |- *; rewrite E;
      now apply IH.
Qed.

Lemma nothing_missing (sig : signature) (kwargs : namespace) :
  (forall p, In p sig -> snd p = None -> In (fst p) (map fst kwargs)) ->
  missing_of sig kwargs = [].
Proof.
  intros Hreq. unfold missing_of.
  replace (List.filter _ sig) with (@nil (string * option pyval)); [reflexivity|].
  symmetry. induction sig as [|[k d] sig IH]; [reflexivity|].
  assert (Hrest : forall p, In p sig -> snd p = None -> In (fst p) (map fst kwargs))
    by (intros p Hp; apply Hreq; now right).
  simpl. destruct d as [d|]; [now apply IH|].
  assert (Hk : has_attr kwargs k = true)
    by (apply has_attr_in, (Hreq (k, None)); [now left | reflexivity]).
  rewrite Hk. simpl. now apply IH.
Qed.

Lemma call_kwargs_accepted (fname : string) (sig : signature) (kwargs : namespace) :
  forallb (is_parameter sig) (map fst kwargs) = true ->
  (forall p, In p sig -> snd p = None -> In (fst p) (map fst kwargs)) ->
  call_kwargs fname sig kwargs = inr (map (bind_parameter kwargs) sig).
Proof.
  intros Hall Hreq. unfold call_kwargs.
  destruct (find _ kwargs) as [[k v]|] eqn:Hf.
  { apply find_some in Hf as [Hin Hk]. rewrite forallb_forall in Hall. simpl in Hk.
    rewrite (Hall k) in Hk; [discriminate|]. now apply (in_map fst) in Hin. }
  now rewrite (nothing_missing _ _ Hreq).
Qed.

Lemma supervised_parser_dests_set :
  forallb (fun a => has_attr (initial_namespace supervised_parser) (arg_dest a))
    supervised_parser = true.
Proof. vm_compute. reflexivity. Qed.

Lemma supervised_initial_keys :
  map fst (initial_namespace supervised_parser) = supervised_keywords.
Proof. vm_compute. reflexivity. Qed.

(** X11.  The supervised script always passes the same thirty keywords.
    Whatever the command line, when argparse accepts it the dictionary
    given to [supervised_training] has exactly the destinations of the
    thirty [add_argument] lines as keys, in the order of the lines: an
    option that is not on the command line is passed all the same, with the
    default of the script. *)
Theorem supervised_keywords_fixed (convert : arg_type -> string -> option pyval)
    (argv : list string) (kwargs : namespace) :
  parse_args convert supervised_parser argv = Some kwargs ->
  map fst kwargs
  = ["image_dir"; "labels_dir"; "model_dir"; "path_segmentation_labels"; "batchsize";
     "output_shape"; "flipping"; "scaling_bounds"; "rotation_bounds"; "shearing_bounds";
     "translation_bounds"; "nonlin_std"; "nonlin_shape_factor"; "bias_field_std";
     "bias_shape_factor"; "n_levels"; "nb_conv_per_level"; "conv_size"; "unet_feat_count";
     "feat_multiplier"; "dropout"; "activation"; "lr"; "lr_decay"; "wl2_epochs";
     "dice_epochs"; "steps_per_epoch"; "checkpoint"; "reinitialise_momentum";
     "freeze_layers"].
Proof.
  intros H.
  rewrite (parse_args_keys _ _ _ _ supervised_parser_dests_set H), supervised_initial_keys.
  reflexivity.
Qed.

Lemma supervised_keywords_fixed_witness :
  option_map (map fst)
    (parse_args (fun _ s => Some (PStr s)) supervised_parser
       ["images"; "--lr"; "0.001"; "labels"; "models"; "--freeze_layers"])
  = Some supervised_keywords.
Proof.
  destruct (parse_args (fun _ s => Some (PStr s)) supervised_parser
              ["images"; "--lr"; "0.001"; "labels"; "models"; "--freeze_layers"])
    as [kwargs|] eqn:H.
  - simpl. now rewrite (supervised_keywords_fixed _ _ _ H).
  - vm_compute in H. discriminate.
Defined.

Lemma prefix_dash (t : string) : String.prefix "-" t = false -> String.prefix "--" t = false.
Proof.
  destruct t as [|c t]; [reflexivity|]. cbn [String.prefix].
  destruct (ascii_dec "-" c); [| reflexivity].
  intros H. now destruct t.
Qed.

Section Words.

Variable convert : arg_type -> string -> option pyval.

(** A token that is not an option fills the next positional argument. *)
Lemma parse_word (p : list argument) (tok : string) (rest : list string)
    (name dest : string) (ty : arg_type) (pending : list argument) (ns : namespace)
    (x : pyval) :
  String.prefix "-" tok = false ->
  convert ty tok = Some x ->
  parse_tokens convert p (tok :: rest) (Arg name dest (positional ty) :: pending) ns
  = parse_tokens convert p rest pending (set_attr ns dest x).
Proof. intros Hd Hx. simpl. now rewrite (prefix_dash _ Hd), Hx. Qed.

(** A token that is not an option is refused when every positional argument
    is filled. *)
Lemma parse_word_left (p : list argument) (tok : string) (rest : list string)
    (ns : namespace) :
  String.prefix "-" tok = false -> parse_tokens convert p (tok :: rest) [] ns = None.
Proof. intros Hd. simpl. now rewrite (prefix_dash _ Hd). Qed.

End Words.

(** X12.  The positional arguments of the supervised script are bound in
    the order [image_dir], [labels_dir], [model_dir].  On a command line
    without any option (no token starts with a dash; [str] converts every
    token to itself): three tokens give the namespace with the three
    directories bound in this order and every option at the default of its
    [add_argument] line; any other number of tokens ends the script with a
    usage error, before [supervised_training] is called. *)
Theorem supervised_positionals_in_order (convert : arg_type -> string -> option pyval)
    (sig : signature) (argv : list string) :
  (forall s, convert type_str s = Some (PStr s)) ->
  Forall (fun t => String.prefix "-" t = false) argv ->
  (forall i l m, argv = [i; l; m] ->
     parse_args convert supervised_parser argv
     = Some ([("image_dir", PStr i); ("labels_dir", PStr l); ("model_dir", PStr m)]
             ++ option_defaults supervised_parser))
  /\ (length argv <> 3%nat ->
      supervised_script convert sig argv = inl (Raise "SystemExit" "2")).
Proof.
  intros Hc Hw.
  assert (Hpend : List.filter is_positional supervised_parser
                  = [Arg "image_dir" "image_dir" (positional type_str);
                     Arg "labels_dir" "labels_dir" (positional type_str);
                     Arg "model_dir" "model_dir" (positional type_str)]) by reflexivity.
  split.
  - intros i l m ->. unfold parse_args. rewrite Hpend.
    apply Forall_cons_iff in Hw as [Hi Hw]. apply Forall_cons_iff in Hw as [Hl Hw].
    apply Forall_cons_iff in Hw as [Hm _].
    rewrite (parse_word _ _ _ _ _ _ _ _ _ _ Hi (Hc i)).
    rewrite (parse_word _ _ _ _ _ _ _ _ _ _ Hl (Hc l)).
    rewrite (parse_word _ _ _ _ _ _ _ _ _ _ Hm (Hc m)).
    reflexivity.
  - intros Hlen. unfold supervised_script, parse_args. rewrite Hpend.
    destruct argv as [|i argv]; [reflexivity|].
    apply Forall_cons_iff in Hw as [Hi Hw].
    rewrite (parse_word _ _ _ _ _ _ _ _ _ _ Hi (Hc i)).
    destruct argv as [|l argv]; [reflexivity|].
    apply Forall_cons_iff in Hw as [Hl Hw].
    rewrite (parse_word _ _ _ _ _ _ _ _ _ _ Hl (Hc l)).
    destruct argv as [|m argv]; [reflexivity|].
    apply Forall_cons_iff in Hw as [Hm Hw].
    rewrite (parse_word _ _ _ _ _ _ _ _ _ _ Hm (Hc m)).
    destruct argv as [|x argv]; [now contradiction Hlen|].
    apply Forall_cons_iff in Hw as [Hx _].
    now rewrite (parse_word_left _ _ _ _ _ Hx).
Qed.

Lemma supervised_positionals_in_order_witness :
  option_map (fun ns => (get_attr ns "image_dir", get_attr ns "labels_dir",
                         get_attr ns "model_dir", get_attr ns "nonlin_std"))
    (parse_args (fun _ s => Some (PStr s)) supervised_parser ["images"; "labels"; "models"])
  = Some (Some (PStr "images"), Some (PStr "labels"), Some (PStr "models"),
          Some (PFloat (3 # 1)))
  /\ supervised_script (fun _ s => Some (PStr s)) [] ["images"; "labels"]
     = inl (Raise "SystemExit" "2").
Proof.
  assert (Hc : forall s, (fun (_ : arg_type) s => Some (PStr s)) type_str s = Some (PStr s))
    by reflexivity.
  split.
  - assert (Hw : Forall (fun t => String.prefix "-" t = false) ["images"; "labels"; "models"])
      by (repeat constructor).
    rewrite (proj1 (supervised_positionals_in_order _ [] _ Hc Hw) _ _ _ eq_refl).
    reflexivity.
  - assert (Hw : Forall (fun t => String.prefix "-" t = false) ["images"; "labels"])
      by (repeat constructor).
    apply (proj2 (supervised_positionals_in_order _ [] _ Hc Hw)). simpl. lia.
Defined.

(** X13.  What the supervised script asks of [supervised_training].
    [SynthSeg.supervised_training] is not under src/; for any signature
    [sig] it may have, and any command line argparse accepts: when some
    keyword of the script is not a parameter of [sig], the call is refused
    with [TypeError] on the first such keyword, whatever the command line;
    when all thirty are parameters and [sig] needs no other argument, the
    call is accepted and each of the thirty parameters is bound to the
    value of the namespace, so that no default of [supervised_training] is
    used for them. *)
Theorem supervised_call_contract (convert : arg_type -> string -> option pyval)
    (sig : signature) (argv : list string) (kwargs : namespace) :
  parse_args convert supervised_parser argv = Some kwargs ->
  (forall k, find (fun k => negb (is_parameter sig k)) supervised_keywords = Some k ->
     supervised_script convert sig argv
     = inl (TypeError ("supervised_training() got an unexpected keyword argument '"
                       +:+ k +:+ "'")))
  /\ (forallb (is_parameter sig) supervised_keywords = true ->
      (forall p, In p sig -> snd p = None -> In (fst p) supervised_keywords) ->
      exists bound,
        supervised_script convert sig argv = inr bound
        /\ map fst bound = map fst sig
        /\ forall k, In k supervised_keywords ->
             get_attr bound k = get_attr kwargs k /\ get_attr kwargs k <> None).
Proof.
  intros Hp.
  assert (Hk : map fst kwargs = supervised_keywords).
  { rewrite (parse_args_keys _ _ _ _ supervised_parser_dests_set Hp).
    apply supervised_initial_keys. }
  unfold supervised_script. rewrite Hp. split.
  - intros k Hf. rewrite <- Hk in Hf.
    exact (call_kwargs_unexpected "supervised_training" sig kwargs k Hf).
  - intros Hall Hreq. rewrite <- Hk in Hall, Hreq.
    exists (map (bind_parameter kwargs) sig).
    split; [now apply call_kwargs_accepted|]. split.
    + rewrite map_map. apply map_ext. intros [k d]. unfold bind_parameter. simpl.
      now destruct (get_attr kwargs k), d.
    + intros k Hin. rewrite <- Hk in Hin.
      assert (Hh : has_attr kwargs k = true) by now apply has_attr_in.
      rewrite forallb_forall in Hall.
      split; [apply bound_to_keyword; auto|].
      destruct (has_attr_get _ _ Hh) as (v & ->). discriminate.
Qed.

Lemma supervised_call_contract_witness :
  supervised_script (fun _ s => Some (PStr s))
    (map (fun k => (k, Some PNone)) (removelast supervised_keywords))
    ["images"; "labels"; "models"]
  = inl (TypeError "supervised_training() got an unexpected keyword argument 'freeze_layers'")
  /\ option_map (fun bound => (get_attr bound "image_dir", get_attr bound "lr"))
       (match supervised_script (fun _ s => Some (PStr s))
                (map (fun k => (k, Some PNone)) supervised_keywords)
                ["images"; "labels"; "models"] with
        | inr bound => Some bound
        | inl _ => None
        end)
     = Some (Some (PStr "images"), Some (PFloat (1 # 10000))).
Proof.
  destruct (parse_args (fun _ s => Some (PStr s)) supervised_parser
              ["images"; "labels"; "models"]) as [kwargs|] eqn:H.
  2:{ vm_compute in H. discriminate. }
  split.
  - exact (proj1 (supervised_call_contract _
                    (map (fun k => (k, Some PNone)) (removelast supervised_keywords)) _ _ H)
             "freeze_layers" eq_refl).
  - destruct (proj2 (supervised_call_contract _
                       (map (fun k => (k, Some PNone)) supervised_keywords) _ _ H))
      as (bound & -> & _ & Hb).
    + reflexivity.
    + intros p Hin Hn. apply in_map_iff in Hin as (k & <- & _). discriminate.
    + simpl. destruct (Hb "image_dir") as [-> _]; [vm_compute; tauto|].
      destruct (Hb "lr") as [-> _]; [vm_compute; tauto|].
      vm_compute in H. injection H as <-. reflexivity.
Defined.

(** ** The command line of [training] and the resumption of a run *)

Lemma parser_dests_all_set :
  forallb (fun a => has_attr (initial_namespace parser) (arg_dest a)) parser = true.
Proof. vm_compute. reflexivity. Qed.

Lemma has_attr_of_keys (ns : namespace) (keys : list string) (k : string) :
  map fst ns = keys -> has_attr ns k = existsb (String.eqb k) keys.
Proof.
  intros <-. induction ns as [|[k' v] ns IH]; [reflexivity|].
  simpl. now rewrite IH, (String.eqb_sym k').
Qed.

(** X14.  The command line of [training] cannot resume a run.  Whatever the
    command line, when argparse accepts it the namespace has exactly the
    destinations of the forty-three [add_argument] lines as attributes: it
    never holds [load_model_file], [initial_epoch_wl2] or
    [initial_epoch_dice], the parameters by which [training] takes a run up
    again, while the weight file of [--checkpoint] is always passed under
    the name [checkpoint]. *)
Theorem command_line_never_resumes (convert : arg_type -> string -> option pyval)
    (argv : list string) (args : namespace) :
  parse_args convert parser argv = Some args ->
  map fst args = map arg_dest parser
  /\ has_attr args "load_model_file" = false
  /\ has_attr args "initial_epoch_wl2" = false
  /\ has_attr args "initial_epoch_dice" = false
  /\ has_attr args "checkpoint" = true
  /\ is_parameter training_signature "checkpoint" = false
  /\ length args = 43%nat.
Proof.
  intros H.
  assert (Hk : map fst args = map arg_dest parser).
  { rewrite (parse_args_keys _ _ _ _ parser_dests_all_set H). vm_compute. reflexivity. }
  split; [exact Hk|].
  rewrite !(has_attr_of_keys _ _ _ Hk). repeat split; try (vm_compute; reflexivity).
  rewrite <- (length_map fst args), Hk. vm_compute. reflexivity.
Qed.

Lemma command_line_never_resumes_witness :
  option_map (fun args => (has_attr args "load_model_file", has_attr args "checkpoint",
                           get_attr args "checkpoint"))
    (parse_args (fun _ s => Some (PStr s)) parser
       ["labels"; "models"; "--checkpoint"; "models/dice_010.h5"])
  = Some (false, true, Some (PStr "models/dice_010.h5")).
Proof.
  destruct (parse_args (fun _ s => Some (PStr s)) parser
              ["labels"; "models"; "--checkpoint"; "models/dice_010.h5"])
    as [args|] eqn:H.
  2:{ vm_compute in H. discriminate. }
  destruct (command_line_never_resumes _ _ _ H) as (_ & H1 & _ & _ & H2 & _).
  simpl. rewrite H1, H2. vm_compute in H. injection H as <-. reflexivity.
Defined.

(** ** A weight file that cannot be read *)

Section AbsentFile.

Context {X : Externals}.

Variable a : training_args.

Variable f : string.

Hypothesis file_given : load_model_file a = Some f.

Local Abbreviation untrained :=
  (fun ev : event X => is_epoch_event ev = false /\ is_compile ev = false).

Lemma load_absent (m : KModel X) (by_name : bool) (w : World X) :
  h5_layers X f w = None ->
  load_weights X m f by_name w = Outcome [Call_load_weights m f by_name] w (inl (OSError f)).
Proof. intros H. unfold load_weights, call. now rewrite H. Qed.

Lemma wl2_phase_absent sl u tg ld (w : World X) :
  0 < wl2_epochs a -> h5_layers X f w = None ->
  Forall untrained (trace (wl2_phase X a sl u tg ld w))
  /\ exists e, result (wl2_phase X a sl u tg ld w) = inl e.
Proof.
  intros Hw Hf. rewrite (wl2_phase_run a _ _ _ _ _ Hw). cbv zeta.
  destruct (Model_up_to X u _) as [e|m1]; [split; [now repeat constructor | eauto]|].
  destruct (metrics_model X sl m1 _) as [e|m2]; [split; [now repeat constructor | eauto]|].
  rewrite file_given.
  rewrite (bind_failed _ _ _ (OSError f)) by now rewrite load_absent.
  rewrite load_absent by exact Hf. cbn [trace result].
  split; [now repeat constructor | eauto].
Qed.

Lemma dice_phase_absent sl u tg ld (w : World X) :
  wl2_epochs a <= 0 -> 0 < dice_epochs a -> h5_layers X f w = None ->
  Forall untrained (trace (dice_phase X a sl u tg ld w))
  /\ exists e, result (dice_phase X a sl u tg ld w) = inl e.
Proof.
  intros Hw Hd Hf. rewrite (dice_phase_run a _ _ _ _ _ Hd). cbv zeta.
  destruct (metrics_model X sl u None) as [e|m]; [split; [now repeat constructor | eauto]|].
  assert (E : (0 <? wl2_epochs a) = false) by now apply Z.ltb_ge.
  rewrite E, file_given.
  rewrite (bind_failed _ _ _ (OSError f)) by now rewrite load_absent.
  rewrite load_absent by exact Hf. cbn [trace result].
  split; [now repeat constructor | eauto].
Qed.

Lemma run_absent (w : World X) :
  (0 <? wl2_epochs a) || (0 <? dice_epochs a) = true ->
  (forall r, result (prepare X a w) = inr r -> h5_layers X f (world (prepare X a w)) = None) ->
  Forall untrained (trace (training X a w))
  /\ exists e, result (training X a w) = inl e.
Proof.
  intros Hc Hf. rewrite (training_checked a w Hc).
  assert (Hp : Forall untrained (trace (prepare X a w))).
  { eapply Forall_impl; [apply prepare_log|]. intros ev Hev. now destruct ev. }
  destruct (result (prepare X a w)) as [e|[[[sl u] tg] ld]] eqn:Hr.
  { rewrite (bind_failed _ _ _ _ Hr). cbn [trace result]. split; [exact Hp | eauto]. }
  rewrite (bind_passed _ _ _ _ Hr). cbn [trace result].
  specialize (Hf _ eq_refl). set (w0 := world (prepare X a w)) in *.
  destruct (Z_lt_le_dec 0 (wl2_epochs a)) as [Hw|Hw].
  - destruct (wl2_phase_absent sl u tg ld w0 Hw Hf) as (Ht & e & He).
    rewrite (bind_failed _ _ _ _ He). cbn [trace result].
    split; [apply Forall_app; now split | eauto].
  - assert (Hd : 0 < dice_epochs a).
    { apply orb_true_iff in Hc as [Hc|Hc]; apply Z.ltb_lt in Hc; lia. }
    rewrite (bind_passed _ _ _ tt) by now rewrite (wl2_phase_skipped a _ _ _ _ _ Hw).
    rewrite (wl2_phase_skipped a _ _ _ _ _ Hw). cbn [trace result world app].
    destruct (dice_phase_absent sl u tg ld w0 Hw Hd Hf) as (Ht & e & He).
    rewrite He. split; [apply Forall_app; now split | eauto].
Qed.

End AbsentFile.

(** X15.  A weight file that cannot be read stops the run before any
    training.  When [load_model_file] is given and, once the setup is done
    (folders made, generator and network built), the file cannot be read,
    the run raises without having compiled a model or run a batch: the
    first phase that runs loads the file before it calls [train_model].
    The log holds no compilation, no epoch, no batch and no checkpoint. *)
Theorem unreadable_checkpoint_stops_before_training (X : Externals) (a : training_args)
    (w : World X) (f : string) :
  load_model_file a = Some f ->
  (forall r, result (prepare X a w) = inr r -> h5_layers X f (world (prepare X a w)) = None) ->
  (exists e, result (training X a w) = inl e)
  /\ compiles (trace (training X a w)) = []
  /\ train_steps (trace (training X a w)) = []
  /\ checkpoints (trace (training X a w)) = []
  /\ epochs_ended (trace (training X a w)) = [].
Proof.
  intros Hl Hf.
  destruct ((0 <? wl2_epochs a) || (0 <? dice_epochs a)) eqn:Hc.
  2:{ rewrite (training_unchecked a w Hc). cbn [trace result]. repeat split. eauto. }
  destruct (run_absent a f Hl w Hc Hf) as (Ht & He).
  split; [exact He|]. split; [|split; [|split]].
  - apply compiles_quiet. eapply Forall_impl; [exact Ht|]. now intros ev [_ Hev].
  - apply train_steps_quiet. eapply Forall_impl; [exact Ht|]. intros ev [Hev _]. now destruct ev.
  - apply checkpoints_quiet. eapply Forall_impl; [exact Ht|]. intros ev [Hev _]. now destruct ev.
  - apply epochs_ended_quiet. eapply Forall_impl; [exact Ht|]. intros ev [Hev _]. now destruct ev.
Qed.

Lemma unreadable_checkpoint_stops_before_training_witness :
  result (training Demo.X from_absent_file Scenario.files) = inl (OSError "absent.h5")
  /\ compiles (trace (training Demo.X from_absent_file Scenario.files)) = []
  /\ mkdir_calls (trace (training Demo.X from_absent_file Scenario.files))
     = ["models"; "models/logs"].
Proof.
  assert (Hf : forall r, result (prepare Demo.X from_absent_file Scenario.files) = inr r ->
                 h5_layers Demo.X "absent.h5"
                   (world (prepare Demo.X from_absent_file Scenario.files)) = None)
    by (intros r _; vm_compute; reflexivity).
  destruct (unreadable_checkpoint_stops_before_training Demo.X from_absent_file
              Scenario.files "absent.h5" eq_refl Hf) as (_ & Hc & _).
  split; [vm_compute; reflexivity|]. split; [exact Hc | vm_compute; reflexivity].
Defined.


(** ** The claims on a model directory with a brace in its name *)

(** C5 fails on the code.  [train_model] joins [model_dir], as it is, to the
    template [dice_{epoch:03d}.h5] that keras fills with [str.format].  When
    the name of [model_dir] has one brace in it, a run started with
    [initial_epoch_dice = k], [0 <= k < dice_epochs], has [dice_epochs - k]
    dice epochs to run and yet, whatever its collaborators do, ends none of
    them and writes no checkpoint: the run never returns. *)
Theorem resume_stopped_by_brace (X : Externals) (a : training_args) (w : World X)
    (p q : string) (b : ascii) :
  model_dir a = p +:+ String b q ->
  b = "{"%char \/ b = "}"%char ->
  brace_free p = true ->
  brace_free q = true ->
  0 <= initial_epoch_dice a < dice_epochs a ->
  (0 < Z.to_nat (dice_epochs a - initial_epoch_dice a))%nat
  /\ epochs_ended (trace (training X a w)) = []
  /\ checkpoints (trace (training X a w)) = []
  /\ result (training X a w) <> inr tt.
Proof.
  intros Hm Hb Hp Hq Hk.
  destruct (run_braced a p q b Hm Hb Hp Hq w) as [Hl Hr].
  split; [lia|]. split; [|split].
  - apply epochs_ended_quiet. eapply Forall_impl; [exact Hl|]. now intros ev [Hev _].
  - apply checkpoints_quiet. eapply Forall_impl; [exact Hl|]. now intros ev [_ Hev].
  - intros H. destruct (Hr H) as [_ Hd]. unfold dice_schedule, phase_epochs in Hd.
    assert (E : (0 <? dice_epochs a) = true) by (apply Z.ltb_lt; lia).
    rewrite E in Hd.
    destruct (Z.to_nat (dice_epochs a - initial_epoch_dice a)) eqn:En; [lia | discriminate].
Qed.

Lemma resume_stopped_by_brace_witness :
  (result (training Demo.X Braces.resumed_plain Scenario.files) = inr tt
   /\ epochs_ended (trace (training Demo.X Braces.resumed_plain Scenario.files)) = [1; 2]
   /\ checkpoints (trace (training Demo.X Braces.resumed_plain Scenario.files))
      = ["models/dice_002.h5"; "models/dice_003.h5"])
  /\ result (training Demo.X Braces.resumed_one_brace Scenario.files) <> inr tt
  /\ epochs_ended (trace (training Demo.X Braces.resumed_one_brace Scenario.files)) = []
  /\ checkpoints (trace (training Demo.X Braces.resumed_one_brace Scenario.files)) = []
  /\ train_steps (trace (training Demo.X Braces.resumed_one_brace Scenario.files))
     = [(1, 0%nat); (1, 1%nat)]
  /\ mkdir_calls (trace (training Demo.X Braces.resumed_one_brace Scenario.files))
     = ["run{1"; "run{1/logs"].
Proof.
  assert (Hk : 0 <= initial_epoch_dice Braces.resumed_one_brace
               < dice_epochs Braces.resumed_one_brace) by (simpl; lia).
  destruct (resume_stopped_by_brace Demo.X Braces.resumed_one_brace Scenario.files
              "run" "1" "{" eq_refl (or_introl eq_refl) eq_refl eq_refl Hk)
    as (_ & He & Hc & Hr).
  split; [repeat split; vm_compute; reflexivity|].
  split; [exact Hr|]. split; [exact He|]. split; [exact Hc|].
  split; vm_compute; reflexivity.
Defined.

(** C6 fails on the code.  [training] makes the folder [model_dir] under its
    name as it is, while the checkpoints go where keras' [str.format] sends
    the template [model_dir/<tag>_{epoch:03d}.h5].  In the directory
    [m{{x}}] the run returns, its two dice epochs end, each after its
    weight-only checkpoint, and the fit is given the checkpoint callback
    followed by the TensorBoard callback; but the files that
    [save_weights] is asked to write are [m{x}/dice_001.h5] and
    [m{x}/dice_002.h5]: none of them is in [model_dir], where the folders
    were made and the summaries go, and after the run [model_dir] holds no
    checkpoint of either epoch.  With a warm-up before, its checkpoint
    goes to [m{x}/wl2_001.h5] and the dice model, which looks for it in
    [model_dir], cannot be started. *)
Theorem checkpoints_outside_model_dir :
  result (training Demo.X Braces.escaped Scenario.files) = inr tt
  /\ mkdir_calls (trace (training Demo.X Braces.escaped Scenario.files))
     = ["m{{x}}"; "m{{x}}/logs"]
  /\ fit_callbacks (trace (training Demo.X Braces.escaped Scenario.files))
     = [[ModelCheckpoint "m{{x}}/dice_{epoch:03d}.h5" true 1;
         TensorBoard "m{{x}}/logs" 0 true false]]
  /\ epochs_ended (trace (training Demo.X Braces.escaped Scenario.files)) = [0; 1]
  /\ writes (trace (training Demo.X Braces.escaped Scenario.files))
     = [Weights "m{x}/dice_001.h5"; Summary "m{{x}}/logs" 0;
        Weights "m{x}/dice_002.h5"; Summary "m{{x}}/logs" 1]
  /\ Forall (fun f => String.prefix (model_dir Braces.escaped) f = false)
       (checkpoints (trace (training Demo.X Braces.escaped Scenario.files)))
  /\ bool_decide ("m{{x}}" ∈ Demo.dirs (world (training Demo.X Braces.escaped Scenario.files)))
     = true
  /\ Demo.h5_files (world (training Demo.X Braces.escaped Scenario.files))
       !! "m{{x}}/dice_001.h5" = None
  /\ Demo.h5_files (world (training Demo.X Braces.escaped Scenario.files))
       !! "m{{x}}/dice_002.h5" = None
  /\ checkpoints (trace (training Demo.X Braces.escaped_two_phases Scenario.files))
     = ["m{x}/wl2_001.h5"]
  /\ loads (trace (training Demo.X Braces.escaped_two_phases Scenario.files))
     = [("m{{x}}/wl2_001.h5", true)]
  /\ result (training Demo.X Braces.escaped_two_phases Scenario.files)
     = inl (OSError "m{{x}}/wl2_001.h5").
Proof.
  assert (Hc : checkpoints (trace (training Demo.X Braces.escaped Scenario.files))
               = ["m{x}/dice_001.h5"; "m{x}/dice_002.h5"]) by (vm_compute; reflexivity).
  repeat split; try (vm_compute; reflexivity).
  rewrite Hc. repeat constructor.
Qed.
